(** * hol2ics: conversion of Outlook holiday files (.hol) to iCalendar (.ics)

    A shallow embedding of [hol2ics.py] and the properties of its reader,
    its writer and its command-line entry point.

    Conventions of the embedding.
    - A Python [str] is a [string]; a character is a code point below 256.
    - A raised exception is the [Raise] case of [result].  Every exception
      the script raises by itself is a Python [ValueError]; the constructors
      of [exn] keep the raise sites apart.  The one exception that comes
      from the operating system is the [OSError] of opening the source.
    - The file system is a finite map from path strings to file contents.
      A path is in the map when [open] can read a file there, and its
      value is the text as the text layer of Python hands it over (after
      newline translation on reading, POSIX on writing); at any other path
      (nothing there, a directory, no permission) [open] for reading
      raises.  The destination is taken as a file of its own that can be
      written: a link from it to another file of the map, and the errors
      of opening and writing it, are outside the embedding.
    - [strftime] is that of CPython before 3.13 on glibc, where the C
      library prints the year.
    - [uuid.uuid4()] and [datetime.datetime.now()] read the [world]: the
      values the successive calls return. *)

From Stdlib Require Import Ascii String List Arith Lia NArith DecimalString.
From stdpp Require Import base strings gmap.
Import ListNotations.

Local Open Scope string_scope.
Local Open Scope list_scope.
Local Open Scope N_scope.

#[local] Arguments String.append !s1 s2 : simpl nomatch.

(* ===================================================================== *)
(** * Exceptions and results *)
(* ===================================================================== *)

(** Why [datetime.datetime.strptime] raised its [ValueError]. *)
Inductive strptime_failure : Type :=
| NoMatch          (* "time data ... does not match format ..." *)
| Unconverted      (* "unconverted data remains: ..." *)
| OutOfRange.      (* the date constructor refused year, month or day *)

Inductive exn : Type :=
| ValueError (msg : string)          (* [raise ValueError(msg)] of the script *)
| UnpackError (got : nat)            (* ValueError of [a, b = <list of got items>] *)
| StrptimeError (why : strptime_failure)
| EmptyNameError (path : string)     (* ValueError of [with_suffix]: no name *)
| OSError (path : string).            (* what [open(path)] raised: a
                                        FileNotFoundError, IsADirectoryError,
                                        PermissionError, ... *)

Inductive result (A : Type) : Type :=
| Return (a : A)
| Raise (e : exn).
Arguments Return {A} a.
Arguments Raise {A} e.

Definition bind {A B : Type} (r : result A) (k : A -> result B) : result B :=
  match r with
  | Return a => k a
  | Raise e => Raise e
  end.

Definition raises {A : Type} (r : result A) : bool :=
  match r with
  | Return _ => false
  | Raise _ => true
  end.

(** The instances of Python's [ValueError] among the exceptions. *)
Definition is_ValueError (e : exn) : bool :=
  match e with
  | ValueError _ | UnpackError _ | StrptimeError _ | EmptyNameError _ => true
  | OSError _ => false
  end.

(* ===================================================================== *)
(** * Characters and strings *)
(* ===================================================================== *)

Definition LF : ascii := ascii_of_N 10.
Definition CR : ascii := ascii_of_N 13.
Definition CRLF : string := String CR (String LF "").

(** [str.isspace] on one character, which is also the class [\s] of [re] on
    a [str] pattern: the code points below 256 that Unicode counts as
    white space. *)
Definition isspace (c : ascii) : bool :=
  let n := N_of_ascii c in
  ((9 <=? n) && (n <=? 13)) || ((28 <=? n) && (n <=? 32))
  || (n =? 133) || (n =? 160).

(** The classes [[0-9]] and [\d] (below 256 the decimal digits of Unicode
    are the ASCII ones). *)
Definition isdigit (c : ascii) : bool :=
  let n := N_of_ascii c in (48 <=? n) && (n <=? 57).

(** The class [.] of [re] without DOTALL: anything but a line feed. *)
Definition isdot (c : ascii) : bool := negb (Ascii.eqb c LF).

Fixpoint forallb_str (p : ascii -> bool) (s : string) : bool :=
  match s with
  | EmptyString => true
  | String c s' => p c && forallb_str p s'
  end.

(** The number of occurrences of the character [c] in [s]. *)
Fixpoint count_char (c : ascii) (s : string) : nat :=
  match s with
  | EmptyString => O
  | String a s' => (if Ascii.eqb a c then 1 else 0) + count_char c s'
  end.

(** [sub in s] for the strings of Python. *)
Fixpoint contains (sub s : string) : bool :=
  String.prefix sub s ||
  match s with
  | EmptyString => false
  | String _ s' => contains sub s'
  end.

(** [s.split(sep)] for a separator of one character: the pieces between
    the separators, of which there is one more than separators. *)
Fixpoint split (sep : ascii) (s : string) : list string :=
  match s with
  | EmptyString => [EmptyString]
  | String c s' =>
      if Ascii.eqb c sep then EmptyString :: split sep s'
      else match split sep s' with
           | p :: ps => String c p :: ps
           | [] => [String c EmptyString]
           end
  end.

Fixpoint lstrip (s : string) : string :=
  match s with
  | EmptyString => EmptyString
  | String c s' => if isspace c then lstrip s' else s
  end.

Fixpoint rstrip (s : string) : string :=
  match s with
  | EmptyString => EmptyString
  | String c s' =>
      match rstrip s' with
      | EmptyString => if isspace c then EmptyString else String c EmptyString
      | r => String c r
      end
  end.

(** [s.strip()] *)
Definition strip (s : string) : string := rstrip (lstrip s).

(** [sep.join(lines)] *)
Fixpoint join (sep : string) (lines : list string) : string :=
  match lines with
  | [] => EmptyString
  | [l] => l
  | l :: ls => l +:+ sep +:+ join sep ls
  end.

(* ===================================================================== *)
(** * Dates: [datetime.datetime] *)
(* ===================================================================== *)

Record datetime : Type := mkdatetime {
  year : N; month : N; day : N;
  hour : N; minute : N; second : N
}.

Definition is_leap (y : N) : bool :=
  (y mod 4 =? 0) && (negb (y mod 100 =? 0) || (y mod 400 =? 0)).

Definition days_in_month (y m : N) : N :=
  match m with
  | 2 => if is_leap y then 29 else 28
  | 4 | 6 | 9 | 11 => 30
  | _ => 31
  end.

(** The check of the date constructor: MINYEAR = 1, MAXYEAR = 9999. *)
Definition valid_date (y m d : N) : bool :=
  (1 <=? y) && (y <=? 9999) && (1 <=? m) && (m <=? 12)
  && (1 <=? d) && (d <=? days_in_month y m).

Definition digit_val (c : ascii) : N := N_of_ascii c - 48.

(** One alternative of a group of the format's regular expression: the
    number read and the rest of the text. *)
Definition alternative : Type := string -> option (N * string).

(** Two characters [c1 c2] with [c1] in [lo1..hi1] and [c2] in [lo2..hi2]. *)
Definition two_chars (lo1 hi1 lo2 hi2 : N) : alternative := fun s =>
  match s with
  | String c1 (String c2 r) =>
      let n1 := N_of_ascii c1 in
      let n2 := N_of_ascii c2 in
      if (lo1 <=? n1) && (n1 <=? hi1) && (lo2 <=? n2) && (n2 <=? hi2)
      then Some (10 * digit_val c1 + digit_val c2, r) else None
  | _ => None
  end.

(** One character in [lo..hi]. *)
Definition one_char (lo hi : N) : alternative := fun s =>
  match s with
  | String c r =>
      let n := N_of_ascii c in
      if (lo <=? n) && (n <=? hi) then Some (digit_val c, r) else None
  | _ => None
  end.

(** A space and one character in [lo..hi]. *)
Definition space_char (lo hi : N) : alternative := fun s =>
  match s with
  | String c r => if Ascii.eqb c " " then one_char lo hi r else None
  | _ => None
  end.

(** What an alternative reads has no comma in it. *)
Definition comma_free_alt (a : alternative) : Prop :=
  forall s n r, a s = Some (n, r) ->
    exists p, s = p +:+ r /\ count_char "," p = O.

(** [%m] is [(1[0-2]|0[1-9]|[1-9])]. *)
Definition re_m : list alternative :=
  [two_chars 49 49 48 50; two_chars 48 48 49 57; one_char 49 57].

(** [%d] is [(3[0-1]|[1-2]\d|0[1-9]|[1-9]| [1-9])]. *)
Definition re_d : list alternative :=
  [two_chars 51 51 48 49; two_chars 49 50 48 57; two_chars 48 48 49 57;
   one_char 49 57; space_char 49 57].

(** [%Y] is [(\d\d\d\d)]. *)
Definition re_Y (s : string) : option (N * string) :=
  match s with
  | String c1 (String c2 (String c3 (String c4 r))) =>
      if isdigit c1 && isdigit c2 && isdigit c3 && isdigit c4
      then Some (1000 * digit_val c1 + 100 * digit_val c2
                 + 10 * digit_val c3 + digit_val c4, r)
      else None
  | _ => None
  end.

(** A group of alternatives followed by the rest [k] of the expression:
    the alternatives are tried from left to right, and the first one after
    which [k] succeeds is taken (backtracking). *)
Fixpoint re_group {R : Type} (alts : list alternative)
    (k : N -> string -> option R) (s : string) : option R :=
  match alts with
  | [] => None
  | a :: alts' =>
      match match a s with Some (n, r) => k n r | None => None end with
      | Some x => Some x
      | None => re_group alts' k s
      end
  end.

Definition re_slash {R : Type} (k : string -> option R) (s : string) : option R :=
  match s with
  | String c r => if Ascii.eqb c "/" then k r else None
  | EmptyString => None
  end.

(** [re.match] of the expression of the format ["%Y/%m/%d"]: year, month,
    day and what is left of the text after the match. *)
Definition re_ymd (s : string) : option (N * N * N * string) :=
  match re_Y s with
  | Some (y, r) =>
      re_slash (re_group re_m (fun m =>
        re_slash (re_group re_d (fun d r' => Some (y, m, d, r'))))) r
  | None => None
  end.

(** [datetime.datetime.strptime(s, "%Y/%m/%d")] *)
Definition strptime_ymd (s : string) : result datetime :=
  match re_ymd s with
  | None => Raise (StrptimeError NoMatch)
  | Some (y, m, d, EmptyString) =>
      if valid_date y m d then Return (mkdatetime y m d 0 0 0)
      else Raise (StrptimeError OutOfRange)
  | Some (_, _, _, String _ _) => Raise (StrptimeError Unconverted)
  end.

(* ===================================================================== *)
(** * [line_to_event_tuple] *)
(* ===================================================================== *)

Definition event : Type := (string * datetime)%type.

(** [day_title, date_str = line.split(",")]: the unpacking wants exactly
    two pieces. *)
Definition split_record (line : string) : result (string * string) :=
  match split "," line with
  | [day_title; date_str] => Return (day_title, date_str)
  | pieces => Raise (UnpackError (length pieces))
  end.

Definition line_to_event_tuple (line : string) : result event :=
  bind (split_record line) (fun '(day_title, date_str) =>
  bind (strptime_ymd (strip date_str)) (fun begin_datetime =>
  Return (day_title, begin_datetime))).

(* ===================================================================== *)
(** * Formatting: [strftime] and [str(uuid)] *)
(* ===================================================================== *)

(** [str(n)] for a natural number. *)
Definition dec (n : N) : string := NilZero.string_of_uint (N.to_uint n).

Fixpoint zeros (k : nat) : string :=
  match k with
  | O => EmptyString
  | S k' => String "0" (zeros k')
  end.

(** ["%0<w>d" % n]: at least [w] digits, zeros on the left; [%m], [%d],
    [%H], [%M] and [%S] are two digits each. *)
Definition zfill (w : nat) (n : N) : string :=
  zeros (w - String.length (dec n)) +:+ dec n.

(** [d.strftime("%Y%m%d")].  Before CPython 3.13 the C library prints
    [%Y], and glibc prints the year as it is, without zeros on the left:
    [datetime(999, 1, 1).strftime("%Y%m%d")] is ['9990101'] and that of
    the year 5 is ['50101'].  From the year 1000 on the year has its four
    digits. *)
Definition strftime_ymd (d : datetime) : string :=
  dec (year d) +:+ zfill 2 (month d) +:+ zfill 2 (day d).

(** [d.strftime(ICS_DATETIME_FORMAT)], the format being ["%Y%m%dT%H%M%S"],
    for the times the clock gives: their year has four digits. *)
Definition strftime_ics (d : datetime) : string :=
  zfill 4 (year d) +:+ zfill 2 (month d) +:+ zfill 2 (day d) +:+ "T"
  +:+ zfill 2 (hour d) +:+ zfill 2 (minute d) +:+ zfill 2 (second d).

Definition hex_digit (d : N) : ascii :=
  if d <? 10 then ascii_of_N (48 + d) else ascii_of_N (87 + d).

(** ["%0<w>x" % n] for [n] below [16 ^ w]. *)
Fixpoint hex_fixed (w : nat) (n : N) : string :=
  match w with
  | O => EmptyString
  | S w' => hex_fixed w' (n / 16) +:+ String (hex_digit (n mod 16)) EmptyString
  end.

(** [str(u)] for a UUID of integer value [n]: the 32 hexadecimal digits in
    groups of 8, 4, 4, 4 and 12. *)
Definition str_uuid (n : N) : string :=
  let h := hex_fixed 32 n in
  substring 0 8 h +:+ "-" +:+ substring 8 4 h +:+ "-" +:+ substring 12 4 h
  +:+ "-" +:+ substring 16 4 h +:+ "-" +:+ substring 20 12 h.

(* ===================================================================== *)
(** * The world: random identifiers and the clock *)
(* ===================================================================== *)

(** What the [i]-th call of [uuid.uuid4()] and of
    [datetime.datetime.now().astimezone()] return during one run: the
    integer of the UUID (below [2 ^ 128]) and the local time. *)
Record world : Type := mkworld {
  uuid4 : nat -> N;
  now : nat -> datetime
}.

(** Files by path, and the lines printed so far. *)
Record state : Type := mkstate {
  files : gmap string string;
  stdout : list string
}.

Definition print (line : string) (st : state) : state :=
  mkstate (files st) (stdout st ++ [line]).

(** [path.open("w")] followed by the writing of [text] and the closing,
    for a [path] that can be written and is a file of its own. *)
Definition write_text (path text : string) (st : state) : state :=
  mkstate (<[path := text]> (files st)) (stdout st).

(* ===================================================================== *)
(** * [write_ics_file] *)
(* ===================================================================== *)

(** An iterable whose items are computed when the loop asks for them, as
    the [map] object the reader returns: an item that raises ends the
    iteration with its exception. *)
Definition iterable (A : Type) : Type := list (result A).

(** The lines of one event, written at the [i]-th turn of the loop. *)
Definition event_lines (w : world) (i : nat) (name : string)
    (start_date : datetime) : list string :=
  let creation_time := strftime_ics (now w i) in
  let start_date := strftime_ymd start_date in
  [ "BEGIN:VEVENT";
    "UID:" +:+ str_uuid (uuid4 w i);
    "DTSTAMP:" +:+ creation_time;
    "DTSTART;VALUE=DATE:" +:+ start_date;
    "SUMMARY:" +:+ name;
    "END:VEVENT" ].

(** [for name, start_date in events: ... lines += event_lines] *)
Fixpoint event_loop (w : world) (i : nat) (events : iterable event)
    (lines : list string) : result (list string) :=
  match events with
  | [] => Return lines
  | item :: events' =>
      bind item (fun '(name, start_date) =>
        event_loop w (S i) events' (lines ++ event_lines w i name start_date))
  end.

Definition write_ics_file (events : iterable event)
    (destination_filename title : string) (w : world) (st : state)
    : result unit * state :=
  let lines :=
    [ "BEGIN:VCALENDAR";
      "VERSION:2.0";
      "PRODID:-//" +:+ title +:+ "//EN" ] in
  match event_loop w 0%nat events lines with
  | Raise e => (Raise e, st)
  | Return lines =>
      let lines := lines ++ ["END:VCALENDAR"] in
      let ics_str := join CRLF lines in
      (Return tt, write_text destination_filename ics_str st)
  end.

(* ===================================================================== *)
(** * [read_hol_file] *)
(* ===================================================================== *)

(** The longest run of characters of class [p] at the start of [s], and
    the rest. *)
Fixpoint span (p : ascii -> bool) (s : string) : string * string :=
  match s with
  | EmptyString => (EmptyString, EmptyString)
  | String c s' =>
      if p c then let '(run, rest) := span p s' in (String c run, rest)
      else (EmptyString, s)
  end.

(** The first character of a string, if any, is not of class [p]. *)
Definition not_headed (p : ascii -> bool) (s : string) : bool :=
  match s with
  | EmptyString => true
  | String c _ => negb (p c)
  end.

(** [\]\s*(?P<count>[0-9]+)] at the start of [s]: the count.  Both stars
    are greedy, and giving back a white space or a digit never helps, the
    two classes being disjoint and nothing following the digits. *)
Definition re_close_count (s : string) : option string :=
  match s with
  | String c r =>
      if Ascii.eqb c "]" then
        let '(_, r1) := span isspace r in
        let '(count, _) := span isdigit r1 in
        match count with
        | EmptyString => None
        | _ => Some count
        end
      else None
  | EmptyString => None
  end.

(** [(?P<title>.+)\]\s*(?P<count>[0-9]+)] at the start of [s]: [.+] is
    greedy, so the longer titles are tried before the shorter ones. *)
Fixpoint re_title_count (s : string) : option (string * string) :=
  match s with
  | EmptyString => None
  | String c s' =>
      if isdot c then
        match re_title_count s' with
        | Some (title, count) => Some (String c title, count)
        | None =>
            match re_close_count s' with
            | Some count => Some (String c EmptyString, count)
            | None => None
            end
        end
      else None
  end.

(** [re.match(header_pattern, header)] with the groups [title] and
    [count]; the pattern is [\[(?P<title>.+)\]\s*(?P<count>[0-9]+)]. *)
Definition match_header (header : string) : option (string * string) :=
  match header with
  | String c r => if Ascii.eqb c "[" then re_title_count r else None
  | EmptyString => None
  end.

(** [handler.readline()]: the text up to and with the first line feed, and
    what is left to read. *)
Fixpoint readline (text : string) : string * string :=
  match text with
  | EmptyString => (EmptyString, EmptyString)
  | String c r =>
      if Ascii.eqb c LF then (String c EmptyString, r)
      else let '(line, rest) := readline r in (String c line, rest)
  end.

(** [handler.readlines()]: the lines left, each with its line feed. *)
Fixpoint readlines (text : string) : list string :=
  match text with
  | EmptyString => []
  | String c r =>
      if Ascii.eqb c LF then String c EmptyString :: readlines r
      else match readlines r with
           | line :: lines => String c line :: lines
           | [] => [String c EmptyString]
           end
  end.

Definition validator_hint : string :=
  "You can try to validate the resultant file using this webform: https://icalendar.org/validator.html".

(** The source is opened for reading: where no file can be read,
    [open] raises.  The header is searched in the first line, the hint is
    printed once it is found, and the lines behind it are left to the
    caller as a lazy [map]. *)
Definition read_hol_file (source_filename : string) (st : state)
    : result (string * iterable event) * state :=
  match files st !! source_filename with
  | None => (Raise (OSError source_filename), st)
  | Some text =>
      let '(header, rest) := readline text in
      match match_header header with
      | Some (title, count) =>
          (Return (title, map line_to_event_tuple (readlines rest)),
           print validator_hint st)
      | None =>
          (Raise (ValueError "Unable to find header in given hol file"), st)
      end
  end.

(* ===================================================================== *)
(** * The command line: paths and [__main__] *)
(* ===================================================================== *)

(** A path is the string of a normalised [Path]: no slash at its end, no
    two slashes in a row.  [path.name] is its last component; the path
    ["."], which has no component, has the empty name. *)
Definition name (path : string) : string :=
  if String.eqb path "." then EmptyString
  else List.last (split "/" path) EmptyString.

(** [s[s.rfind("."):]], if there is a dot in [s]. *)
Fixpoint from_last_dot (s : string) : option string :=
  match s with
  | EmptyString => None
  | String c r =>
      match from_last_dot r with
      | Some x => Some x
      | None => if Ascii.eqb c "." then Some s else None
      end
  end.

(** [path.suffix]: the name from its last dot on, when that dot is neither
    the first nor the last character of the name. *)
Definition suffix (path : string) : string :=
  let n := name path in
  match from_last_dot n with
  | Some x =>
      if ((1 <? String.length x) && (String.length x <? String.length n))%nat
      then x else EmptyString
  | None => EmptyString
  end.

(** [path.with_suffix(new)] for a [new] that is a well-formed suffix. *)
Definition with_suffix (path new : string) : result string :=
  if String.eqb (name path) EmptyString
  then Raise (EmptyNameError path)
  else
    let old_suffix := suffix path in
    Return (substring 0 (String.length path - String.length old_suffix) path
            +:+ new).

(** The script after the parsing of the arguments: [source_path] and the
    optional [--dest]. *)
Definition main (source_path : string) (destination_path : option string)
    (w : world) (st : state) : result unit * state :=
  if negb (String.eqb (suffix source_path) ".hol") then
    (Raise (ValueError "Source file has to end with the hol extension"), st)
  else
    let chosen :=
      match destination_path with
      | Some given =>
          if negb (String.eqb (suffix source_path) ".ics") then
            Raise (ValueError "Destination file has to end with the ics extension")
          else Return given
      | None => with_suffix source_path ".ics"
      end in
    match chosen with
    | Raise e => (Raise e, st)
    | Return destination_path =>
        let st := print ("Attempting to convert " +:+ source_path +:+ " into "
                         +:+ destination_path) st in
        match read_hol_file source_path st with
        | (Raise e, st) => (Raise e, st)
        | (Return (title, events), st) =>
            write_ics_file events destination_path title w st
        end
    end.

(* ===================================================================== *)
(** * The document, as the format describes it *)
(* ===================================================================== *)

(** The block of one record, every line with its CRLF: the block is the
    [i]-th of the document. *)
Definition vevent_block (w : world) (i : nat) (record : event) : string :=
  "BEGIN:VEVENT" +:+ CRLF
  +:+ "UID:" +:+ str_uuid (uuid4 w i) +:+ CRLF
  +:+ "DTSTAMP:" +:+ strftime_ics (now w i) +:+ CRLF
  +:+ "DTSTART;VALUE=DATE:" +:+ strftime_ymd (snd record) +:+ CRLF
  +:+ "SUMMARY:" +:+ fst record +:+ CRLF
  +:+ "END:VEVENT" +:+ CRLF.

(** The blocks of the records, in the order of the records. *)
Fixpoint vevent_blocks (w : world) (i : nat) (records : list event) : string :=
  match records with
  | [] => EmptyString
  | record :: records' =>
      vevent_block w i record +:+ vevent_blocks w (S i) records'
  end.

(** The whole document: no CRLF after its last line. *)
Definition vcalendar (title : string) (records : list event) (w : world)
    : string :=
  "BEGIN:VCALENDAR" +:+ CRLF
  +:+ "VERSION:2.0" +:+ CRLF
  +:+ "PRODID:-//" +:+ title +:+ "//EN" +:+ CRLF
  +:+ vevent_blocks w 0%nat records
  +:+ "END:VCALENDAR".

(** The lines the loop adds for [records], the first of them at turn [i]. *)
Fixpoint records_lines (w : world) (i : nat) (records : list event)
    : list string :=
  match records with
  | [] => []
  | (name, start_date) :: records' =>
      event_lines w i name start_date ++ records_lines w (S i) records'
  end.

(** The lines one after the other, every one with the separator behind it. *)
Fixpoint terminated (sep : string) (lines : list string) : string :=
  match lines with
  | [] => EmptyString
  | l :: ls => l +:+ sep +:+ terminated sep ls
  end.

(** The file of the end-to-end example: a header and two records. *)
Definition example_hol : string :=
  "[Test] 2" +:+ String LF "A,2024/01/01" +:+ String LF "B,2024/12/31".

(** A first line without brackets. *)
Definition example_bad_header : string := "Holidays 2024 12" +:+ String LF "".

(** A file whose second record has no comma. *)
Definition example_malformed_hol : string :=
  "[Test] 2" +:+ String LF "A,2024/01/01" +:+ String LF "No comma here".

(** A file whose record is of a year below 1000. *)
Definition example_old_hol : string :=
  "[Old] 1" +:+ String LF "Founding,0999/01/01".

(** A state whose only file is [text] at [path], nothing printed yet. *)
Definition one_file (path text : string) : state :=
  mkstate {[ path := text ]} [].

Definition example_world : world :=
  mkworld (fun i => N.of_nat i) (fun i => mkdatetime 2026 11 3 9 5 (N.of_nat i)).

(* ===================================================================== *)
(** * Documents that differ in UID and DTSTAMP only *)
(* ===================================================================== *)

(** [doc.split("\r\n")]: the content lines of a document. *)
Fixpoint split_crlf (s : string) : list string :=
  match s with
  | EmptyString => [EmptyString]
  | String c s' =>
      match s' with
      | String c' s'' =>
          if Ascii.eqb c CR && Ascii.eqb c' LF
          then EmptyString :: split_crlf s''
          else match split_crlf s' with
               | p :: ps => String c p :: ps
               | [] => [String c EmptyString]
               end
      | EmptyString => [String c EmptyString]
      end
  end.

(** Two content lines are the same, or are both a UID field, or are both a
    DTSTAMP field. *)
Definition same_field (l1 l2 : string) : Prop :=
  l1 = l2
  \/ (String.prefix "UID:" l1 = true /\ String.prefix "UID:" l2 = true)
  \/ (String.prefix "DTSTAMP:" l1 = true /\ String.prefix "DTSTAMP:" l2 = true).

(** Two documents have the same content lines, one by one, but for the
    values of their UID and DTSTAMP fields. *)
Definition same_apart_from_uid_dtstamp (doc1 doc2 : string) : Prop :=
  Forall2 same_field (split_crlf doc1) (split_crlf doc2).

(** The same for what is found at a path: no file on either side, or two
    documents that differ in UID and DTSTAMP only. *)
Definition same_file (f1 f2 : option string) : Prop :=
  match f1, f2 with
  | Some doc1, Some doc2 => same_apart_from_uid_dtstamp doc1 doc2
  | None, None => True
  | _, _ => False
  end.

(** No line feed in the string. *)
Definition lf_free (s : string) : Prop := count_char LF s = O.

(** What is found at a path after two runs whose lines are related by
    [R]: no file on either side, or the same file, or two documents
    joined from lines that [R] relates one by one. *)
Definition related_file (R : string -> string -> Prop)
    (f1 f2 : option string) : Prop :=
  match f1, f2 with
  | Some doc1, Some doc2 =>
      doc1 = doc2
      \/ exists ls1 ls2,
           doc1 = join CRLF ls1 /\ doc2 = join CRLF ls2 /\ ls1 <> []
           /\ Forall lf_free ls1 /\ Forall lf_free ls2 /\ Forall2 R ls1 ls2
  | None, None => True
  | _, _ => False
  end.

(** Another run: other identifiers, a later clock. *)
Definition example_world_later : world :=
  mkworld (fun i => 1000 + N.of_nat i)
          (fun i => mkdatetime 2026 11 4 18 30 (N.of_nat i)).

(* ===================================================================== *)
(** * Dates in eight digits *)
(* ===================================================================== *)

Definition digit_char (d : N) : ascii := ascii_of_N (48 + d).

(** The two decimal digits of a number below 100. *)
Definition digits2 (n : N) : string :=
  String (digit_char (n / 10)) (String (digit_char (n mod 10)) EmptyString).

(** The four decimal digits of a number below 10000. *)
Definition digits4 (n : N) : string := digits2 (n / 100) +:+ digits2 (n mod 100).

(** YYYYMMDD *)
Definition yyyymmdd (y m d : N) : string :=
  digits4 y +:+ digits2 m +:+ digits2 d.

(** [p] holds of the [k] numbers from [start] on. *)
Fixpoint all_from (k : nat) (start : N) (p : N -> bool) : bool :=
  match k with
  | O => true
  | S k' => p start && all_from k' (N.succ start) p
  end.

(* ===================================================================== *)
(** * What a run of the script leaves *)
(* ===================================================================== *)

(** The destination of a source with the suffix [.hol] when [--dest] is
    not given: [.ics] in the place of the last four characters. *)
Definition ics_beside (source_path : string) : string :=
  substring 0 (String.length source_path - 4) source_path +:+ ".ics".

(** The line [__main__] prints before it reads. *)
Definition attempting (source_path destination_path : string) : string :=
  "Attempting to convert " +:+ source_path +:+ " into " +:+ destination_path.

(** The state after a conversion of [source_path] that wrote [doc]. *)
Definition converted (source_path doc : string) (st : state) : state :=
  mkstate (<[ics_beside source_path := doc]> (files st))
          (stdout st ++ [attempting source_path (ics_beside source_path);
                         validator_hint]).

(** The state after a conversion that read the header and then raised. *)
Definition attempted (source_path : string) (st : state) : state :=
  mkstate (files st)
          (stdout st ++ [attempting source_path (ics_beside source_path);
                         validator_hint]).

(** The first three lines of every document. *)
Definition head_lines (title : string) : list string :=
  [ "BEGIN:VCALENDAR"; "VERSION:2.0"; "PRODID:-//" +:+ title +:+ "//EN" ].

(** A file with a date that is no date before a line without comma. *)
Definition example_two_bad_lines : string :=
  "[Test] 3" +:+ String LF "A,2024/01/01" +:+ String LF "B,2024/02/30"
  +:+ String LF "No comma here".

(** The ways to write a month that the format reads as [m]: two digits,
    or as few as it takes. *)
Definition month_spellings (m : N) : list string := [digits2 m; dec m].

(** The ways to write a day that the format reads as [d]: two digits, as
    few as it takes, or a space and the one digit. *)
Definition day_spellings (d : N) : list string :=
  digits2 d :: dec d :: (if d <? 10 then [String " " (dec d)] else []).

(* ===================================================================== *)
(** * Strings: appending, counting, splitting, stripping *)
(* ===================================================================== *)

Section StringFacts.

Lemma app_assoc_str (a b c : string) : (a +:+ b) +:+ c = a +:+ (b +:+ c).
Proof. induction a as [|x a IH]; simpl; [reflexivity | now rewrite IH]. Qed.

Lemma app_nil_r_str (a : string) : a +:+ "" = a.
Proof. induction a as [|x a IH]; simpl; [reflexivity | now rewrite IH]. Qed.

Lemma length_app_str (a b : string) :
  String.length (a +:+ b) = (String.length a + String.length b)%nat.
Proof. induction a as [|x a IH]; simpl; [reflexivity | now rewrite IH]. Qed.

Lemma app_inv_head_str (a b c : string) : a +:+ b = a +:+ c -> b = c.
Proof.
  induction a as [|x a IH]; simpl; intros H; [exact H|].
  injection H as H. now apply IH.
Qed.

Lemma forallb_str_app (p : ascii -> bool) (a b : string) :
  forallb_str p (a +:+ b) = forallb_str p a && forallb_str p b.
Proof.
  induction a as [|x a IH]; simpl; [reflexivity|].
  rewrite IH. now rewrite andb_assoc.
Qed.

Lemma forallb_str_impl (p q : ascii -> bool) (s : string) :
  (forall c, p c = true -> q c = true) ->
  forallb_str p s = true -> forallb_str q s = true.
Proof.
  intros Hpq. induction s as [|x s IH]; simpl; [reflexivity|].
  intros [Hx Hs]%andb_true_iff. rewrite (Hpq _ Hx). now apply IH.
Qed.

Lemma count_char_app (c : ascii) (a b : string) :
  count_char c (a +:+ b) = (count_char c a + count_char c b)%nat.
Proof. induction a as [|x a IH]; simpl; [reflexivity | rewrite IH; lia]. Qed.

(** A string whose characters all satisfy [p] has no character that
    fails [p]. *)
Lemma count_char_forallb (p : ascii -> bool) (c : ascii) (s : string) :
  p c = false -> forallb_str p s = true -> count_char c s = O.
Proof.
  intros Hc. induction s as [|x s IH]; simpl; [reflexivity|].
  intros [Hx Hs]%andb_true_iff. rewrite (IH Hs).
  destruct (Ascii.eqb_spec x c) as [->|]; [congruence | reflexivity].
Qed.

Lemma split_not_nil (sep : ascii) (s : string) : split sep s <> [].
Proof.
  induction s as [|x s IH]; simpl; [discriminate|].
  destruct (Ascii.eqb x sep); [discriminate|].
  destruct (split sep s); [contradiction | discriminate].
Qed.

(** One piece more than separators. *)
Lemma length_split (sep : ascii) (s : string) :
  length (split sep s) = S (count_char sep s).
Proof.
  induction s as [|x s IH]; simpl; [reflexivity|].
  destruct (Ascii.eqb x sep); simpl; [now rewrite IH|].
  destruct (split sep s) as [|p ps] eqn:E; simpl in *; [discriminate | exact IH].
Qed.

Lemma split_none (sep : ascii) (s : string) :
  count_char sep s = O -> split sep s = [s].
Proof.
  induction s as [|x s IH]; simpl; [reflexivity|].
  destruct (Ascii.eqb x sep); simpl; [discriminate|].
  intros H. now rewrite (IH H).
Qed.

Lemma split_app (sep : ascii) (t d : string) :
  count_char sep t = O ->
  split sep (t +:+ String sep d) = t :: split sep d.
Proof.
  induction t as [|x t IH]; simpl.
  - intros _. now rewrite Ascii.eqb_refl.
  - destruct (Ascii.eqb x sep); simpl; [discriminate|].
    intros H. now rewrite (IH H).
Qed.

(** The text up to the first separator, when there is one. *)
Lemma first_sep (sep : ascii) (s : string) :
  count_char sep s <> O ->
  exists t d, s = t +:+ String sep d /\ count_char sep t = O.
Proof.
  induction s as [|x s IH]; simpl; [congruence|].
  destruct (Ascii.eqb_spec x sep) as [->|Hx]; simpl.
  - intros _. exists "", s. now split.
  - intros H. destruct (IH H) as (t & d & -> & Ht).
    exists (String x t), d. split; [reflexivity|]. simpl.
    destruct (Ascii.eqb_spec x sep); [contradiction | exact Ht].
Qed.

Lemma count_char_lstrip (c : ascii) (s : string) :
  isspace c = false -> count_char c (lstrip s) = count_char c s.
Proof.
  intros Hc. induction s as [|x s IH]; simpl; [reflexivity|].
  destruct (isspace x) eqn:Hx; simpl; [|reflexivity].
  rewrite IH. destruct (Ascii.eqb_spec x c) as [->|]; [congruence | reflexivity].
Qed.

Lemma count_char_rstrip (c : ascii) (s : string) :
  isspace c = false -> count_char c (rstrip s) = count_char c s.
Proof.
  intros Hc. induction s as [|x s IH]; simpl; [reflexivity|].
  destruct (rstrip s) as [|y r] eqn:E.
  - rewrite <- IH. destruct (isspace x) eqn:Hx; simpl.
    + destruct (Ascii.eqb_spec x c) as [->|]; [congruence | reflexivity].
    + reflexivity.
  - rewrite <- IH. reflexivity.
Qed.

(** Stripping removes white space only. *)
Lemma count_char_strip (c : ascii) (s : string) :
  isspace c = false -> count_char c (strip s) = count_char c s.
Proof.
  intros Hc. unfold strip.
  now rewrite count_char_rstrip, count_char_lstrip.
Qed.

End StringFacts.

(** Appends to the right, literals unfolded. *)
Ltac norm_app :=
  repeat (progress (cbn [String.append]) || rewrite app_assoc_str).

(* ===================================================================== *)
(** * The date parser reads digits, slashes and spaces only *)
(* ===================================================================== *)

Section DateParser.

Lemma above_comma (c : ascii) :
  45 <= N_of_ascii c -> Ascii.eqb c "," = false.
Proof.
  intros H. destruct (Ascii.eqb_spec c ",") as [->|]; [|reflexivity].
  vm_compute in H. now contradiction H.
Qed.

Lemma isdigit_above_comma (c : ascii) :
  isdigit c = true -> Ascii.eqb c "," = false.
Proof.
  unfold isdigit. intros [H _]%andb_true_iff.
  apply above_comma. apply N.leb_le in H. lia.
Qed.

Lemma one_char_comma_free (lo hi : N) :
  45 <= lo -> comma_free_alt (one_char lo hi).
Proof.
  intros Hlo [|c s] n r; simpl; [discriminate|].
  destruct ((lo <=? N_of_ascii c) && (N_of_ascii c <=? hi)) eqn:E;
    [|discriminate].
  intros [= <- <-]. apply andb_true_iff in E as [E _]. apply N.leb_le in E.
  exists (String c ""). split; [reflexivity|]. simpl.
  rewrite above_comma by lia. reflexivity.
Qed.

Lemma two_chars_comma_free (lo1 hi1 lo2 hi2 : N) :
  45 <= lo1 -> 45 <= lo2 -> comma_free_alt (two_chars lo1 hi1 lo2 hi2).
Proof.
  intros H1 H2 [|c1 [|c2 s]] n r; simpl; try discriminate.
  destruct ((lo1 <=? N_of_ascii c1) && (N_of_ascii c1 <=? hi1)
            && (lo2 <=? N_of_ascii c2) && (N_of_ascii c2 <=? hi2)) eqn:E;
    [|discriminate].
  intros [= <- <-].
  repeat (apply andb_true_iff in E as [E ?]).
  repeat match goal with H : (_ <=? _) = true |- _ => apply N.leb_le in H end.
  exists (String c1 (String c2 "")). split; [reflexivity|]. simpl.
  rewrite !above_comma by lia. reflexivity.
Qed.

Lemma space_char_comma_free (lo hi : N) :
  45 <= lo -> comma_free_alt (space_char lo hi).
Proof.
  intros Hlo [|c s] n r; simpl; [discriminate|].
  destruct (Ascii.eqb_spec c " ") as [->|]; [|discriminate].
  intros H. destruct (one_char_comma_free lo hi Hlo _ _ _ H) as (p & -> & Hp).
  exists (String " " p). split; [reflexivity|]. simpl. exact Hp.
Qed.

Lemma re_group_comma_free {R : Type} (alts : list alternative)
    (k : N -> string -> option R) (s : string) (x : R) :
  Forall comma_free_alt alts ->
  re_group alts k s = Some x ->
  exists n p r, s = p +:+ r /\ count_char "," p = O /\ k n r = Some x.
Proof.
  induction 1 as [|a alts Ha _ IH]; simpl; [discriminate|].
  destruct (a s) as [[n r]|] eqn:Ea.
  - destruct (k n r) as [y|] eqn:Ek.
    + intros [= <-]. destruct (Ha _ _ _ Ea) as (p & -> & Hp).
      now exists n, p, r.
    + exact IH.
  - exact IH.
Qed.

Lemma re_m_comma_free : Forall comma_free_alt re_m.
Proof.
  unfold re_m.
  repeat (constructor;
          [first [apply two_chars_comma_free | apply one_char_comma_free]; lia|]).
  constructor.
Qed.

Lemma re_d_comma_free : Forall comma_free_alt re_d.
Proof.
  unfold re_d.
  repeat (constructor;
          [first [apply two_chars_comma_free | apply one_char_comma_free
                 | apply space_char_comma_free]; lia|]).
  constructor.
Qed.

Lemma re_slash_inv {R : Type} (k : string -> option R) (s : string) (x : R) :
  re_slash k s = Some x -> exists r, s = String "/" r /\ k r = Some x.
Proof.
  destruct s as [|c r]; simpl; [discriminate|].
  destruct (Ascii.eqb_spec c "/") as [->|]; [|discriminate].
  intros H. now exists r.
Qed.

Lemma re_Y_comma_free (s : string) (y : N) (r : string) :
  re_Y s = Some (y, r) -> exists p, s = p +:+ r /\ count_char "," p = O.
Proof.
  destruct s as [|c1 [|c2 [|c3 [|c4 s]]]];
    cbv beta iota delta [re_Y]; try discriminate.
  destruct (isdigit c1 && isdigit c2 && isdigit c3 && isdigit c4) eqn:E;
    [|discriminate].
  intros [= <- <-].
  apply andb_true_iff in E as [E E4]. apply andb_true_iff in E as [E E3].
  apply andb_true_iff in E as [E1 E2].
  exists (String c1 (String c2 (String c3 (String c4 "")))).
  split; [reflexivity|]. simpl.
  rewrite !isdigit_above_comma by assumption. reflexivity.
Qed.

(** What the expression of ["%Y/%m/%d"] matches has no comma in it. *)
Lemma re_ymd_comma_free (s : string) (y m d : N) (r : string) :
  re_ymd s = Some (y, m, d, r) ->
  exists p, s = p +:+ r /\ count_char "," p = O.
Proof.
  unfold re_ymd. destruct (re_Y s) as [[y0 r0]|] eqn:EY; [|discriminate].
  intros H.
  destruct (re_Y_comma_free _ _ _ EY) as (p0 & -> & Hp0).
  apply re_slash_inv in H as (r1 & -> & H).
  apply (re_group_comma_free _ _ _ _ re_m_comma_free) in H
    as (m0 & p1 & r2 & -> & Hp1 & H).
  apply re_slash_inv in H as (r3 & -> & H).
  apply (re_group_comma_free _ _ _ _ re_d_comma_free) in H
    as (d0 & p2 & r4 & -> & Hp2 & H).
  injection H as <- <- <- <-.
  exists (p0 +:+ String "/" (p1 +:+ String "/" p2)). split.
  - rewrite !app_assoc_str. simpl. rewrite !app_assoc_str. reflexivity.
  - rewrite !count_char_app. simpl. rewrite !count_char_app. simpl. lia.
Qed.

(** A text with a comma is never a date. *)
Lemma strptime_ymd_comma_free (s : string) (dt : datetime) :
  strptime_ymd s = Return dt -> count_char "," s = O.
Proof.
  unfold strptime_ymd.
  destruct (re_ymd s) as [[[[y m] d] r]|] eqn:E; [|discriminate].
  destruct r; [|discriminate]. intros _.
  destruct (re_ymd_comma_free _ _ _ _ _ E) as (p & -> & Hp).
  now rewrite app_nil_r_str.
Qed.

End DateParser.

(* ===================================================================== *)
(** * Dates in eight digits *)
(* ===================================================================== *)

Section EightDigits.

Lemma all_from_spec (p : N -> bool) (k : nat) (start : N) :
  all_from k start p = true ->
  forall n, start <= n < start + N.of_nat k -> p n = true.
Proof.
  revert start. induction k as [|k IH]; intros start H n Hn; [lia|].
  cbn [all_from] in H. apply andb_true_iff in H as [H0 H].
  destruct (N.eq_dec n start) as [->|Hne]; [exact H0|].
  apply (IH (N.succ start) H). lia.
Qed.

Lemma zfill_2_digits2 (n : N) : n < 100 -> zfill 2 n = digits2 n.
Proof.
  intros H. apply String.eqb_eq.
  apply (all_from_spec (fun n => String.eqb (zfill 2 n) (digits2 n)) 100 0);
    [vm_compute; reflexivity | lia].
Qed.


Lemma days_in_month_le (y m : N) : days_in_month y m <= 31.
Proof.
  unfold days_in_month.
  repeat match goal with
         | |- context [match ?x with _ => _ end] => destruct x
         end; lia.
Qed.

(** A year from 1000 on is written in its four digits. *)
Lemma dec_digits4 (n : N) : 1000 <= n < 10000 -> dec n = digits4 n.
Proof.
  intros H. apply String.eqb_eq.
  apply (all_from_spec (fun n => String.eqb (dec n) (digits4 n))
           (N.to_nat 9000) 1000); [vm_compute; reflexivity | lia].
Qed.

(** A year below 1000 is written in fewer. *)
Lemma dec_below_1000 (n : N) : n < 1000 -> (String.length (dec n) < 4)%nat.
Proof.
  intros H. apply Nat.ltb_lt.
  apply (all_from_spec (fun n => Nat.ltb (String.length (dec n)) 4)
           (N.to_nat 1000) 0); [vm_compute; reflexivity | lia].
Qed.

Lemma valid_date_ranges (y m d : N) :
  valid_date y m d = true -> 1 <= y <= 9999 /\ 1 <= m <= 12 /\ 1 <= d <= 31.
Proof.
  unfold valid_date. intros H.
  repeat (apply andb_true_iff in H as [H ?]).
  repeat match goal with H : (_ <=? _) = true |- _ => apply N.leb_le in H end.
  pose proof (days_in_month_le y m). lia.
Qed.

(** The date of a valid [datetime] is formatted as the year, then the two
    digits of the month and the two of the day. *)
Lemma strftime_ymd_digits (d : datetime) :
  valid_date (year d) (month d) (day d) = true ->
  strftime_ymd d = dec (year d) +:+ digits2 (month d) +:+ digits2 (day d).
Proof.
  intros H. apply valid_date_ranges in H.
  unfold strftime_ymd. rewrite !zfill_2_digits2 by lia. reflexivity.
Qed.

(** From the year 1000 on these are eight digits. *)
Lemma strftime_ymd_yyyymmdd (d : datetime) :
  valid_date (year d) (month d) (day d) = true ->
  1000 <= year d ->
  strftime_ymd d = yyyymmdd (year d) (month d) (day d).
Proof.
  intros H Hy. rewrite (strftime_ymd_digits _ H).
  apply valid_date_ranges in H.
  unfold yyyymmdd. rewrite dec_digits4 by lia. reflexivity.
Qed.

(** Below the year 1000 they are fewer than eight. *)
Lemma strftime_ymd_below_1000 (d : datetime) :
  valid_date (year d) (month d) (day d) = true ->
  year d < 1000 ->
  (String.length (strftime_ymd d) < 8)%nat.
Proof.
  intros H Hy. rewrite (strftime_ymd_digits _ H).
  rewrite !length_app_str. cbn [digits2 String.length].
  pose proof (dec_below_1000 _ Hy). lia.
Qed.

End EightDigits.

(* ===================================================================== *)
(** * Dates written as YYYY/MM/DD are read back *)
(* ===================================================================== *)

Section DateRoundTrip.

Lemma re_Y_digits4 (y : N) : y < 10000 -> re_Y (digits4 y) = Some (y, "").
Proof.
  intros H.
  pose proof (all_from_spec
    (fun y => match re_Y (digits4 y) with
              | Some (y', EmptyString) => N.eqb y' y
              | _ => false
              end) (N.to_nat 10000) 0 ltac:(vm_compute; reflexivity) y
    ltac:(lia)) as C.
  cbv beta in C.
  destruct (re_Y (digits4 y)) as [[y' [|c r]]|]; try discriminate.
  apply N.eqb_eq in C. now subst.
Qed.

Lemma re_Y_append (s : string) (y : N) (r rest : string) :
  re_Y s = Some (y, r) -> re_Y (s +:+ rest) = Some (y, r +:+ rest).
Proof.
  destruct s as [|c1 [|c2 [|c3 [|c4 s]]]];
    cbv beta iota delta [re_Y]; try discriminate.
  cbn [String.append].
  destruct (isdigit c1 && isdigit c2 && isdigit c3 && isdigit c4);
    [|discriminate].
  now intros [= <- <-].
Qed.

(** Month and day in two digits each are read back. *)
Lemma re_md_digits2 (y m d : N) :
  1 <= m <= 12 -> 1 <= d <= 31 ->
  re_slash (re_group re_m (fun m0 =>
    re_slash (re_group re_d (fun d0 r' => Some (y, m0, d0, r')))))
    (String "/" (digits2 m +:+ String "/" (digits2 d)))
  = Some (y, m, d, "").
Proof.
  intros Hm Hd.
  rewrite <- (N2Nat.id m) in *. rewrite <- (N2Nat.id d) in *.
  generalize dependent (N.to_nat d). generalize dependent (N.to_nat m).
  intros km Hm kd Hd.
  do 13 (destruct km as [|km];
         [try lia;
          do 32 (destruct kd as [|kd]; [first [lia | reflexivity]|]); lia|]).
  lia.
Qed.

(** A valid date written as YYYY/MM/DD is read back as that date. *)
Lemma strptime_ymd_digits (y m d : N) :
  valid_date y m d = true ->
  strptime_ymd (digits4 y +:+ "/" +:+ digits2 m +:+ "/" +:+ digits2 d)
  = Return (mkdatetime y m d 0 0 0).
Proof.
  intros H. pose proof H as V. unfold valid_date in H.
  repeat (apply andb_true_iff in H as [H ?]).
  repeat match goal with H : (_ <=? _) = true |- _ => apply N.leb_le in H end.
  pose proof (days_in_month_le y m).
  unfold strptime_ymd, re_ymd.
  rewrite (re_Y_append (digits4 y) y "" _ (re_Y_digits4 y ltac:(lia))).
  cbn [String.append].
  rewrite re_md_digits2 by lia. now rewrite V.
Qed.

End DateRoundTrip.

(* ===================================================================== *)
(** * Records: [line_to_event_tuple] *)
(* ===================================================================== *)

Section Records.

Lemma split_record_one_comma (t d : string) :
  count_char "," t = O -> count_char "," d = O ->
  split_record (t +:+ "," +:+ d) = Return (t, d).
Proof.
  intros Ht Hd. unfold split_record. simpl.
  rewrite (split_app _ _ _ Ht), (split_none _ _ Hd). reflexivity.
Qed.

Lemma split_record_unpack (line : string) :
  count_char "," line <> 1%nat ->
  split_record line = Raise (UnpackError (S (count_char "," line))).
Proof.
  intros H. unfold split_record.
  pose proof (length_split "," line) as L.
  destruct (split "," line) as [|a [|b [|c l]]]; simpl in L |- *;
    [f_equal; f_equal; lia .. | exfalso; lia | f_equal; f_equal; lia].
Qed.

Lemma line_to_event_tuple_unpack (line : string) :
  count_char "," line <> 1%nat ->
  line_to_event_tuple line = Raise (UnpackError (S (count_char "," line))).
Proof.
  intros H. unfold line_to_event_tuple.
  now rewrite (split_record_unpack _ H).
Qed.

Lemma line_to_event_tuple_one_comma (t d : string) :
  count_char "," t = O -> count_char "," d = O ->
  line_to_event_tuple (t +:+ "," +:+ d)
  = bind (strptime_ymd (strip d)) (fun dt => Return (t, dt)).
Proof.
  intros Ht Hd. unfold line_to_event_tuple.
  now rewrite (split_record_one_comma _ _ Ht Hd).
Qed.

End Records.

(** Whatever a record line raises is a [ValueError]. *)
Lemma line_to_event_tuple_ValueError (line : string) (e : exn) :
  line_to_event_tuple line = Raise e -> is_ValueError e = true.
Proof.
  unfold line_to_event_tuple, split_record, strptime_ymd.
  destruct (split "," line) as [|a [|b [|c l]]]; cbn [bind];
    try (intros [= <-]; reflexivity).
  destruct (re_ymd (strip b)) as [[[[y m] d] [|x r]]|]; cbn [bind];
    try (intros [= <-]; reflexivity).
  destruct (valid_date y m d); cbn [bind]; [discriminate|].
  intros [= <-]; reflexivity.
Qed.

Example line_new_year :
  line_to_event_tuple "New Year's Day,2024/01/01"
  = Return ("New Year's Day", mkdatetime 2024 1 1 0 0 0).
Proof. reflexivity. Qed.

Example line_no_comma :
  line_to_event_tuple "No comma here" = Raise (UnpackError 1).
Proof. reflexivity. Qed.

Example line_bad_date :
  line_to_event_tuple "Bad Date,2024/13/40" = Raise (StrptimeError NoMatch).
Proof. reflexivity. Qed.

(** C2, as the script has it.  The line is split at every comma and the
    unpacking wants exactly two pieces: a line with exactly one comma gives
    the text before the comma as title fragment and the text after it as
    date fragment; a line with no comma, and a line with two commas or
    more, both fail with the [ValueError] of the unpacking, which tells
    the number of pieces found. *)
Theorem split_record_by_commas (line : string) :
  match count_char "," line with
  | 1%nat =>
      exists t d, line = t +:+ "," +:+ d
        /\ count_char "," t = O /\ count_char "," d = O
        /\ split_record line = Return (t, d)
  | n =>
      split_record line = Raise (UnpackError (S n))
      /\ line_to_event_tuple line = Raise (UnpackError (S n))
  end.
Proof.
  destruct (count_char "," line) as [|[|n]] eqn:E.
  - rewrite <- E. split;
      [apply split_record_unpack | apply line_to_event_tuple_unpack]; lia.
  - destruct (first_sep "," line) as (t & d & -> & Ht); [lia|].
    rewrite count_char_app in E. simpl in E.
    exists t, d. repeat split; try assumption; try lia.
    apply split_record_one_comma; [assumption | lia].
  - rewrite <- E. split;
      [apply split_record_unpack | apply line_to_event_tuple_unpack]; lia.
Qed.

(** C2 fails on the script: with a second comma in the line, no title
    fragment that ends at the first comma and no date fragment with the
    rest are formed; the unpacking of the three pieces raises. *)
Lemma split_record_second_comma :
  count_char "," "A" = O
  /\ split_record ("A" +:+ "," +:+ "B,2024/01/01") = Raise (UnpackError 3)
  /\ split_record ("A" +:+ "," +:+ "B,2024/01/01")
     <> Return ("A", "B,2024/01/01").
Proof. repeat split. discriminate. Qed.

(** C5.  For a line with a comma, [t] being the text before the first
    comma and [d] the text after it: the line gives a record exactly when
    [d], stripped of the white space around it, parses as a date of the
    format ["%Y/%m/%d"]; the record then has that date, and [t] itself,
    not stripped, as title.  Otherwise the line raises.  The format is
    year, month and day with slashes between them: a valid date written
    as YYYY/MM/DD is parsed as that date. *)
Theorem line_to_event_tuple_strips_date_only (t d : string) :
  count_char "," t = O ->
  (forall title dt,
      line_to_event_tuple (t +:+ "," +:+ d) = Return (title, dt)
      <-> title = t /\ strptime_ymd (strip d) = Return dt)
  /\ raises (line_to_event_tuple (t +:+ "," +:+ d))
     = raises (strptime_ymd (strip d))
  /\ line_to_event_tuple "New Year's Day,2024/01/01"
     = Return ("New Year's Day", mkdatetime 2024 1 1 0 0 0)
  /\ (forall y m d0 : N,
        valid_date y m d0 = true ->
        strptime_ymd (digits4 y +:+ "/" +:+ digits2 m +:+ "/" +:+ digits2 d0)
        = Return (mkdatetime y m d0 0 0 0)).
Proof.
  intros Ht.
  cut ((forall title dt,
           line_to_event_tuple (t +:+ "," +:+ d) = Return (title, dt)
           <-> title = t /\ strptime_ymd (strip d) = Return dt)
       /\ raises (line_to_event_tuple (t +:+ "," +:+ d))
          = raises (strptime_ymd (strip d))
       /\ line_to_event_tuple "New Year's Day,2024/01/01"
          = Return ("New Year's Day", mkdatetime 2024 1 1 0 0 0)).
  { intros (H1 & H2 & H3).
    split; [exact H1|]. split; [exact H2|]. split; [exact H3|].
    exact strptime_ymd_digits. }
  destruct (count_char "," d) as [|n] eqn:Hd.
  - rewrite (line_to_event_tuple_one_comma _ _ Ht Hd).
    destruct (strptime_ymd (strip d)) as [dt0|e]; simpl.
    + split; [|split; reflexivity].
      intros title dt. split.
      * now intros [= -> ->].
      * now intros [-> [= ->]].
    + split; [|split; reflexivity].
      intros title dt. split; [discriminate | now intros [_ H]].
  - assert (Hline : count_char "," (t +:+ "," +:+ d) <> 1%nat).
    { rewrite count_char_app. simpl. lia. }
    rewrite (line_to_event_tuple_unpack _ Hline).
    assert (Hno : forall dt, strptime_ymd (strip d) <> Return dt).
    { intros dt H. apply strptime_ymd_comma_free in H.
      rewrite count_char_strip in H by reflexivity. lia. }
    split; [|split; [|reflexivity]].
    + intros title dt. split; [discriminate|].
      intros [_ H]. now apply Hno in H.
    + simpl. destruct (strptime_ymd (strip d)) as [dt|e]; [|reflexivity].
      now destruct (Hno dt).
Qed.

Lemma line_to_event_tuple_strips_date_only_witness :
  count_char "," " Labour Day " = O
  /\ line_to_event_tuple (" Labour Day " +:+ "," +:+ " 2024/05/01 ")
     = Return (" Labour Day ", mkdatetime 2024 5 1 0 0 0).
Proof.
  split; [reflexivity|].
  apply (proj1 (line_to_event_tuple_strips_date_only
                  " Labour Day " " 2024/05/01 " eq_refl)).
  split; reflexivity.
Defined.

(* ===================================================================== *)
(** * The writer: [write_ics_file] *)
(* ===================================================================== *)

Section Writer.

Lemma terminated_app (sep : string) (a b : list string) :
  terminated sep (a ++ b) = terminated sep a +:+ terminated sep b.
Proof.
  induction a as [|l a IH]; simpl; [reflexivity|].
  now rewrite IH, !app_assoc_str.
Qed.

(** Joining puts the separator between the lines and not after the last. *)
Lemma join_snoc (sep : string) (ls : list string) (l : string) :
  join sep (ls ++ [l]) = terminated sep ls +:+ l.
Proof.
  induction ls as [|x ls IH]; [reflexivity|].
  change ((x :: ls) ++ [l]) with (x :: (ls ++ [l])).
  cbn [join terminated]. rewrite IH, !app_assoc_str.
  destruct (ls ++ [l]) eqn:E; [|reflexivity].
  now destruct ls.
Qed.

Lemma terminated_event_lines (w : world) (i : nat) (name : string)
    (start_date : datetime) :
  terminated CRLF (event_lines w i name start_date)
  = vevent_block w i (name, start_date).
Proof.
  unfold event_lines, vevent_block. cbn [terminated fst snd].
  rewrite !app_assoc_str, app_nil_r_str. reflexivity.
Qed.

Lemma terminated_records_lines (w : world) (records : list event) (i : nat) :
  terminated CRLF (records_lines w i records) = vevent_blocks w i records.
Proof.
  revert i. induction records as [|[name start_date] records IH]; intros i.
  - reflexivity.
  - cbn [records_lines vevent_blocks].
    now rewrite terminated_app, terminated_event_lines, IH.
Qed.

(** The loop over records that are all there adds their lines, in their
    order, behind the lines it starts from. *)
Lemma event_loop_records (w : world) (records : list event) (i : nat)
    (lines : list string) :
  event_loop w i (map Return records) lines
  = Return (lines ++ records_lines w i records).
Proof.
  revert i lines.
  induction records as [|[name start_date] records IH]; intros i lines.
  - simpl. now rewrite app_nil_r.
  - cbn [map event_loop bind records_lines]. rewrite IH.
    now rewrite <- app_assoc.
Qed.

(** An item that raises stops the loop with its exception. *)
Lemma event_loop_raise (w : world) (events : iterable event) (i : nat)
    (lines : list string) :
  existsb raises events = true ->
  exists e, event_loop w i events lines = Raise e.
Proof.
  revert i lines. induction events as [|item events IH]; intros i lines.
  - discriminate.
  - cbn [existsb event_loop]. destruct item as [[name start_date]|e].
    + cbn [raises orb bind]. intros H. now apply IH.
    + intros _. now exists e.
Qed.

Lemma write_ics_file_records (records : list event)
    (destination_filename title : string) (w : world) (st : state) :
  write_ics_file (map Return records) destination_filename title w st
  = (Return tt,
     write_text destination_filename (vcalendar title records w) st).
Proof.
  unfold write_ics_file. rewrite event_loop_records.
  rewrite join_snoc, terminated_app, terminated_records_lines.
  unfold vcalendar. cbn [terminated].
  rewrite !app_assoc_str. reflexivity.
Qed.

(** The writer leaves the state as it is when it raises. *)
Lemma write_ics_file_raise (events : iterable event)
    (destination_filename title : string) (w : world) (st st' : state)
    (e : exn) :
  write_ics_file events destination_filename title w st = (Raise e, st') ->
  st' = st.
Proof.
  unfold write_ics_file.
  destruct (event_loop w 0%nat events _); [discriminate|].
  now intros [= _ <-].
Qed.

End Writer.

(* ===================================================================== *)
(** * The reader: [read_hol_file] *)
(* ===================================================================== *)

Section Reader.

Lemma read_hol_file_text (source_filename text : string) (st : state) :
  files st !! source_filename = Some text ->
  read_hol_file source_filename st
  = match match_header (fst (readline text)) with
    | Some (title, _) =>
        (Return (title,
                 map line_to_event_tuple (readlines (snd (readline text)))),
         print validator_hint st)
    | None =>
        (Raise (ValueError "Unable to find header in given hol file"), st)
    end.
Proof.
  intros H. unfold read_hol_file. rewrite H.
  destruct (readline text) as [header rest]. cbn [fst snd].
  now destruct (match_header header) as [[title count]|].
Qed.

(** The reader never touches the files. *)
Lemma read_hol_file_files (source_filename : string) (st : state) :
  files (snd (read_hol_file source_filename st)) = files st.
Proof.
  unfold read_hol_file. destruct (files st !! source_filename); [|reflexivity].
  destruct (readline s) as [header rest].
  now destruct (match_header header) as [[title count]|].
Qed.

End Reader.

(* ===================================================================== *)
(** * The command line: [__main__] *)
(* ===================================================================== *)

Section Main.

Lemma main_source_extension (source_path : string)
    (destination_path : option string) (w : world) (st : state) :
  suffix source_path <> ".hol" ->
  main source_path destination_path w st
  = (Raise (ValueError "Source file has to end with the hol extension"), st).
Proof.
  intros H. unfold main.
  destruct (String.eqb_spec (suffix source_path) ".hol"); [contradiction|].
  reflexivity.
Qed.

(** The test of the destination reads the suffix of the source, which is
    [.hol] at that point: every destination given is refused. *)
Lemma main_destination_given (source_path given : string) (w : world)
    (st : state) :
  main source_path (Some given) w st
  = (Raise (ValueError
       (if String.eqb (suffix source_path) ".hol"
        then "Destination file has to end with the ics extension"
        else "Source file has to end with the hol extension")), st).
Proof.
  unfold main.
  destruct (String.eqb_spec (suffix source_path) ".hol") as [E|]; cbn [negb].
  - rewrite E. reflexivity.
  - reflexivity.
Qed.

Lemma suffix_name_not_empty (path : string) :
  suffix path <> "" -> name path <> "".
Proof.
  unfold suffix. intros H E. rewrite E in H. now apply H.
Qed.

(** Without [--dest] the destination is the source with [.ics] in the
    place of its [.hol]. *)
Lemma with_suffix_hol (source_path : string) :
  suffix source_path = ".hol" ->
  with_suffix source_path ".ics"
  = Return (substring 0 (String.length source_path - 4) source_path
            +:+ ".ics").
Proof.
  intros H. unfold with_suffix.
  destruct (String.eqb_spec (name source_path) "") as [E|_].
  - exfalso. apply (suffix_name_not_empty source_path); [|exact E].
    rewrite H. discriminate.
  - rewrite H. reflexivity.
Qed.

(** Whenever the script raises, the files are as they were. *)
Lemma main_raise_files (source_path : string)
    (destination_path : option string) (w : world) (st st' : state)
    (e : exn) :
  main source_path destination_path w st = (Raise e, st') ->
  files st' = files st.
Proof.
  unfold main.
  destruct (negb (String.eqb (suffix source_path) ".hol"));
    [now intros [= _ <-]|].
  match goal with |- context [match ?c with Return _ => _ | Raise _ => _ end] =>
    destruct c as [dst|e0] end; [|now intros [= _ <-]].
  pose proof (read_hol_file_files source_path
    (print ("Attempting to convert " +:+ source_path +:+ " into " +:+ dst) st))
    as Hread.
  destruct (read_hol_file source_path _) as [[[title events]|e1] st1];
    cbn [snd print files] in Hread.
  - intros H. apply write_ics_file_raise in H. now subst st'.
  - now intros [= _ <-].
Qed.

(** A record line that does not parse makes the script raise. *)
Lemma main_malformed_record (source_path : string)
    (destination_path : option string) (w : world) (st : state)
    (text : string) :
  files st !! source_path = Some text ->
  existsb (fun line => raises (line_to_event_tuple line))
          (readlines (snd (readline text))) = true ->
  exists e st', main source_path destination_path w st = (Raise e, st').
Proof.
  intros Hfile Hbad. unfold main.
  destruct (negb (String.eqb (suffix source_path) ".hol")); [eauto|].
  match goal with |- context [match ?c with Return _ => _ | Raise _ => _ end] =>
    destruct c as [dst|e0] end; [|eauto].
  rewrite (read_hol_file_text _ text) by exact Hfile.
  destruct (match_header (fst (readline text))) as [[title count]|]; [|eauto].
  unfold write_ics_file.
  destruct (event_loop_raise w
              (map line_to_event_tuple (readlines (snd (readline text))))
              0%nat ["BEGIN:VCALENDAR"; "VERSION:2.0";
                     "PRODID:-//" +:+ title +:+ "//EN"]) as [e He].
  { clear -Hbad. induction (readlines (snd (readline text))) as [|l ls IH];
      [discriminate|].
    cbn [map existsb] in *. destruct (raises (line_to_event_tuple l));
      [reflexivity | now apply IH]. }
  rewrite He. eauto.
Qed.

End Main.

(** C1 fails on the script for the dates of the years below 1000.  For
    every title and every sequence of records the writer writes exactly
    the document [vcalendar]: BEGIN:VCALENDAR, VERSION:2.0 and
    PRODID:-//title//EN, one VEVENT block per record in the order of the
    records, with DTSTART;VALUE=DATE: and the formatted date and SUMMARY:
    and the raw title, then END:VCALENDAR, a CRLF between the lines and
    none after the last.  The file with the header "[Test] 2" and the
    lines "A,2024/01/01" and "B,2024/12/31" gives the two blocks of A and
    B, in that order, with 20240101 and 20241231, under PRODID:-//Test//EN.
    The formatted date is YYYYMMDD, the four digits of the year, the two
    of the month and the two of the day, for every date from the year 1000
    on.  For a date of a year below 1000 it has fewer than eight
    characters, the year being written without zeros on its left: the file
    with the header "[Old] 1" and the line "Founding,0999/01/01" is
    converted, and its block has DTSTART;VALUE=DATE:9990101. *)
Theorem write_ics_file_document :
  (forall (title : string) (records : list event)
          (destination_filename : string) (w : world) (st : state),
      write_ics_file (map Return records) destination_filename title w st
      = (Return tt,
         write_text destination_filename (vcalendar title records w) st))
  /\ (forall (w : world) (st : state),
      let '(r, st') :=
        main "cal.hol" None w (write_text "cal.hol" example_hol st) in
      r = Return tt
      /\ files st' !! "cal.ics"
         = Some ("BEGIN:VCALENDAR" +:+ CRLF
                 +:+ "VERSION:2.0" +:+ CRLF
                 +:+ "PRODID:-//Test//EN" +:+ CRLF
                 +:+ "BEGIN:VEVENT" +:+ CRLF
                 +:+ "UID:" +:+ str_uuid (uuid4 w 0%nat) +:+ CRLF
                 +:+ "DTSTAMP:" +:+ strftime_ics (now w 0%nat) +:+ CRLF
                 +:+ "DTSTART;VALUE=DATE:20240101" +:+ CRLF
                 +:+ "SUMMARY:A" +:+ CRLF
                 +:+ "END:VEVENT" +:+ CRLF
                 +:+ "BEGIN:VEVENT" +:+ CRLF
                 +:+ "UID:" +:+ str_uuid (uuid4 w 1%nat) +:+ CRLF
                 +:+ "DTSTAMP:" +:+ strftime_ics (now w 1%nat) +:+ CRLF
                 +:+ "DTSTART;VALUE=DATE:20241231" +:+ CRLF
                 +:+ "SUMMARY:B" +:+ CRLF
                 +:+ "END:VEVENT" +:+ CRLF
                 +:+ "END:VCALENDAR"))
  /\ (forall d : datetime,
        valid_date (year d) (month d) (day d) = true ->
        1000 <= year d ->
        strftime_ymd d = yyyymmdd (year d) (month d) (day d))
  /\ (forall d : datetime,
        valid_date (year d) (month d) (day d) = true ->
        year d < 1000 ->
        (String.length (strftime_ymd d) < 8)%nat)
  /\ line_to_event_tuple "Founding,0999/01/01"
     = Return ("Founding", mkdatetime 999 1 1 0 0 0)
  /\ strftime_ymd (mkdatetime 999 1 1 0 0 0) = "9990101"
  /\ yyyymmdd 999 1 1 = "09990101"
  /\ (forall (w : world) (st : state),
      let '(r, st') :=
        main "old.hol" None w (write_text "old.hol" example_old_hol st) in
      r = Return tt
      /\ files st' !! "old.ics"
         = Some ("BEGIN:VCALENDAR" +:+ CRLF
                 +:+ "VERSION:2.0" +:+ CRLF
                 +:+ "PRODID:-//Old//EN" +:+ CRLF
                 +:+ "BEGIN:VEVENT" +:+ CRLF
                 +:+ "UID:" +:+ str_uuid (uuid4 w 0%nat) +:+ CRLF
                 +:+ "DTSTAMP:" +:+ strftime_ics (now w 0%nat) +:+ CRLF
                 +:+ "DTSTART;VALUE=DATE:9990101" +:+ CRLF
                 +:+ "SUMMARY:Founding" +:+ CRLF
                 +:+ "END:VEVENT" +:+ CRLF
                 +:+ "END:VCALENDAR")).
Proof.
  split; [intros; apply write_ics_file_records|].
  split.
  { intros w st. unfold main.
    replace (suffix "cal.hol") with ".hol" by reflexivity.
    cbn [String.eqb Ascii.eqb Bool.eqb negb].
    replace (with_suffix "cal.hol" ".ics") with (Return (A:=string) "cal.ics")
      by reflexivity.
    rewrite (read_hol_file_text _ example_hol)
      by (cbn [print write_text files]; apply lookup_insert_eq).
    replace (match_header (fst (readline example_hol)))
      with (Some ("Test", "2")) by reflexivity.
    replace (map line_to_event_tuple (readlines (snd (readline example_hol))))
      with (map Return [("A", mkdatetime 2024 1 1 0 0 0);
                        ("B", mkdatetime 2024 12 31 0 0 0)]) by reflexivity.
    rewrite write_ics_file_records.
    split; [reflexivity|].
    cbn [write_text files]. rewrite lookup_insert_eq. f_equal.
    unfold vcalendar, vevent_blocks, vevent_block. cbn [fst snd].
    replace (strftime_ymd (mkdatetime 2024 1 1 0 0 0)) with "20240101"
      by reflexivity.
    replace (strftime_ymd (mkdatetime 2024 12 31 0 0 0)) with "20241231"
      by reflexivity.
    rewrite !app_assoc_str. reflexivity. }
  split; [exact strftime_ymd_yyyymmdd|].
  split; [exact strftime_ymd_below_1000|].
  split; [reflexivity|].
  split; [reflexivity|].
  split; [reflexivity|].
  intros w st. unfold main.
  replace (suffix "old.hol") with ".hol" by reflexivity.
  cbn [String.eqb Ascii.eqb Bool.eqb negb].
  replace (with_suffix "old.hol" ".ics") with (Return (A:=string) "old.ics")
    by reflexivity.
  rewrite (read_hol_file_text _ example_old_hol)
    by (cbn [print write_text files]; apply lookup_insert_eq).
  replace (match_header (fst (readline example_old_hol)))
    with (Some ("Old", "1")) by reflexivity.
  replace (map line_to_event_tuple
             (readlines (snd (readline example_old_hol))))
    with (map Return [("Founding", mkdatetime 999 1 1 0 0 0)])
    by reflexivity.
  rewrite write_ics_file_records.
  split; [reflexivity|].
  cbn [write_text files]. rewrite lookup_insert_eq. f_equal.
  unfold vcalendar, vevent_blocks, vevent_block. cbn [fst snd].
  replace (strftime_ymd (mkdatetime 999 1 1 0 0 0)) with "9990101"
    by reflexivity.
  rewrite !app_assoc_str. reflexivity.
Qed.

Lemma write_ics_file_document_witness :
  valid_date 2024 12 31 = true
  /\ 1000 <= 2024
  /\ strftime_ymd (mkdatetime 2024 12 31 0 0 0) = yyyymmdd 2024 12 31.
Proof.
  split; [reflexivity|]. split; [lia|].
  apply (proj1 (proj2 (proj2 write_ics_file_document))
           (mkdatetime 2024 12 31 0 0 0)); [reflexivity | cbn; lia].
Defined.

(** C3 fails on the script by a slip: a destination that carries the
    [.ics] extension is refused all the same, with the message of the
    destination test, because that test reads the suffix of the source.
    No run with a destination given gets past it. *)
Theorem main_refuses_ics_destination :
  suffix "cal.hol" = ".hol" /\ suffix "out.ics" = ".ics"
  /\ (forall (w : world) (st : state),
        main "cal.hol" (Some "out.ics") w st
        = (Raise (ValueError
                    "Destination file has to end with the ics extension"), st))
  /\ (forall (source_path given : string) (w : world) (st : state),
        raises (fst (main source_path (Some given) w st)) = true).
Proof.
  split; [reflexivity|]. split; [reflexivity|]. split.
  - intros w st. now rewrite main_destination_given.
  - intros source_path given w st. now rewrite main_destination_given.
Qed.

(** C4, as the script has it.  The loop of the writer asks for every
    record, and so has every line parsed, before the destination is
    opened: when a record line does not parse, the script raises and
    the files are as they were, the destination not opened, not created
    and not truncated. *)
Theorem malformed_record_leaves_files (source_path : string)
    (destination_path : option string) (w : world) (st : state)
    (text : string) :
  files st !! source_path = Some text ->
  existsb (fun line => raises (line_to_event_tuple line))
          (readlines (snd (readline text))) = true ->
  exists e st',
    main source_path destination_path w st = (Raise e, st')
    /\ files st' = files st.
Proof.
  intros Hfile Hbad.
  destruct (main_malformed_record source_path destination_path w st text
              Hfile Hbad) as (e & st' & H).
  exists e, st'. split; [exact H|]. exact (main_raise_files _ _ _ _ _ _ H).
Qed.

Lemma malformed_record_leaves_files_witness :
  files (one_file "cal.hol" example_malformed_hol) !! "cal.hol"
  = Some example_malformed_hol
  /\ existsb (fun line => raises (line_to_event_tuple line))
             (readlines (snd (readline example_malformed_hol))) = true
  /\ exists e st',
       main "cal.hol" None example_world
            (one_file "cal.hol" example_malformed_hol) = (Raise e, st')
       /\ files st' = files (one_file "cal.hol" example_malformed_hol).
Proof.
  split; [reflexivity|]. split; [reflexivity|].
  apply (malformed_record_leaves_files "cal.hol" None example_world
           (one_file "cal.hol" example_malformed_hol) example_malformed_hol);
    reflexivity.
Defined.

(** C4 fails on the script: no run over a file with a record line that
    does not parse changes any file; the run over the file with the line
    "No comma here" raises on that line and leaves no destination. *)
Lemma no_truncated_destination :
  ~ (exists (source_path : string) (destination_path : option string)
            (w : world) (st : state) (text : string),
        files st !! source_path = Some text
        /\ existsb (fun line => raises (line_to_event_tuple line))
                   (readlines (snd (readline text))) = true
        /\ files (snd (main source_path destination_path w st)) <> files st)
  /\ (let '(r, st') :=
        main "cal.hol" None example_world
             (one_file "cal.hol" example_malformed_hol) in
      r = Raise (UnpackError 1) /\ files st' !! "cal.ics" = None).
Proof.
  split.
  - intros (source_path & destination_path & w & st & text & Hfile & Hbad & Hne).
    destruct (main_malformed_record source_path destination_path w st text
                Hfile Hbad) as (e & st' & H).
    apply Hne. rewrite H. exact (main_raise_files _ _ _ _ _ _ H).
  - vm_compute. split; reflexivity.
Qed.

(** C7, as the script has it.  A first line that the header pattern does
    not match makes the reader raise the [ValueError] with the fixed
    message "Unable to find header in given hol file", whatever the line;
    the state is as it was.  The line "Holidays 2024 12", without brackets,
    is such a line. *)
Theorem read_hol_file_header_error (source_filename text : string)
    (st : state) :
  files st !! source_filename = Some text ->
  match_header (fst (readline text)) = None ->
  read_hol_file source_filename st
  = (Raise (ValueError "Unable to find header in given hol file"), st)
  /\ match_header example_bad_header = None.
Proof.
  intros Hfile Hno. split; [|reflexivity].
  now rewrite (read_hol_file_text _ _ _ Hfile), Hno.
Qed.

Lemma read_hol_file_header_error_witness :
  files (one_file "cal.hol" example_bad_header) !! "cal.hol"
  = Some example_bad_header
  /\ match_header (fst (readline example_bad_header)) = None
  /\ read_hol_file "cal.hol" (one_file "cal.hol" example_bad_header)
     = (Raise (ValueError "Unable to find header in given hol file"),
        one_file "cal.hol" example_bad_header).
Proof.
  split; [reflexivity|]. split; [reflexivity|].
  apply (read_hol_file_header_error "cal.hol" example_bad_header
           (one_file "cal.hol" example_bad_header)); reflexivity.
Defined.

(** C7 fails on the script: the message of the error raised for the first
    line "Holidays 2024 12" does not carry that line. *)
Lemma header_error_without_line :
  exists msg,
    fst (read_hol_file "cal.hol" (one_file "cal.hol" example_bad_header))
    = Raise (ValueError msg)
    /\ contains "Holidays 2024 12" msg = false
    /\ contains example_bad_header msg = false.
Proof.
  exists "Unable to find header in given hol file". repeat split.
Qed.

(* ===================================================================== *)
(** * The header pattern *)
(* ===================================================================== *)

Section Header.

Lemma span_decompose (p : ascii -> bool) (s : string) :
  s = fst (span p s) +:+ snd (span p s).
Proof.
  induction s as [|c s IH]; [reflexivity|]. cbn [span].
  destruct (p c); [|reflexivity].
  destruct (span p s) as [run rest]. cbn [fst snd] in *. simpl. now f_equal.
Qed.

Lemma span_run (p : ascii -> bool) (s : string) :
  forallb_str p (fst (span p s)) = true.
Proof.
  induction s as [|c s IH]; [reflexivity|]. cbn [span].
  destruct (p c) eqn:E; [|reflexivity].
  destruct (span p s) as [run rest]. cbn [fst forallb_str] in *.
  now rewrite E, IH.
Qed.

(** A run that is followed by nothing of its class is found whole. *)
Lemma span_app (p : ascii -> bool) (x y : string) :
  forallb_str p x = true ->
  span p (x +:+ y) = (x +:+ fst (span p y), snd (span p y)).
Proof.
  induction x as [|c x IH]; simpl.
  - intros _. now destruct (span p y).
  - intros [Hc Hx]%andb_true_iff. rewrite Hc, (IH Hx). reflexivity.
Qed.

Lemma span_stop (p : ascii -> bool) (c : ascii) (s : string) :
  p c = false -> span p (String c s) = ("", String c s).
Proof. intros H. cbn [span]. now rewrite H. Qed.

Lemma span_not_headed (p : ascii -> bool) (s : string) :
  not_headed p s = true -> span p s = ("", s).
Proof.
  destruct s as [|c s]; [reflexivity|]. cbn [not_headed].
  intros H%negb_true_iff. now apply span_stop.
Qed.

Lemma span_rest_not_headed (p : ascii -> bool) (s : string) :
  not_headed p (snd (span p s)) = true.
Proof.
  induction s as [|c s IH]; [reflexivity|]. cbn [span].
  destruct (p c) eqn:E.
  - destruct (span p s) as [run rest]. exact IH.
  - cbn [snd not_headed]. now rewrite E.
Qed.

Lemma isdigit_not_isspace (c : ascii) : isdigit c = true -> isspace c = false.
Proof.
  unfold isdigit, isspace. intros [H1 H2]%andb_true_iff.
  apply N.leb_le in H1, H2.
  repeat match goal with
         | |- context [?a <=? ?b] => destruct (N.leb_spec a b); try lia
         | |- context [?a =? ?b] => destruct (N.eqb_spec a b); try lia
         end.
  all: reflexivity.
Qed.

Lemma isdigit_isdot (c : ascii) : isdigit c = true -> isdot c = true.
Proof.
  unfold isdigit, isdot. intros [H1 _]%andb_true_iff. apply N.leb_le in H1.
  destruct (Ascii.eqb_spec c LF) as [->|]; [|reflexivity].
  vm_compute in H1. now contradiction H1.
Qed.

Lemma isdigit_not_bracket (c : ascii) :
  isdigit c = true -> Ascii.eqb c "]" = false.
Proof.
  unfold isdigit. intros [_ H2]%andb_true_iff. apply N.leb_le in H2.
  destruct (Ascii.eqb_spec c "]") as [->|]; [|reflexivity].
  vm_compute in H2. now contradiction H2.
Qed.

Lemma isspace_not_bracket (c : ascii) :
  isspace c = true -> Ascii.eqb c "]" = false.
Proof.
  destruct (Ascii.eqb_spec c "]") as [->|]; [discriminate | reflexivity].
Qed.

Lemma isdot_count_LF (s : string) :
  forallb_str isdot s = true <-> count_char LF s = O.
Proof.
  induction s as [|c s IH]; simpl; [tauto|]. unfold isdot at 1.
  destruct (Ascii.eqb c LF); simpl; [split; [discriminate | lia]|].
  exact IH.
Qed.

(** The count group: what [re_close_count] finds. *)
Lemma re_close_count_intro (ws count rest : string) :
  forallb_str isspace ws = true ->
  forallb_str isdigit count = true -> count <> "" ->
  not_headed isdigit rest = true ->
  re_close_count ("]" +:+ ws +:+ count +:+ rest) = Some count.
Proof.
  intros Hws Hd Hne Hrest. cbn [String.append re_close_count].
  rewrite Ascii.eqb_refl, (span_app _ _ _ Hws).
  destruct count as [|d ds]; [contradiction|].
  cbn [forallb_str] in Hd. apply andb_true_iff in Hd as [Hd Hds].
  change (String d ds +:+ rest) with (String d (ds +:+ rest)).
  rewrite (span_stop isspace) by now apply isdigit_not_isspace.
  cbn [fst snd]. cbn [span]. rewrite Hd, (span_app _ _ _ Hds).
  rewrite (span_not_headed _ _ Hrest). cbn [fst snd].
  now rewrite app_nil_r_str.
Qed.

Lemma re_close_count_inv (s count : string) :
  re_close_count s = Some count ->
  exists ws rest,
    s = "]" +:+ ws +:+ count +:+ rest
    /\ forallb_str isspace ws = true
    /\ forallb_str isdigit count = true /\ count <> ""
    /\ not_headed isdigit rest = true.
Proof.
  destruct s as [|c r]; [discriminate|]. cbn [re_close_count].
  destruct (Ascii.eqb_spec c "]") as [->|]; [|discriminate].
  pose proof (span_decompose isspace r) as D1.
  pose proof (span_run isspace r) as R1.
  destruct (span isspace r) as [ws r1]. cbn [fst snd] in *.
  pose proof (span_decompose isdigit r1) as D2.
  pose proof (span_run isdigit r1) as R2.
  pose proof (span_rest_not_headed isdigit r1) as N2.
  destruct (span isdigit r1) as [ds rest]. cbn [fst snd] in *.
  destruct ds as [|d ds]; [discriminate|]. intros [= <-].
  exists ws, rest. repeat split; try assumption; [|discriminate].
  rewrite D1, D2. reflexivity.
Qed.

Lemma re_close_count_head (c : ascii) (s : string) :
  Ascii.eqb c "]" = false -> re_close_count (String c s) = None.
Proof. intros H. cbn [re_close_count]. now rewrite H. Qed.

(** The title is a candidate: one character at least, none of them a line
    feed, the count group behind it; and no candidate starts later. *)
Lemma re_title_count_inv (s title count : string) :
  re_title_count s = Some (title, count) ->
  exists tail,
    s = title +:+ tail /\ title <> "" /\ forallb_str isdot title = true
    /\ re_close_count tail = Some count /\ re_title_count tail = None.
Proof.
  revert title count. induction s as [|c s IH]; intros title count;
    [discriminate|].
  cbn [re_title_count]. destruct (isdot c) eqn:Ec; [|discriminate].
  destruct (re_title_count s) as [[t n]|] eqn:Et.
  - intros [= <- <-]. destruct (IH t n eq_refl) as (tail & -> & Hne & Hd & Hc & Hn).
    exists tail. repeat split; try assumption; [discriminate|].
    cbn [forallb_str]. now rewrite Ec, Hd.
  - destruct (re_close_count s) as [n|] eqn:En; [|discriminate].
    intros [= <- <-]. exists s. repeat split; try assumption; [discriminate|].
    cbn [forallb_str]. now rewrite Ec.
Qed.

Lemma re_title_count_intro (title tail count : string) :
  title <> "" -> forallb_str isdot title = true ->
  re_close_count tail = Some count -> re_title_count tail = None ->
  re_title_count (title +:+ tail) = Some (title, count).
Proof.
  intros Hne Hd Hc Hn. induction title as [|c t IH]; [contradiction|].
  cbn [forallb_str] in Hd. apply andb_true_iff in Hd as [Hc0 Hd].
  change (String c t +:+ tail) with (String c (t +:+ tail)).
  cbn [re_title_count]. rewrite Hc0.
  destruct t as [|c' t'].
  - cbn [String.append]. now rewrite Hn, Hc.
  - rewrite IH; [reflexivity | discriminate | exact Hd].
Qed.

(** Greedy: some title is found as soon as there is a candidate, and it is
    as long as any candidate. *)
Lemma re_title_count_longest (t tail count : string) :
  t <> "" -> forallb_str isdot t = true ->
  re_close_count tail = Some count ->
  exists title count',
    re_title_count (t +:+ tail) = Some (title, count')
    /\ (String.length t <= String.length title)%nat.
Proof.
  intros Hne Hd Hc. induction t as [|c t IH]; [contradiction|].
  cbn [forallb_str] in Hd. apply andb_true_iff in Hd as [Hc0 Hd].
  change (String c t +:+ tail) with (String c (t +:+ tail)).
  cbn [re_title_count]. rewrite Hc0.
  destruct t as [|c' t'].
  - cbn [String.append]. destruct (re_title_count tail) as [[t1 n1]|].
    + exists (String c t1), n1. split; [reflexivity|]. simpl. lia.
    + rewrite Hc. exists (String c ""), count. split; [reflexivity|]. simpl. lia.
  - destruct IH as (title & count' & -> & Hlen); [discriminate | exact Hd|].
    exists (String c title), count'. split; [reflexivity|].
    cbn [String.length] in *. lia.
Qed.

(** Nothing is found where there is no closing bracket. *)
Lemma re_title_count_no_bracket (s : string) :
  count_char "]" s = O -> re_title_count s = None /\ re_close_count s = None.
Proof.
  induction s as [|c s IH]; [now split|]. cbn [count_char].
  destruct (Ascii.eqb c "]") eqn:Ec; [discriminate|]. intros H.
  destruct (IH H) as [Ht Hc]. split; [|now apply re_close_count_head].
  cbn [re_title_count]. rewrite Ht, Hc. now destruct (isdot c).
Qed.

(** Behind a stretch [x] without closing bracket, a title is found exactly
    when it is found one character before what follows [x], provided [x]
    has no line feed. *)
Lemma re_title_count_skip (x p : string) :
  x <> "" -> count_char "]" x = O ->
  (re_title_count (x +:+ p) = None
   <-> forallb_str isdot x = false
       \/ (re_title_count p = None /\ re_close_count p = None)).
Proof.
  intros Hne Hx. induction x as [|c x IH]; [contradiction|].
  cbn [count_char] in Hx.
  destruct (Ascii.eqb c "]") eqn:Ec; [discriminate|]. cbn [Nat.add] in Hx.
  change (String c x +:+ p) with (String c (x +:+ p)).
  cbn [re_title_count forallb_str].
  destruct (isdot c) eqn:Edot; cbn [andb]; [|tauto].
  destruct x as [|c' x'].
  - cbn [String.append forallb_str].
    destruct (re_title_count p) as [[t n]|]; [intuition discriminate|].
    destruct (re_close_count p); intuition discriminate.
  - specialize (IH ltac:(discriminate) Hx).
    cbn [count_char] in Hx.
    destruct (Ascii.eqb c' "]") eqn:Ec'; [discriminate|].
    change (String c' x' +:+ p) with (String c' (x' +:+ p)) in *.
    rewrite (re_close_count_head _ _ Ec').
    destruct (re_title_count (String c' (x' +:+ p))) as [[t n]|].
    + split; [discriminate|]. intros H. apply IH in H. discriminate.
    + split; [intros _; now apply IH | reflexivity].
Qed.

End Header.

(* ===================================================================== *)
(** * Lines: [readline] and [readlines] *)
(* ===================================================================== *)

Section Lines.

Lemma readline_decompose (text : string) :
  text = fst (readline text) +:+ snd (readline text).
Proof.
  induction text as [|c r IH]; [reflexivity|]. cbn [readline].
  destruct (Ascii.eqb c LF); [reflexivity|].
  destruct (readline r) as [line rest]. cbn [fst snd] in *. simpl. now f_equal.
Qed.

(** What has no line feed belongs to the first line. *)
Lemma readline_app (a b : string) :
  count_char LF a = O ->
  readline (a +:+ b) = (a +:+ fst (readline b), snd (readline b)).
Proof.
  induction a as [|c a IH]; simpl.
  - intros _. now destruct (readline b).
  - destruct (Ascii.eqb c LF); [discriminate|]. intros H.
    rewrite (IH H). reflexivity.
Qed.

Lemma readline_LF (rest : string) :
  readline (String LF rest) = (String LF "", rest).
Proof. reflexivity. Qed.

(** A first line has its line feed, if it has one, at its end. *)
Lemma readline_line (text a : string) (c : ascii) (b : string) :
  fst (readline text) = a +:+ String c b -> count_char LF a = O.
Proof.
  revert a. induction text as [|x r IH]; intros a; cbn [readline].
  - destruct a; discriminate.
  - destruct (Ascii.eqb x LF) eqn:Ex.
    + destruct a as [|y [|z a]]; cbn [fst]; try discriminate; reflexivity.
    + destruct (readline r) as [line rest]. cbn [fst] in *.
      destruct a as [|y a]; [reflexivity|]. intros [= <- H].
      cbn [count_char]. rewrite Ex. exact (IH a H).
Qed.

End Lines.

Section HeaderOfFile.

Lemma isdigit_LF : isdigit LF = false.
Proof. reflexivity. Qed.

Lemma re_title_count_closing_first (y : string) :
  count_char "]" y = O -> re_title_count (String "]" y) = None.
Proof.
  intros H. destruct (re_title_count_no_bracket y H) as [Ht Hc].
  cbn [re_title_count]. now rewrite Ht, Hc.
Qed.

(** The count group reaches as far as the digits go. *)
Lemma re_close_count_digits (ws count junk : string) :
  forallb_str isspace ws = true ->
  forallb_str isdigit count = true -> count <> "" ->
  re_close_count ("]" +:+ ws +:+ count +:+ junk)
  = Some (count +:+ fst (span isdigit junk)).
Proof.
  intros Hws Hd Hne.
  rewrite (span_decompose isdigit junk) at 1.
  rewrite <- (app_assoc_str count).
  apply re_close_count_intro; try assumption.
  - rewrite forallb_str_app, Hd. apply span_run.
  - destruct count; [contradiction | discriminate].
  - apply span_rest_not_headed.
Qed.

(** The header of the example of the format, with any count. *)
Lemma match_header_holidays (count : string) :
  forallb_str isdigit count = true -> count <> "" ->
  match_header ("[Holidays 2024] " +:+ count +:+ String LF "")
  = Some ("Holidays 2024", count).
Proof.
  intros Hd Hne.
  change ("[Holidays 2024] " +:+ count +:+ String LF "")
    with (String "[" ("Holidays 2024"
            +:+ ("]" +:+ " " +:+ count +:+ String LF ""))).
  cbn [match_header]. rewrite Ascii.eqb_refl.
  apply re_title_count_intro; [discriminate | reflexivity | |].
  - now apply re_close_count_intro.
  - apply re_title_count_closing_first.
    change (" " +:+ count +:+ String LF "")
      with (String " " (count +:+ String LF "")).
    cbn [count_char]. rewrite count_char_app.
    rewrite (count_char_forallb isdigit "]" count eq_refl Hd). reflexivity.
Qed.

End HeaderOfFile.

(** C6.  The header line "[Holidays 2024] 12" gives the title
    "Holidays 2024" and the count "12"; and what the reader returns for a
    file with that header has no place for the count: it is the title and
    the records of the lines that follow, the same whatever the digits of
    the count are. *)
Theorem header_count_not_used :
  match_header ("[Holidays 2024] 12" +:+ String LF "")
  = Some ("Holidays 2024", "12")
  /\ forall (source_filename count body : string) (st : state),
       forallb_str isdigit count = true -> count <> "" ->
       files st !! source_filename
       = Some ("[Holidays 2024] " +:+ count +:+ String LF body) ->
       match_header (fst (readline ("[Holidays 2024] " +:+ count
                                    +:+ String LF body)))
       = Some ("Holidays 2024", count)
       /\ read_hol_file source_filename st
          = (Return ("Holidays 2024",
                     map line_to_event_tuple (readlines body)),
             print validator_hint st).
Proof.
  split; [reflexivity|].
  intros source_filename count body st Hd Hne Hfile.
  assert (Hline : readline ("[Holidays 2024] " +:+ count +:+ String LF body)
                  = ("[Holidays 2024] " +:+ count +:+ String LF "", body)).
  { rewrite <- (app_assoc_str "[Holidays 2024] " count).
    rewrite readline_app.
    - rewrite readline_LF. cbn [fst snd]. now rewrite app_assoc_str.
    - rewrite count_char_app.
      now rewrite (count_char_forallb isdigit LF count isdigit_LF Hd). }
  rewrite (read_hol_file_text _ _ _ Hfile), Hline. cbn [fst snd].
  now rewrite (match_header_holidays count Hd Hne).
Qed.

Lemma header_count_not_used_witness :
  forallb_str isdigit "7" = true /\ "7" <> ""
  /\ files (one_file "cal.hol"
              ("[Holidays 2024] " +:+ "7" +:+ String LF "A,2024/01/01"))
       !! "cal.hol"
     = Some ("[Holidays 2024] " +:+ "7" +:+ String LF "A,2024/01/01")
  /\ read_hol_file "cal.hol"
       (one_file "cal.hol"
          ("[Holidays 2024] " +:+ "7" +:+ String LF "A,2024/01/01"))
     = (Return ("Holidays 2024",
                map line_to_event_tuple (readlines "A,2024/01/01")),
        print validator_hint
          (one_file "cal.hol"
             ("[Holidays 2024] " +:+ "7" +:+ String LF "A,2024/01/01"))).
Proof.
  split; [reflexivity|]. split; [discriminate|]. split; [reflexivity|].
  apply (proj2 header_count_not_used "cal.hol" "7" "A,2024/01/01"
           (one_file "cal.hol"
              ("[Holidays 2024] " +:+ "7" +:+ String LF "A,2024/01/01")));
    [reflexivity | discriminate | reflexivity].
Defined.

(** C10.  The header pattern is matched at the start of the first line and
    need not reach its end: a first line that begins with an opening
    bracket, one character or more, a closing bracket, white space or
    none, and one digit or more is accepted, whatever follows the digits,
    and "[T] 12 trailing junk" is accepted with the count 12.  The title
    found is followed by a closing bracket, white space or none and the
    count, and it is as long as any text between the opening bracket and a
    closing bracket that is followed by white space or none and a digit:
    it reaches to the last such bracket. *)
Theorem match_header_prefix_greedy :
  (forall text t ws count junk : string,
      fst (readline text) = "[" +:+ t +:+ "]" +:+ ws +:+ count +:+ junk ->
      t <> "" -> forallb_str isspace ws = true ->
      forallb_str isdigit count = true -> count <> "" ->
      exists title count',
        match_header (fst (readline text)) = Some (title, count')
        /\ (String.length t <= String.length title)%nat)
  /\ match_header "[T] 12 trailing junk" = Some ("T", "12")
  /\ (forall line title count : string,
        match_header line = Some (title, count) ->
        (exists ws rest,
            line = "[" +:+ title +:+ "]" +:+ ws +:+ count +:+ rest
            /\ forallb_str isspace ws = true
            /\ forallb_str isdigit count = true /\ count <> ""
            /\ not_headed isdigit rest = true)
        /\ forall t ws' digits junk : string,
             line = "[" +:+ t +:+ "]" +:+ ws' +:+ digits +:+ junk ->
             forallb_str isdot t = true ->
             forallb_str isspace ws' = true ->
             forallb_str isdigit digits = true -> digits <> "" ->
             (String.length t <= String.length title)%nat)
  /\ match_header "[a]1]b] 3]x" = Some ("a]1]b", "3").
Proof.
  split; [|split; [reflexivity|split; [|reflexivity]]].
  - intros text t ws count junk Hline Hne Hws Hd Hcne.
    assert (Hdot : forallb_str isdot t = true).
    { apply isdot_count_LF.
      change ("[" +:+ t +:+ "]" +:+ ws +:+ count +:+ junk)
        with (String "[" t +:+ String "]" (ws +:+ count +:+ junk)) in Hline.
      apply readline_line in Hline. exact Hline. }
    rewrite Hline.
    change ("[" +:+ t +:+ "]" +:+ ws +:+ count +:+ junk)
      with (String "[" (t +:+ ("]" +:+ ws +:+ count +:+ junk))).
    cbn [match_header]. rewrite Ascii.eqb_refl.
    apply (re_title_count_longest t _ _ Hne Hdot
             (re_close_count_digits ws count junk Hws Hd Hcne)).
  - intros line title count Hm.
    destruct line as [|c s]; [discriminate|]. cbn [match_header] in Hm.
    destruct (Ascii.eqb_spec c "[") as [->|]; [|discriminate].
    destruct (re_title_count_inv _ _ _ Hm) as (tail & -> & Hne & Hdot & Hc & Hn).
    split.
    + destruct (re_close_count_inv _ _ Hc) as (ws & rest & -> & Hws & Hd & Hcne & Hr).
      now exists ws, rest.
    + intros t ws' digits junk Hline Ht Hws' Hd' Hne'.
      destruct t as [|x t]; [cbn; lia|].
      change ("[" +:+ String x t +:+ "]" +:+ ws' +:+ digits +:+ junk)
        with (String "[" (String x t +:+ ("]" +:+ ws' +:+ digits +:+ junk)))
        in Hline.
      injection Hline as Hline.
      destruct (re_title_count_longest (String x t) _ _ ltac:(discriminate) Ht
                  (re_close_count_digits ws' digits junk Hws' Hd' Hne'))
        as (title' & count' & Hm' & Hlen).
      rewrite (eq_sym Hline : String x t +:+ ("]" +:+ ws' +:+ digits +:+ junk)
                              = title +:+ tail), Hm in Hm'.
      now injection Hm' as <- <-.
Qed.

Lemma match_header_prefix_greedy_witness :
  fst (readline ("[T] 12 trailing junk" +:+ String LF "A,2024/01/01"))
  = "[" +:+ "T" +:+ "]" +:+ " " +:+ "12" +:+ (" trailing junk" +:+ String LF "")
  /\ "T" <> "" /\ forallb_str isspace " " = true
  /\ forallb_str isdigit "12" = true /\ "12" <> ""
  /\ exists title count',
       match_header
         (fst (readline ("[T] 12 trailing junk" +:+ String LF "A,2024/01/01")))
       = Some (title, count')
       /\ (String.length "T" <= String.length title)%nat.
Proof.
  split; [reflexivity|]. split; [discriminate|]. split; [reflexivity|].
  split; [reflexivity|]. split; [discriminate|].
  apply (proj1 match_header_prefix_greedy
           ("[T] 12 trailing junk" +:+ String LF "A,2024/01/01")
           "T" " " "12" (" trailing junk" +:+ String LF ""));
    [reflexivity | discriminate | reflexivity | reflexivity | discriminate].
Defined.

(* ===================================================================== *)
(** * No line feed in what the writer formats *)
(* ===================================================================== *)

Section NoLineFeed.

Lemma string_of_uint_digits (d : Decimal.uint) :
  forallb_str isdigit (NilEmpty.string_of_uint d) = true.
Proof. induction d; simpl; auto. Qed.

Lemma dec_digits (n : N) : forallb_str isdigit (dec n) = true.
Proof.
  unfold dec, NilZero.string_of_uint.
  pose proof (string_of_uint_digits (N.to_uint n)) as H.
  destruct (N.to_uint n); [reflexivity | exact H ..].
Qed.

Lemma zeros_digits (k : nat) : forallb_str isdigit (zeros k) = true.
Proof. induction k; simpl; auto. Qed.

Lemma zfill_digits (w : nat) (n : N) : forallb_str isdigit (zfill w n) = true.
Proof.
  unfold zfill. now rewrite forallb_str_app, zeros_digits, dec_digits.
Qed.

Lemma zfill_lf_free (w : nat) (n : N) : lf_free (zfill w n).
Proof. exact (count_char_forallb isdigit LF _ isdigit_LF (zfill_digits w n)). Qed.

Lemma dec_lf_free (n : N) : lf_free (dec n).
Proof. exact (count_char_forallb isdigit LF _ isdigit_LF (dec_digits n)). Qed.

Lemma strftime_ymd_lf_free (d : datetime) : lf_free (strftime_ymd d).
Proof.
  unfold lf_free, strftime_ymd.
  now rewrite !count_char_app, dec_lf_free, !zfill_lf_free.
Qed.

Lemma strftime_ics_lf_free (d : datetime) : lf_free (strftime_ics d).
Proof.
  unfold lf_free, strftime_ics.
  rewrite !count_char_app, !zfill_lf_free. reflexivity.
Qed.

Lemma hex_digit_not_LF (d : N) : d < 16 -> Ascii.eqb (hex_digit d) LF = false.
Proof.
  intros H. destruct d as [|p]; [reflexivity|].
  do 4 (destruct p as [p|p|]; try reflexivity); lia.
Qed.

Lemma hex_fixed_lf_free (w : nat) (n : N) : lf_free (hex_fixed w n).
Proof.
  unfold lf_free. revert n. induction w as [|w IH]; intros n; [reflexivity|].
  cbn [hex_fixed]. rewrite count_char_app, IH. cbn [count_char].
  rewrite hex_digit_not_LF; [reflexivity|]. now apply N.mod_lt.
Qed.

Lemma substring_lf_free (s : string) (n m : nat) :
  lf_free s -> lf_free (substring n m s).
Proof.
  unfold lf_free. revert n m. induction s as [|c s IH]; intros n m H.
  - now destruct n, m.
  - cbn [count_char] in H. destruct (Ascii.eqb c LF) eqn:E; [discriminate|].
    destruct n as [|n]; [destruct m as [|m]|]; cbn [substring count_char].
    + reflexivity.
    + rewrite E. now apply IH.
    + now apply IH.
Qed.

Lemma str_uuid_lf_free (n : N) : lf_free (str_uuid n).
Proof.
  unfold lf_free, str_uuid. rewrite !count_char_app.
  rewrite !(substring_lf_free _ _ _ (hex_fixed_lf_free 32 n)). reflexivity.
Qed.

Lemma event_lines_lf_free (w : world) (i : nat) (name : string)
    (start_date : datetime) :
  lf_free name -> Forall lf_free (event_lines w i name start_date).
Proof.
  intros Hname. unfold event_lines.
  repeat constructor; unfold lf_free;
    rewrite ?count_char_app, ?str_uuid_lf_free, ?strftime_ics_lf_free,
      ?strftime_ymd_lf_free, ?Hname; reflexivity.
Qed.

(** A line of [readlines] has its line feed, if it has one, at its end. *)
Lemma readlines_line (text l a : string) (c : ascii) (b : string) :
  In l (readlines text) -> l = a +:+ String c b -> lf_free a.
Proof.
  unfold lf_free. revert l a. induction text as [|x r IH]; intros l a;
    cbn [readlines]; [contradiction|].
  destruct (Ascii.eqb x LF) eqn:Ex.
  - intros [<-|Hin]; [|now apply IH].
    destruct a as [|y [|z a]]; try discriminate; reflexivity.
  - destruct (readlines r) as [|l0 ls].
    + intros [<-|[]]. destruct a as [|y [|z a]]; try discriminate; reflexivity.
    + intros [<-|Hin].
      * destruct a as [|y a]; [reflexivity|]. intros [= <- H].
        cbn [count_char]. rewrite Ex. apply (IH l0 a (or_introl eq_refl) H).
      * apply IH. now right.
Qed.

Lemma split_record_inv (line t d : string) :
  split_record line = Return (t, d) -> line = t +:+ String "," d.
Proof.
  intros H. destruct (Nat.eq_dec (count_char "," line) 1%nat) as [E|E].
  - destruct (first_sep "," line) as (t' & d' & -> & Ht); [lia|].
    rewrite count_char_app in E. cbn [count_char] in E.
    rewrite Ascii.eqb_refl in E.
    assert (H' : split_record (t' +:+ String "," d') = Return (t', d'))
      by (apply (split_record_one_comma t' d' Ht); lia).
    rewrite H' in H. now injection H as <- <-.
  - rewrite (split_record_unpack _ E) in H. discriminate.
Qed.

(** The title of a record is the start of its line, up to a comma. *)
Lemma line_to_event_tuple_title (line title : string) (dt : datetime) :
  line_to_event_tuple line = Return (title, dt) ->
  exists d, line = title +:+ String "," d.
Proof.
  unfold line_to_event_tuple.
  destruct (split_record line) as [[t d]|e] eqn:E; [|discriminate].
  cbn [bind]. destruct (strptime_ymd (strip d)); [|discriminate].
  cbn [bind]. intros [= <- _]. exists d. now apply split_record_inv.
Qed.

Lemma records_titles_lf_free (text title : string) (dt : datetime) :
  In (Return (title, dt)) (map line_to_event_tuple (readlines text)) ->
  lf_free title.
Proof.
  intros (line & Hline & Hin)%in_map_iff.
  destruct (line_to_event_tuple_title _ _ _ Hline) as (d & E).
  exact (readlines_line _ _ _ _ _ Hin E).
Qed.

End NoLineFeed.

(* ===================================================================== *)
(** * The content lines of a document *)
(* ===================================================================== *)

Section ContentLines.

Lemma split_crlf_line (l : string) : lf_free l -> split_crlf l = [l].
Proof.
  unfold lf_free. induction l as [|c l IH]; [reflexivity|].
  cbn [count_char]. destruct (Ascii.eqb c LF) eqn:Ec; [discriminate|].
  intros H. cbn [split_crlf]. destruct l as [|c' l']; [reflexivity|].
  assert (Ec' : Ascii.eqb c' LF = false).
  { cbn [count_char] in H. now destruct (Ascii.eqb c' LF). }
  rewrite Ec', andb_false_r. now rewrite (IH H).
Qed.

Lemma split_crlf_app (l rest : string) :
  lf_free l -> split_crlf (l +:+ CRLF +:+ rest) = l :: split_crlf rest.
Proof.
  unfold lf_free. induction l as [|c l IH].
  - intros _. reflexivity.
  - cbn [count_char]. destruct (Ascii.eqb c LF) eqn:Ec; [discriminate|].
    intros H. specialize (IH H).
    destruct l as [|c' l'].
    + change (String c "" +:+ CRLF +:+ rest)
        with (String c (String CR (String LF rest))).
      change ("" +:+ CRLF +:+ rest) with (String CR (String LF rest)) in IH.
      cbn [split_crlf] in *.
      replace (Ascii.eqb CR LF) with false by reflexivity.
      rewrite andb_false_r. rewrite IH. reflexivity.
    + change (String c (String c' l') +:+ CRLF +:+ rest)
        with (String c (String c' (l' +:+ CRLF +:+ rest))).
      change (String c' l' +:+ CRLF +:+ rest)
        with (String c' (l' +:+ CRLF +:+ rest)) in IH.
      assert (Ec' : Ascii.eqb c' LF = false).
      { cbn [count_char] in H. now destruct (Ascii.eqb c' LF). }
      remember (String c' (l' +:+ CRLF +:+ rest)) as s' eqn:Es'.
      cbn [split_crlf]. rewrite Es' at 1. rewrite Ec', andb_false_r.
      rewrite IH. reflexivity.
Qed.

(** Splitting at the CRLFs gives back the lines that were joined. *)
Lemma split_crlf_join (lines : list string) :
  lines <> [] -> Forall lf_free lines ->
  split_crlf (join CRLF lines) = lines.
Proof.
  induction lines as [|l ls IH]; [contradiction|]. intros _ H.
  inversion H as [|? ? Hl Hls]; subst.
  destruct ls as [|l' ls'].
  - now apply split_crlf_line.
  - cbn [join]. rewrite (split_crlf_app _ _ Hl). f_equal.
    apply IH; [discriminate | exact Hls].
Qed.

Lemma same_field_refl (l : string) : same_field l l.
Proof. now left. Qed.

Lemma Forall2_same_field_refl (ls : list string) : Forall2 same_field ls ls.
Proof. induction ls; constructor; [apply same_field_refl | assumption]. Qed.

Lemma same_file_refl (f : option string) : same_file f f.
Proof. destruct f; [apply Forall2_same_field_refl | exact I]. Qed.

Lemma prefix_app (p x : string) : String.prefix p (p +:+ x) = true.
Proof.
  induction p as [|c p IH]; [now destruct x|].
  cbn [String.append String.prefix].
  destruct (ascii_dec c c); [exact IH | contradiction].
Qed.

Lemma event_lines_same (w1 w2 : world) (i : nat) (name : string)
    (start_date : datetime) :
  Forall2 same_field (event_lines w1 i name start_date)
                     (event_lines w2 i name start_date).
Proof.
  unfold event_lines.
  constructor; [now left|].
  constructor; [right; left; split; apply prefix_app|].
  constructor; [right; right; split; apply prefix_app|].
  repeat (constructor; [now left|]). constructor.
Qed.

End ContentLines.

(* ===================================================================== *)
(** * Two runs of the script *)
(* ===================================================================== *)

Section TwoRuns.

Variables w1 w2 : world.
Variable R : string -> string -> Prop.
Hypothesis R_event_lines : forall i name start_date,
  Forall2 R (event_lines w1 i name start_date)
            (event_lines w2 i name start_date).
Hypothesis R_refl : forall l, R l l.

Lemma Forall2_R_refl (ls : list string) : Forall2 R ls ls.
Proof. induction ls; constructor; [apply R_refl | assumption]. Qed.

Lemma related_file_refl (f : option string) : related_file R f f.
Proof. destruct f; [now left | exact I]. Qed.

(** Two runs of the loop over the same records: the same exception, or
    lines that [R] relates. *)
Lemma event_loop_related (events : iterable event) (i : nat)
    (ls1 ls2 : list string) :
  Forall2 R ls1 ls2 -> Forall lf_free ls1 -> Forall lf_free ls2 ->
  (forall name dt, In (Return (name, dt)) events -> lf_free name) ->
  match event_loop w1 i events ls1, event_loop w2 i events ls2 with
  | Return l1, Return l2 =>
      Forall2 R l1 l2 /\ Forall lf_free l1 /\ Forall lf_free l2
  | Raise e1, Raise e2 => e1 = e2
  | _, _ => False
  end.
Proof.
  revert i ls1 ls2. induction events as [|item events IH];
    intros i ls1 ls2 H12 H1 H2 Hnames.
  - cbn [event_loop]. now repeat split.
  - cbn [event_loop]. destruct item as [[name start_date]|e]; cbn [bind];
      [|reflexivity].
    assert (Hname : lf_free name) by (apply (Hnames name start_date); now left).
    apply IH.
    + apply Forall2_app; [exact H12 | apply R_event_lines].
    + apply Forall_app. split; [exact H1 | now apply event_lines_lf_free].
    + apply Forall_app. split; [exact H2 | now apply event_lines_lf_free].
    + intros n d Hin. apply (Hnames n d). now right.
Qed.

(** Two runs of the writer over the same records, from two states. *)
Lemma write_ics_file_related (events : iterable event)
    (destination_filename title : string) (st1 st2 : state) :
  lf_free title ->
  (forall name dt, In (Return (name, dt)) events -> lf_free name) ->
  match write_ics_file events destination_filename title w1 st1,
        write_ics_file events destination_filename title w2 st2 with
  | (Return _, s1), (Return _, s2) =>
      exists doc1 doc2,
        s1 = write_text destination_filename doc1 st1
        /\ s2 = write_text destination_filename doc2 st2
        /\ related_file R (Some doc1) (Some doc2)
  | (Raise e1, s1), (Raise e2, s2) => e1 = e2 /\ s1 = st1 /\ s2 = st2
  | _, _ => False
  end.
Proof.
  intros Htitle Hnames. unfold write_ics_file.
  set (head := ["BEGIN:VCALENDAR"; "VERSION:2.0";
                "PRODID:-//" +:+ title +:+ "//EN"]).
  assert (Hhead : Forall lf_free head).
  { repeat constructor. unfold lf_free.
    rewrite !count_char_app, Htitle. reflexivity. }
  pose proof (event_loop_related events 0%nat head head
                (Forall2_R_refl head) Hhead Hhead Hnames) as H.
  destruct (event_loop w1 0%nat events head) as [l1|e1],
           (event_loop w2 0%nat events head) as [l2|e2];
    try contradiction.
  - destruct H as (H12 & H1 & H2).
    eexists _, _. split; [reflexivity|]. split; [reflexivity|].
    right. exists (l1 ++ ["END:VCALENDAR"]), (l2 ++ ["END:VCALENDAR"]).
    repeat split.
    + now destruct l1.
    + apply Forall_app. split; [exact H1 | now repeat constructor].
    + apply Forall_app. split; [exact H2 | now repeat constructor].
    + apply Forall2_app; [exact H12 | apply Forall2_R_refl].
  - now subst.
Qed.

(** Two runs of the script on two files with the same title and the same
    lines behind the header, from states that agree on the paths [agree]:
    the same result, the same output, and related files on those paths. *)
Lemma main_related (source_path : string) (destination_path : option string)
    (st1 st2 : state) (text1 text2 title count1 count2 : string)
    (agree : string -> Prop) :
  files st1 !! source_path = Some text1 ->
  files st2 !! source_path = Some text2 ->
  (forall p, agree p -> files st1 !! p = files st2 !! p) ->
  stdout st1 = stdout st2 ->
  match_header (fst (readline text1)) = Some (title, count1) ->
  match_header (fst (readline text2)) = Some (title, count2) ->
  snd (readline text1) = snd (readline text2) ->
  fst (main source_path destination_path w1 st1)
  = fst (main source_path destination_path w2 st2)
  /\ stdout (snd (main source_path destination_path w1 st1))
     = stdout (snd (main source_path destination_path w2 st2))
  /\ forall p, agree p ->
       related_file R
         (files (snd (main source_path destination_path w1 st1)) !! p)
         (files (snd (main source_path destination_path w2 st2)) !! p).
Proof.
  intros Hf1 Hf2 Hagree Hout Hm1 Hm2 Hrest.
  assert (Hsame : forall p, agree p ->
            related_file R (files st1 !! p) (files st2 !! p)).
  { intros p Hp. rewrite (Hagree p Hp). apply related_file_refl. }
  unfold main.
  destruct (negb (String.eqb (suffix source_path) ".hol"));
    [cbn [fst snd]; auto|].
  match goal with |- context [match ?c with Return _ => _ | Raise _ => _ end] =>
    destruct c as [dst|e0] end; [|cbn [fst snd]; auto].
  rewrite (read_hol_file_text _ text1) by exact Hf1.
  rewrite (read_hol_file_text _ text2) by exact Hf2.
  rewrite Hm1, Hm2, Hrest.
  set (msg := "Attempting to convert " +:+ source_path +:+ " into " +:+ dst).
  set (events := map line_to_event_tuple (readlines (snd (readline text2)))).
  assert (Htitle : lf_free title).
  { destruct (fst (readline text1)) as [|c s]; [discriminate|].
    cbn [match_header] in Hm1. destruct (Ascii.eqb c "["); [|discriminate].
    destruct (re_title_count_inv _ _ _ Hm1) as (tail & _ & _ & Hdot & _).
    now apply isdot_count_LF. }
  pose proof (write_ics_file_related events dst title
                (print validator_hint (print msg st1))
                (print validator_hint (print msg st2)) Htitle
                (records_titles_lf_free (snd (readline text2)))) as H.
  destruct (write_ics_file events dst title w1 _) as [[[]|e1] s1],
           (write_ics_file events dst title w2 _) as [[[]|e2] s2];
    try contradiction; cbn [fst snd].
  - destruct H as (doc1 & doc2 & -> & -> & Hdocs).
    cbn [write_text print files stdout]. split; [reflexivity|].
    split; [now rewrite Hout|].
    intros p Hp. destruct (decide (dst = p)) as [->|Hne].
    + now rewrite !lookup_insert_eq.
    + rewrite !lookup_insert_ne by exact Hne. now apply Hsame.
  - destruct H as (-> & -> & ->). cbn [print files stdout].
    split; [reflexivity|]. split; [now rewrite Hout|]. exact Hsame.
Qed.

(** Without records to write, the world is not asked for anything. *)
Lemma main_no_header (source_path : string)
    (destination_path : option string) (st : state) :
  match files st !! source_path with
  | Some text => match_header (fst (readline text)) = None
  | None => True
  end ->
  main source_path destination_path w1 st
  = main source_path destination_path w2 st.
Proof.
  intros H. unfold main.
  destruct (negb (String.eqb (suffix source_path) ".hol")); [reflexivity|].
  match goal with |- context [match ?c with Return _ => _ | Raise _ => _ end] =>
    destruct c as [dst|e0] end; [|reflexivity].
  unfold read_hol_file. cbn [print files].
  destruct (files st !! source_path) as [text|]; [|reflexivity].
  destruct (readline text) as [header rest]. cbn [fst] in H. now rewrite H.
Qed.

End TwoRuns.

Section SameDocuments.

Lemma related_file_same_field (f1 f2 : option string) :
  related_file same_field f1 f2 -> same_file f1 f2.
Proof.
  destruct f1 as [doc1|], f2 as [doc2|]; cbn [related_file same_file]; auto.
  intros [->|(ls1 & ls2 & -> & -> & Hne & H1 & H2 & H12)].
  - apply Forall2_same_field_refl.
  - unfold same_apart_from_uid_dtstamp.
    rewrite (split_crlf_join ls1 Hne H1).
    rewrite (split_crlf_join ls2); [exact H12 | | exact H2].
    intros ->. inversion H12. now subst.
Qed.

Lemma related_file_eq (f1 f2 : option string) :
  related_file eq f1 f2 -> f1 = f2.
Proof.
  destruct f1 as [doc1|], f2 as [doc2|]; cbn [related_file];
    try tauto.
  intros [->|(ls1 & ls2 & -> & -> & _ & _ & _ & H12)]; [reflexivity|].
  f_equal. f_equal. induction H12; [reflexivity | now f_equal].
Qed.

Lemma event_lines_same_world (w1 w2 : world) :
  (forall i, uuid4 w1 i = uuid4 w2 i /\ now w1 i = now w2 i) ->
  forall i name start_date,
    Forall2 eq (event_lines w1 i name start_date)
               (event_lines w2 i name start_date).
Proof.
  intros Hw i name start_date. unfold event_lines.
  destruct (Hw i) as [-> ->]. now repeat constructor.
Qed.

End SameDocuments.

(** C9.  Two runs of the script on the same source file, in the same
    state, with any two series of random identifiers and any two clocks,
    end with the same result and the same output, and leave at every path
    documents with the same content lines, one by one, apart from the
    values of the UID and of the DTSTAMP fields. *)
Theorem two_runs_differ_in_uid_dtstamp_only (source_path : string)
    (destination_path : option string) (w1 w2 : world) (st : state) :
  fst (main source_path destination_path w1 st)
  = fst (main source_path destination_path w2 st)
  /\ stdout (snd (main source_path destination_path w1 st))
     = stdout (snd (main source_path destination_path w2 st))
  /\ forall p,
       same_file (files (snd (main source_path destination_path w1 st)) !! p)
                 (files (snd (main source_path destination_path w2 st)) !! p).
Proof.
  destruct (files st !! source_path) as [text|] eqn:Hfile.
  - destruct (match_header (fst (readline text))) as [[title count]|] eqn:Hm.
    + destruct (main_related w1 w2 same_field (event_lines_same w1 w2)
                  same_field_refl source_path destination_path st st
                  text text title count count (fun _ => True)
                  Hfile Hfile (fun _ _ => eq_refl) eq_refl Hm Hm eq_refl)
        as (Hr & Ho & Hf).
      split; [exact Hr|]. split; [exact Ho|].
      intros p. apply related_file_same_field. now apply Hf.
    + rewrite (main_no_header w1 w2 source_path destination_path st)
        by now rewrite Hfile.
      split; [reflexivity|]. split; [reflexivity|].
      intros p. apply same_file_refl.
  - rewrite (main_no_header w1 w2 source_path destination_path st)
      by now rewrite Hfile.
    split; [reflexivity|]. split; [reflexivity|].
    intros p. apply same_file_refl.
Qed.

(* ===================================================================== *)
(** * Other digits for the count of the header *)
(* ===================================================================== *)

Section OtherCount.

Lemma re_title_count_cons_none (c : ascii) (y : string) :
  isdot c = true ->
  (re_title_count (String c y) = None
   <-> re_title_count y = None /\ re_close_count y = None).
Proof.
  intros Hc. cbn [re_title_count]. rewrite Hc.
  destruct (re_title_count y) as [[t n]|]; [intuition discriminate|].
  destruct (re_close_count y); intuition discriminate.
Qed.

Lemma re_close_count_app_none (x p : string) :
  x <> "" -> count_char "]" x = O -> re_close_count (x +:+ p) = None.
Proof.
  destruct x as [|c x]; [contradiction|]. intros _. cbn [count_char].
  destruct (Ascii.eqb c "]") eqn:E; [discriminate|]. intros _.
  now apply re_close_count_head.
Qed.

Lemma forallb_str_isspace_no_bracket (s : string) :
  forallb_str isspace s = true -> count_char "]" s = O.
Proof. apply count_char_forallb. reflexivity. Qed.

Lemma forallb_str_isdigit_no_bracket (s : string) :
  forallb_str isdigit s = true -> count_char "]" s = O.
Proof. apply count_char_forallb. reflexivity. Qed.

(** White space that reaches the end of the line is not followed by a
    count. *)
Lemma re_close_count_spaces (ws : string) :
  forallb_str isspace ws = true -> re_close_count ("]" +:+ ws) = None.
Proof.
  intros Hws. cbn [String.append re_close_count]. rewrite Ascii.eqb_refl.
  rewrite <- (app_nil_r_str ws), (span_app _ _ _ Hws). reflexivity.
Qed.

(** The pattern on a line with other digits for the count. *)
Lemma match_header_other_count (title ws count1 count2 rest : string) :
  match_header ("[" +:+ title +:+ "]" +:+ ws +:+ count1 +:+ rest)
  = Some (title, count1) ->
  forallb_str isspace ws = true -> forallb_str isdot ws = true ->
  forallb_str isdigit count2 = true -> count2 <> "" ->
  match_header ("[" +:+ title +:+ "]" +:+ ws +:+ count2 +:+ rest)
  = Some (title, count2).
Proof.
  intros Hm Hws Hwsdot Hd2 Hne2.
  change ("[" +:+ title +:+ "]" +:+ ws +:+ count1 +:+ rest)
    with (String "[" (title +:+ ("]" +:+ ws +:+ count1 +:+ rest))) in Hm.
  change ("[" +:+ title +:+ "]" +:+ ws +:+ count2 +:+ rest)
    with (String "[" (title +:+ ("]" +:+ ws +:+ count2 +:+ rest))).
  cbn [match_header] in *. rewrite Ascii.eqb_refl in *.
  destruct (re_title_count_inv _ _ _ Hm) as (tail & E & Hne & Hdot & Hc & Hn).
  apply app_inv_head_str in E. subst tail.
  destruct (re_close_count_inv _ _ Hc) as (_ & _ & _ & _ & Hd1 & Hne1 & _).
  (* the digits of the first count end where [rest] begins *)
  assert (Hrest : fst (span isdigit rest) = "").
  { rewrite (re_close_count_digits ws count1 rest Hws Hd1 Hne1) in Hc.
    injection Hc as Hc. rewrite <- (app_nil_r_str count1) in Hc at 2.
    now apply app_inv_head_str in Hc. }
  apply re_title_count_intro; [exact Hne | exact Hdot | |].
  - rewrite (re_close_count_digits ws count2 rest Hws Hd2 Hne2), Hrest.
    now rewrite app_nil_r_str.
  - change ("]" +:+ ws +:+ count1 +:+ rest)
      with (String "]" (ws +:+ count1 +:+ rest)) in Hn.
    change ("]" +:+ ws +:+ count2 +:+ rest)
      with (String "]" (ws +:+ count2 +:+ rest)).
    apply (re_title_count_cons_none "]" _ eq_refl) in Hn as [Hn _].
    apply (re_title_count_cons_none "]" _ eq_refl).
    rewrite <- app_assoc_str in Hn. rewrite <- app_assoc_str.
    assert (Hx : forall c, forallb_str isdigit c = true -> c <> "" ->
              ws +:+ c <> "" /\ count_char "]" (ws +:+ c) = O
              /\ forallb_str isdot (ws +:+ c) = true).
    { intros c Hc0 Hcne. repeat split.
      - destruct ws; [exact Hcne | discriminate].
      - rewrite count_char_app, (forallb_str_isspace_no_bracket _ Hws).
        now rewrite (forallb_str_isdigit_no_bracket _ Hc0).
      - rewrite forallb_str_app, Hwsdot.
        apply (forallb_str_impl isdigit isdot _ isdigit_isdot Hc0). }
    destruct (Hx count1 Hd1 Hne1) as (X1 & B1 & D1).
    destruct (Hx count2 Hd2 Hne2) as (X2 & B2 & D2).
    split; [|now apply re_close_count_app_none].
    apply (re_title_count_skip _ _ X2 B2). right.
    apply (re_title_count_skip _ _ X1 B1) in Hn as [Hn|Hn]; [|exact Hn].
    rewrite D1 in Hn. discriminate.
Qed.

(** The first line of a file whose header is matched up to the count has
    no line feed before the count. *)
Lemma header_spaces_on_line (title ws count1 post : string) :
  match_header (fst (readline ("[" +:+ title +:+ "]" +:+ ws +:+ count1
                               +:+ post)))
  = Some (title, count1) ->
  forallb_str isspace ws = true ->
  forallb_str isdot title = true /\ forallb_str isdot ws = true.
Proof.
  intros Hm Hws.
  assert (Hdot : forallb_str isdot title = true).
  { destruct (fst (readline _)) as [|c s]; [discriminate|].
    cbn [match_header] in Hm. destruct (Ascii.eqb c "["); [|discriminate].
    now destruct (re_title_count_inv _ _ _ Hm) as (tail & _ & _ & Hdot & _). }
  split; [exact Hdot|].
  apply isdot_count_LF.
  destruct (count_char LF ws) as [|n] eqn:E; [reflexivity|]. exfalso.
  destruct (first_sep LF ws) as (wa & wb & -> & Hwa); [lia|].
  rewrite forallb_str_app in Hws. apply andb_true_iff in Hws as [Hwa' _].
  assert (Hline : readline ("[" +:+ title +:+ "]" +:+ (wa +:+ String LF wb)
                            +:+ count1 +:+ post)
                  = ("[" +:+ title +:+ "]" +:+ wa +:+ String LF "",
                     wb +:+ count1 +:+ post)).
  { replace ("[" +:+ title +:+ "]" +:+ (wa +:+ String LF wb)
             +:+ count1 +:+ post)
      with (("[" +:+ title +:+ "]" +:+ wa)
            +:+ String LF (wb +:+ count1 +:+ post)).
    - rewrite readline_app, readline_LF.
      + cbn [fst snd]. f_equal. norm_app. reflexivity.
      + simpl. rewrite !count_char_app. apply isdot_count_LF in Hdot.
        cbn [count_char]. rewrite Hdot, Hwa. reflexivity.
    - norm_app. reflexivity. }
  rewrite Hline in Hm. cbn [fst] in Hm.
  change ("[" +:+ title +:+ "]" +:+ wa +:+ String LF "")
    with (String "[" (title +:+ ("]" +:+ (wa +:+ String LF "")))) in Hm.
  cbn [match_header] in Hm. rewrite Ascii.eqb_refl in Hm.
  destruct (re_title_count_inv _ _ _ Hm) as (tail & Et & _ & _ & Hc & _).
  apply app_inv_head_str in Et. subst tail.
  rewrite re_close_count_spaces in Hc; [discriminate|].
  rewrite forallb_str_app, Hwa'. reflexivity.
Qed.

(** A file with other digits for the count of its header has the same
    title and the same lines behind the header. *)
Lemma header_other_count (title ws count1 count2 post : string) :
  match_header (fst (readline ("[" +:+ title +:+ "]" +:+ ws +:+ count1
                               +:+ post)))
  = Some (title, count1) ->
  forallb_str isspace ws = true ->
  forallb_str isdigit count2 = true -> count2 <> "" ->
  match_header (fst (readline ("[" +:+ title +:+ "]" +:+ ws +:+ count2
                               +:+ post)))
  = Some (title, count2)
  /\ snd (readline ("[" +:+ title +:+ "]" +:+ ws +:+ count1 +:+ post))
     = snd (readline ("[" +:+ title +:+ "]" +:+ ws +:+ count2 +:+ post)).
Proof.
  intros Hm Hws Hd2 Hne2.
  destruct (header_spaces_on_line _ _ _ _ Hm Hws) as [Hdot Hwsdot].
  assert (Hd1 : forallb_str isdigit count1 = true).
  { destruct (fst (readline _)) as [|c s]; [discriminate|].
    cbn [match_header] in Hm. destruct (Ascii.eqb c "["); [|discriminate].
    destruct (re_title_count_inv _ _ _ Hm) as (tail & _ & _ & _ & Hc & _).
    now destruct (re_close_count_inv _ _ Hc) as (_ & _ & _ & _ & Hd1 & _). }
  assert (Hline : forall c, forallb_str isdigit c = true ->
            readline ("[" +:+ title +:+ "]" +:+ ws +:+ c +:+ post)
            = ("[" +:+ title +:+ "]" +:+ ws +:+ c +:+ fst (readline post),
               snd (readline post))).
  { intros c Hc.
    replace ("[" +:+ title +:+ "]" +:+ ws +:+ c +:+ post)
      with (("[" +:+ title +:+ "]" +:+ ws +:+ c) +:+ post)
      by (norm_app; reflexivity).
    rewrite readline_app.
    - f_equal. norm_app. reflexivity.
    - repeat (progress (cbn [String.append count_char])
              || rewrite count_char_app).
      apply isdot_count_LF in Hdot, Hwsdot. rewrite Hdot, Hwsdot.
      now rewrite (count_char_forallb isdigit LF c isdigit_LF Hc). }
  rewrite (Hline count1 Hd1) in Hm |- *. rewrite (Hline count2 Hd2).
  cbn [fst snd] in *. split; [|reflexivity].
  now apply (match_header_other_count title ws count1 count2).
Qed.

End OtherCount.

(** C8.  Two source files that differ in the digits of the count of the
    header line only: the file "[title]" + white space + count + the rest,
    whose header is matched with that title and that count, and the same
    file with other digits for the count.  The header of the second file is
    matched with the same title, and the runs of the script on the two
    files end with the same result and the same output and leave, at
    every path but the one of the source, documents with the same content
    lines apart from the values of UID and DTSTAMP; with the same random
    identifiers and the same clock these documents are the same. *)
Theorem count_digits_have_no_effect (source_path : string)
    (destination_path : option string) (w1 w2 : world) (st : state)
    (title ws count1 count2 post : string) :
  let text1 := "[" +:+ title +:+ "]" +:+ ws +:+ count1 +:+ post in
  let text2 := "[" +:+ title +:+ "]" +:+ ws +:+ count2 +:+ post in
  let run1 := main source_path destination_path w1
                   (write_text source_path text1 st) in
  let run2 := main source_path destination_path w2
                   (write_text source_path text2 st) in
  match_header (fst (readline text1)) = Some (title, count1) ->
  forallb_str isspace ws = true ->
  forallb_str isdigit count2 = true -> count2 <> "" ->
  match_header (fst (readline text2)) = Some (title, count2)
  /\ fst run1 = fst run2
  /\ stdout (snd run1) = stdout (snd run2)
  /\ (forall p, p <> source_path ->
        same_file (files (snd run1) !! p) (files (snd run2) !! p))
  /\ ((forall i, uuid4 w1 i = uuid4 w2 i /\ now w1 i = now w2 i) ->
      forall p, p <> source_path ->
        files (snd run1) !! p = files (snd run2) !! p).
Proof.
  intros text1 text2 run1 run2 Hm Hws Hd2 Hne2.
  destruct (header_other_count title ws count1 count2 post Hm Hws Hd2 Hne2)
    as [Hm2 Hrest].
  split; [exact Hm2|].
  assert (Hf1 : files (write_text source_path text1 st) !! source_path
                = Some text1) by apply lookup_insert_eq.
  assert (Hf2 : files (write_text source_path text2 st) !! source_path
                = Some text2) by apply lookup_insert_eq.
  assert (Hagree : forall p, p <> source_path ->
            files (write_text source_path text1 st) !! p
            = files (write_text source_path text2 st) !! p).
  { intros p Hp. cbn [write_text files].
    now rewrite !lookup_insert_ne by (intros E; apply Hp; now rewrite E). }
  destruct (main_related w1 w2 same_field (event_lines_same w1 w2)
              same_field_refl source_path destination_path _ _
              text1 text2 title count1 count2 (fun p => p <> source_path)
              Hf1 Hf2 Hagree eq_refl Hm Hm2 Hrest) as (Hr & Ho & Hf).
  split; [exact Hr|]. split; [exact Ho|]. split.
  - intros p Hp. apply related_file_same_field. now apply Hf.
  - intros Hw p Hp. apply related_file_eq.
    now apply (main_related w1 w2 eq (event_lines_same_world w1 w2 Hw)
                 (@eq_refl string) source_path destination_path _ _
                 text1 text2 title count1 count2 (fun p => p <> source_path)
                 Hf1 Hf2 Hagree eq_refl Hm Hm2 Hrest).
Qed.

Lemma count_digits_have_no_effect_witness :
  match_header
    (fst (readline ("[" +:+ "Test" +:+ "]" +:+ " " +:+ "2"
                    +:+ String LF "A,2024/01/01")))
  = Some ("Test", "2")
  /\ forallb_str isspace " " = true
  /\ forallb_str isdigit "17" = true /\ "17" <> ""
  /\ match_header
       (fst (readline ("[" +:+ "Test" +:+ "]" +:+ " " +:+ "17"
                       +:+ String LF "A,2024/01/01")))
     = Some ("Test", "17")
  /\ fst (main "cal.hol" None example_world
            (write_text "cal.hol"
               ("[" +:+ "Test" +:+ "]" +:+ " " +:+ "2"
                +:+ String LF "A,2024/01/01") (mkstate ∅ [])))
     = fst (main "cal.hol" None example_world_later
              (write_text "cal.hol"
                 ("[" +:+ "Test" +:+ "]" +:+ " " +:+ "17"
                  +:+ String LF "A,2024/01/01") (mkstate ∅ []))).
Proof.
  split; [reflexivity|]. split; [reflexivity|]. split; [reflexivity|].
  split; [discriminate|].
  pose proof (count_digits_have_no_effect "cal.hol" None example_world
                example_world_later (mkstate ∅ []) "Test" " " "2" "17"
                (String LF "A,2024/01/01") eq_refl eq_refl eq_refl
                ltac:(discriminate)) as H.
  exact (conj (proj1 H) (proj1 (proj2 H))).
Defined.

(* ===================================================================== *)
(** * White space around the date of a record *)
(* ===================================================================== *)

(** Counts of a character over appends and literals. *)
Ltac norm_count :=
  repeat (progress (cbn [String.append count_char]) || rewrite count_char_app);
  rewrite ?Ascii.eqb_refl.

Section AroundTheDate.

Lemma lstrip_spaces (ws : string) :
  forallb_str isspace ws = true -> lstrip ws = "".
Proof.
  induction ws as [|c ws IH]; [reflexivity|]. cbn [forallb_str lstrip].
  intros [Hc Hws]%andb_true_iff. rewrite Hc. now apply IH.
Qed.

Lemma lstrip_app_spaces (ws s : string) :
  forallb_str isspace ws = true -> lstrip (ws +:+ s) = lstrip s.
Proof.
  induction ws as [|c ws IH]; [reflexivity|]. cbn [forallb_str].
  intros [Hc Hws]%andb_true_iff.
  change (String c ws +:+ s) with (String c (ws +:+ s)).
  cbn [lstrip]. rewrite Hc. now apply IH.
Qed.

(** What is left of a string after the white space at its start is the
    whole of it from there on. *)
Lemma lstrip_app (s w : string) :
  lstrip s <> "" -> lstrip (s +:+ w) = lstrip s +:+ w.
Proof.
  induction s as [|c s IH]; [contradiction|].
  change (String c s +:+ w) with (String c (s +:+ w)). cbn [lstrip].
  destruct (isspace c); [exact IH | reflexivity].
Qed.

Lemma rstrip_spaces (ws : string) :
  forallb_str isspace ws = true -> rstrip ws = "".
Proof.
  induction ws as [|c ws IH]; [reflexivity|]. cbn [forallb_str rstrip].
  intros [Hc Hws]%andb_true_iff. now rewrite (IH Hws), Hc.
Qed.

Lemma rstrip_app_spaces (s ws : string) :
  forallb_str isspace ws = true -> rstrip (s +:+ ws) = rstrip s.
Proof.
  intros Hws. induction s as [|c s IH].
  - cbn [String.append]. now rewrite rstrip_spaces.
  - change (String c s +:+ ws) with (String c (s +:+ ws)).
    cbn [rstrip]. now rewrite IH.
Qed.

(** White space added on either side is stripped with the rest. *)
Lemma strip_app_spaces (ws1 s ws2 : string) :
  forallb_str isspace ws1 = true -> forallb_str isspace ws2 = true ->
  strip (ws1 +:+ s +:+ ws2) = strip s.
Proof.
  intros H1 H2. unfold strip. rewrite (lstrip_app_spaces _ _ H1).
  destruct (lstrip s) as [|c r] eqn:E.
  - assert (Hs : lstrip (s +:+ ws2) = "").
    { clear -E H2. induction s as [|c s IH].
      - cbn [String.append]. now apply lstrip_spaces.
      - change (String c s +:+ ws2) with (String c (s +:+ ws2)).
        cbn [lstrip] in *. destruct (isspace c); [now apply IH | discriminate]. }
    now rewrite Hs.
  - rewrite lstrip_app by (rewrite E; discriminate).
    rewrite E. now apply rstrip_app_spaces.
Qed.

Lemma isspace_no_comma (ws : string) :
  forallb_str isspace ws = true -> count_char "," ws = O.
Proof. apply count_char_forallb. reflexivity. Qed.

End AroundTheDate.

Section SpacesAroundDate.

Lemma line_to_event_tuple_spaces (t d ws1 ws2 : string) :
  forallb_str isspace ws1 = true -> forallb_str isspace ws2 = true ->
  line_to_event_tuple (t +:+ "," +:+ ws1 +:+ d +:+ ws2)
  = line_to_event_tuple (t +:+ "," +:+ d).
Proof.
  intros H1 H2.
  assert (Hc : count_char "," (ws1 +:+ d +:+ ws2) = count_char "," d).
  { rewrite !count_char_app, (isspace_no_comma _ H1), (isspace_no_comma _ H2).
    lia. }
  destruct (Nat.eq_dec (count_char "," t + count_char "," d)%nat O) as [E|E].
  - rewrite !line_to_event_tuple_one_comma by lia.
    now rewrite strip_app_spaces.
  - rewrite !line_to_event_tuple_unpack.
    + norm_count. rewrite (isspace_no_comma _ H1), (isspace_no_comma _ H2).
      do 3 f_equal. lia.
    + norm_count. rewrite ?(isspace_no_comma _ H1), ?(isspace_no_comma _ H2).
      lia.
    + norm_count. rewrite ?(isspace_no_comma _ H1), ?(isspace_no_comma _ H2).
      lia.
Qed.

Lemma line_to_event_tuple_line_feed (line : string) :
  line_to_event_tuple (line +:+ String LF "") = line_to_event_tuple line.
Proof.
  destruct (Nat.eq_dec (count_char "," line) O) as [E|E].
  - assert (HLF : count_char "," (line +:+ String LF "") = count_char "," line).
    { rewrite count_char_app. change (count_char "," (String LF "")) with O.
      lia. }
    rewrite !line_to_event_tuple_unpack by lia. now rewrite HLF.
  - destruct (first_sep "," line E) as (t & d & -> & _).
    rewrite app_assoc_str. cbn [String.append].
    apply (line_to_event_tuple_spaces t d "" (String LF "")); reflexivity.
Qed.

End SpacesAroundDate.

(** X1.  White space around the date of a record line does not count: the
    line with white space added before and after the text that follows
    its first comma gives the same record, or raises the same exception,
    as the line without it.  So does the line with its line feed. *)
Theorem line_to_event_tuple_spaces_around_date :
  (forall t d ws1 ws2 : string,
      forallb_str isspace ws1 = true -> forallb_str isspace ws2 = true ->
      line_to_event_tuple (t +:+ "," +:+ ws1 +:+ d +:+ ws2)
      = line_to_event_tuple (t +:+ "," +:+ d))
  /\ (forall line : string,
        line_to_event_tuple (line +:+ String LF "") = line_to_event_tuple line).
Proof.
  split; [exact line_to_event_tuple_spaces | exact line_to_event_tuple_line_feed].
Qed.

Lemma line_to_event_tuple_spaces_around_date_witness :
  forallb_str isspace "  " = true
  /\ forallb_str isspace (String LF "") = true
  /\ line_to_event_tuple ("Easter" +:+ "," +:+ "  " +:+ "2024/03/31"
                          +:+ String LF "")
     = line_to_event_tuple ("Easter" +:+ "," +:+ "2024/03/31").
Proof.
  split; [reflexivity|]. split; [reflexivity|].
  apply (proj1 line_to_event_tuple_spaces_around_date
           "Easter" "2024/03/31" "  " (String LF "")); reflexivity.
Defined.

(* ===================================================================== *)
(** * Paths: the name, the suffix and the derived destination *)
(* ===================================================================== *)

Section Paths.

Lemma last_split_cons (sep c : ascii) (s : string) :
  List.last (split sep (String c s)) ""
  = match count_char sep (String c s) with
    | O => String c s
    | S _ => List.last (split sep s) ""
    end.
Proof.
  cbn [split count_char]. destruct (Ascii.eqb c sep) eqn:E.
  - cbn [Nat.add]. pose proof (split_not_nil sep s) as Hne.
    destruct (split sep s) as [|p ps]; [contradiction | reflexivity].
  - cbn [Nat.add]. pose proof (length_split sep s) as L.
    destruct (split sep s) as [|p ps] eqn:Es; [discriminate|].
    destruct (count_char sep s) as [|n] eqn:Ec.
    + rewrite (split_none _ _ Ec) in Es. now injection Es as <- <-.
    + destruct ps as [|q qs]; [discriminate | reflexivity].
Qed.

(** A path is a directory part and its last component; the component has
    no slash, and another one in its place is the last of the new path. *)
Lemma last_component (path : string) :
  exists dir,
    path = dir +:+ List.last (split "/" path) ""
    /\ count_char "/" (List.last (split "/" path) "") = O
    /\ forall n, count_char "/" n = O ->
                 List.last (split "/" (dir +:+ n)) "" = n.
Proof.
  induction path as [|c s IH].
  - exists "". repeat split. intros n Hn. cbn [String.append].
    now rewrite (split_none _ _ Hn).
  - rewrite last_split_cons.
    destruct (count_char "/" (String c s)) as [|k] eqn:Ec.
    + exists "". repeat split; [exact Ec|]. intros n Hn. cbn [String.append].
      now rewrite (split_none _ _ Hn).
    + destruct IH as (dir & Hs & Hname & Hrepl).
      exists (String c dir). split; [|split; [exact Hname|]].
      * cbn [String.append]. now rewrite <- Hs.
      * intros n Hn. cbn [String.append]. rewrite last_split_cons.
        assert (Hd : count_char "/" (String c (dir +:+ n)) <> O).
        { rewrite Hs in Ec. cbn [count_char] in *.
          rewrite count_char_app in *. lia. }
        destruct (count_char "/" (String c (dir +:+ n))); [contradiction|].
        now apply Hrepl.
Qed.

(** The same for the name of a path other than ["."]. *)
Lemma name_decompose (path : string) :
  path <> "." ->
  exists dir,
    path = dir +:+ name path /\ count_char "/" (name path) = O
    /\ forall n, count_char "/" n = O -> n <> "." -> name (dir +:+ n) = n.
Proof.
  intros Hdot. unfold name at 1 2.
  destruct (String.eqb_spec path ".") as [|_]; [contradiction|].
  destruct (last_component path) as (dir & Hp & Hname & Hrepl).
  exists dir. split; [exact Hp|]. split; [exact Hname|].
  intros n Hn Hnd. unfold name.
  destruct (String.eqb_spec (dir +:+ n) ".") as [E|_]; [|now apply Hrepl].
  destruct dir as [|c dir]; [contradiction|].
  cbn [String.append] in E. injection E as _ E.
  destruct dir; [|discriminate]. cbn [String.append] in E. now subst n.
Qed.

Lemma suffix_dot : suffix "." = "".
Proof. reflexivity. Qed.

Lemma from_last_dot_inv (n x : string) :
  from_last_dot n = Some x ->
  exists pre rest,
    n = pre +:+ x /\ x = String "." rest /\ count_char "." rest = O.
Proof.
  revert x. induction n as [|c r IH]; intros x; [discriminate|].
  cbn [from_last_dot]. destruct (from_last_dot r) as [y|] eqn:E.
  - intros [= <-]. destruct (IH y eq_refl) as (pre & rest & -> & -> & Hr).
    now exists (String c pre), rest.
  - destruct (Ascii.eqb_spec c ".") as [->|]; [|discriminate].
    intros [= <-]. exists "", r. repeat split.
    clear IH. induction r as [|d r IHr]; [reflexivity|].
    cbn [from_last_dot] in E. destruct (from_last_dot r); [discriminate|].
    cbn [count_char]. destruct (Ascii.eqb d "."); [discriminate|].
    now apply IHr.
Qed.

Lemma from_last_dot_none (s : string) :
  count_char "." s = O -> from_last_dot s = None.
Proof.
  induction s as [|c s IH]; [reflexivity|]. cbn [count_char from_last_dot].
  destruct (Ascii.eqb c "."); [discriminate|]. intros H. now rewrite (IH H).
Qed.

Lemma from_last_dot_app (pre rest : string) :
  count_char "." rest = O ->
  from_last_dot (pre +:+ String "." rest) = Some (String "." rest).
Proof.
  intros H. induction pre as [|c pre IH].
  - cbn [String.append from_last_dot]. now rewrite (from_last_dot_none _ H).
  - change (String c pre +:+ String "." rest)
      with (String c (pre +:+ String "." rest)).
    cbn [from_last_dot]. now rewrite IH.
Qed.

Lemma substring_prefix (a b : string) :
  substring 0 (String.length a) (a +:+ b) = a.
Proof.
  induction a as [|c a IH]; [now destruct b|].
  cbn [String.length String.append substring]. now rewrite IH.
Qed.

(** A path with a suffix is a stem and that suffix; the stem has a name
    of its own in front of the suffix. *)
Lemma suffix_stem (path x : string) :
  suffix path = x -> x <> "" ->
  exists dir base,
    path = (dir +:+ base) +:+ x /\ name path = base +:+ x /\ base <> ""
    /\ count_char "/" base = O
    /\ forall n, count_char "/" n = O -> n <> "." -> name (dir +:+ n) = n.
Proof.
  intros H Hne.
  assert (Hdot : path <> ".").
  { intros ->. rewrite suffix_dot in H. now subst x. }
  unfold suffix in H.
  destruct (name_decompose path Hdot) as (dir & Hp & Hname & Hrepl).
  destruct (from_last_dot (name path)) as [y|] eqn:E;
    [|now subst x].
  destruct ((1 <? String.length y)%nat && (String.length y <? String.length (name path))%nat)
    eqn:C; [|now subst x].
  subst y. apply andb_true_iff in C as [_ C]. apply Nat.ltb_lt in C.
  destruct (from_last_dot_inv _ _ E) as (base & rest & Hn & _ & _).
  exists dir, base. split; [|split; [exact Hn|split; [|split; [|exact Hrepl]]]].
  - rewrite app_assoc_str, <- Hn. exact Hp.
  - intros ->. rewrite Hn in C. cbn [String.append] in C. lia.
  - rewrite Hn, count_char_app in Hname. lia.
Qed.

(** The destination derived from a source with the suffix [.hol]: the
    same stem with [.ics], which is its suffix; it is another path. *)
Lemma derived_destination (source_path : string) :
  suffix source_path = ".hol" ->
  exists stem,
    source_path = stem +:+ ".hol"
    /\ with_suffix source_path ".ics" = Return (stem +:+ ".ics")
    /\ suffix (stem +:+ ".ics") = ".ics"
    /\ stem +:+ ".ics" <> source_path.
Proof.
  intros H.
  destruct (suffix_stem _ _ H ltac:(discriminate))
    as (dir & base & Hp & Hn & Hb & Hslash & Hrepl).
  exists (dir +:+ base). split; [exact Hp|]. split; [|split].
  - rewrite (with_suffix_hol _ H). f_equal. f_equal.
    rewrite Hp. rewrite length_app_str.
    replace (String.length (dir +:+ base) + String.length ".hol" - 4)%nat
      with (String.length (dir +:+ base)) by (cbn [String.length]; lia).
    apply substring_prefix.
  - unfold suffix. rewrite app_assoc_str, Hrepl.
    + rewrite (from_last_dot_app base "ics" eq_refl).
      rewrite length_app_str. cbn [String.length].
      destruct base as [|c base]; [contradiction|]. cbn [String.length].
      replace (1 <? 4)%nat with true by reflexivity.
      replace (4 <? S (String.length base) + 4)%nat with true; [reflexivity|].
      symmetry. apply Nat.ltb_lt. lia.
    + rewrite count_char_app, Hslash. reflexivity.
    + destruct base as [|c [|c' base]]; discriminate.
  - rewrite Hp. intros E. apply app_inv_head_str in E. discriminate.
Qed.

End Paths.

(** X2.  Without [--dest], a source path that passes the extension test
    gives a destination beside it: the source is a stem followed by
    [.hol], the destination is that stem followed by [.ics], it carries
    the suffix [.ics], and it is not the source. *)
Theorem destination_beside_source (source_path : string) :
  suffix source_path = ".hol" ->
  exists stem,
    source_path = stem +:+ ".hol"
    /\ with_suffix source_path ".ics" = Return (stem +:+ ".ics")
    /\ suffix (stem +:+ ".ics") = ".ics"
    /\ stem +:+ ".ics" <> source_path.
Proof. exact (derived_destination source_path). Qed.

Lemma destination_beside_source_witness :
  suffix "my.cals/uk.2024.hol" = ".hol"
  /\ exists stem,
       "my.cals/uk.2024.hol" = stem +:+ ".hol"
       /\ with_suffix "my.cals/uk.2024.hol" ".ics" = Return (stem +:+ ".ics")
       /\ suffix (stem +:+ ".ics") = ".ics"
       /\ stem +:+ ".ics" <> "my.cals/uk.2024.hol".
Proof.
  split; [reflexivity|].
  apply (destination_beside_source "my.cals/uk.2024.hol"). reflexivity.
Defined.

(* ===================================================================== *)
(** * The runs of the script, step by step *)
(* ===================================================================== *)

Section Runs.

Lemma iterable_cases {A : Type} (events : iterable A) :
  (exists items, events = map Return items)
  \/ (exists good e rest, events = map Return good ++ Raise e :: rest).
Proof.
  induction events as [|[a|e] events IH].
  - left. now exists [].
  - destruct IH as [(items & ->)|(good & e & rest & ->)].
    + left. now exists (a :: items).
    + right. now exists (a :: good), e, rest.
  - right. now exists [], e, events.
Qed.

(** The loop stops at the first item that raises, with its exception. *)
Lemma event_loop_first_error (w : world) (good : list event) (e : exn)
    (rest : iterable event) (i : nat) (lines : list string) :
  event_loop w i (map Return good ++ Raise e :: rest) lines = Raise e.
Proof.
  revert i lines. induction good as [|[name start_date] good IH];
    intros i lines; [reflexivity|].
  cbn [map app event_loop bind]. apply IH.
Qed.

Lemma write_ics_file_first_error (good : list event) (e : exn)
    (rest : iterable event) (destination_filename title : string)
    (w : world) (st : state) :
  write_ics_file (map Return good ++ Raise e :: rest)
                 destination_filename title w st
  = (Raise e, st).
Proof. unfold write_ics_file. now rewrite event_loop_first_error. Qed.

(** Lines that all parse are records. *)
Lemma lines_records (lines : list string) :
  Forall (fun line => raises (line_to_event_tuple line) = false) lines ->
  exists records, map line_to_event_tuple lines = map Return records.
Proof.
  induction 1 as [|line lines Hline _ (records & IH)]; [now exists []|].
  destruct (line_to_event_tuple line) as [record|e] eqn:E; [|discriminate].
  exists (record :: records). cbn [map]. now rewrite E, IH.
Qed.

(** The script on a source with the right suffix and no [--dest]. *)
Lemma main_steps (source_path : string) (w : world) (st : state) :
  suffix source_path = ".hol" ->
  main source_path None w st
  = let st1 := print (attempting source_path (ics_beside source_path)) st in
    match files st !! source_path with
    | None => (Raise (OSError source_path), st1)
    | Some text =>
        match match_header (fst (readline text)) with
        | None =>
            (Raise (ValueError "Unable to find header in given hol file"), st1)
        | Some (title, _) =>
            write_ics_file
              (map line_to_event_tuple (readlines (snd (readline text))))
              (ics_beside source_path) title w (print validator_hint st1)
        end
    end.
Proof.
  intros H. unfold main. rewrite H, (with_suffix_hol _ H).
  cbn [String.eqb Ascii.eqb Bool.eqb negb].
  fold (ics_beside source_path).
  fold (attempting source_path (ics_beside source_path)).
  cbv zeta. unfold read_hol_file at 1. cbn [print files].
  destruct (files st !! source_path) as [text|]; [|reflexivity].
  destruct (readline text) as [header rest]. cbn [fst snd].
  now destruct (match_header header) as [[title count]|].
Qed.

Lemma print_print_write (source_path doc : string) (st : state) :
  write_text (ics_beside source_path) doc
    (print validator_hint
       (print (attempting source_path (ics_beside source_path)) st))
  = converted source_path doc st.
Proof.
  unfold write_text, print, converted. cbn [files stdout].
  now rewrite <- app_assoc.
Qed.

Lemma print_print (source_path : string) (st : state) :
  print validator_hint
    (print (attempting source_path (ics_beside source_path)) st)
  = attempted source_path st.
Proof.
  unfold print, attempted. cbn [files stdout]. now rewrite <- app_assoc.
Qed.

(** The run that converts. *)
Lemma main_success_intro (source_path : string) (w : world) (st : state)
    (text title count : string) (records : list event) :
  suffix source_path = ".hol" ->
  files st !! source_path = Some text ->
  match_header (fst (readline text)) = Some (title, count) ->
  map line_to_event_tuple (readlines (snd (readline text)))
  = map Return records ->
  main source_path None w st
  = (Return tt, converted source_path (vcalendar title records w) st).
Proof.
  intros Hs Hf Hm Hr. rewrite (main_steps _ _ _ Hs). cbv zeta.
  rewrite Hf, Hm, Hr, write_ics_file_records. now rewrite print_print_write.
Qed.

Lemma main_success_inv (source_path : string)
    (destination_path : option string) (w : world) (st st' : state)
    (u : unit) :
  main source_path destination_path w st = (Return u, st') ->
  destination_path = None /\ suffix source_path = ".hol"
  /\ exists text title count records,
       files st !! source_path = Some text
       /\ match_header (fst (readline text)) = Some (title, count)
       /\ map line_to_event_tuple (readlines (snd (readline text)))
          = map Return records
       /\ st' = converted source_path (vcalendar title records w) st.
Proof.
  intros H. destruct destination_path as [given|].
  { rewrite main_destination_given in H. discriminate. }
  split; [reflexivity|].
  destruct (String.eqb_spec (suffix source_path) ".hol") as [Hs|Hs];
    [|rewrite (main_source_extension _ _ _ _ Hs) in H; discriminate].
  split; [exact Hs|].
  rewrite (main_steps _ _ _ Hs) in H. cbv zeta in H.
  destruct (files st !! source_path) as [text|]; [|discriminate].
  destruct (match_header (fst (readline text))) as [[title count]|] eqn:Hm;
    [|discriminate].
  destruct (iterable_cases
              (map line_to_event_tuple (readlines (snd (readline text)))))
    as [(records & Hr)|(good & e & rest & Hr)]; rewrite Hr in H.
  - rewrite write_ics_file_records, print_print_write in H.
    injection H as _ <-. now exists text, title, count, records.
  - rewrite write_ics_file_first_error in H. discriminate.
Qed.

(** The result and the files of a run depend on the files only, not on
    what was printed before. *)
Lemma main_files_only (source_path : string)
    (destination_path : option string) (w : world) (st1 st2 : state) :
  files st1 = files st2 ->
  fst (main source_path destination_path w st1)
  = fst (main source_path destination_path w st2)
  /\ files (snd (main source_path destination_path w st1))
     = files (snd (main source_path destination_path w st2)).
Proof.
  intros H. unfold main.
  destruct (negb (String.eqb (suffix source_path) ".hol")); [now split|].
  match goal with |- context [match ?c with Return _ => _ | Raise _ => _ end] =>
    destruct c as [dst|e0] end; [|now split].
  unfold read_hol_file. cbn [print files]. rewrite H.
  destruct (files st2 !! source_path) as [text|]; [|now split].
  destruct (readline text) as [header rest].
  destruct (match_header header) as [[title count]|]; [|now split].
  unfold write_ics_file.
  destruct (event_loop w 0%nat (map line_to_event_tuple (readlines rest)) _);
    cbn [fst snd write_text print files]; [now rewrite H | now split].
Qed.

End Runs.

(** X3.  A run of the script converts only when no [--dest] is given, the
    source path has the suffix [.hol], the source file is read, its first
    line is matched by the header pattern and every line behind it is a
    record.  The run has then left the document of these records at the
    path with [.ics] in the place of [.hol], and has printed its two
    lines. *)
Theorem main_converts_only_when (source_path : string)
    (destination_path : option string) (w : world) (st st' : state) :
  main source_path destination_path w st = (Return tt, st') ->
  destination_path = None /\ suffix source_path = ".hol"
  /\ exists text title count records,
       files st !! source_path = Some text
       /\ match_header (fst (readline text)) = Some (title, count)
       /\ map line_to_event_tuple (readlines (snd (readline text)))
          = map Return records
       /\ files st' !! ics_beside source_path
          = Some (vcalendar title records w)
       /\ stdout st'
          = stdout st ++ [attempting source_path (ics_beside source_path);
                          validator_hint].
Proof.
  intros H.
  destruct (main_success_inv _ _ _ _ _ _ H)
    as (Hd & Hs & text & title & count & records & Hf & Hm & Hr & ->).
  split; [exact Hd|]. split; [exact Hs|].
  exists text, title, count, records.
  split; [exact Hf|]. split; [exact Hm|]. split; [exact Hr|].
  unfold converted. cbn [files stdout].
  split; [apply lookup_insert_eq | reflexivity].
Qed.

Lemma main_converts_only_when_witness :
  main "cal.hol" None example_world (one_file "cal.hol" example_hol)
  = (Return tt,
     converted "cal.hol"
       (vcalendar "Test" [("A", mkdatetime 2024 1 1 0 0 0);
                          ("B", mkdatetime 2024 12 31 0 0 0)] example_world)
       (one_file "cal.hol" example_hol))
  /\ @None string = None /\ suffix "cal.hol" = ".hol".
Proof.
  assert (H : main "cal.hol" None example_world
                (one_file "cal.hol" example_hol)
              = (Return tt,
                 converted "cal.hol"
                   (vcalendar "Test" [("A", mkdatetime 2024 1 1 0 0 0);
                                      ("B", mkdatetime 2024 12 31 0 0 0)]
                              example_world)
                   (one_file "cal.hol" example_hol))) by reflexivity.
  split; [exact H|].
  destruct (main_converts_only_when "cal.hol" None example_world
              (one_file "cal.hol" example_hol) _ H) as (Hd & Hs & _).
  exact (conj Hd Hs).
Defined.

Section RunsFurther.

Lemma ics_beside_not_source (source_path : string) :
  suffix source_path = ".hol" -> ics_beside source_path <> source_path.
Proof.
  intros H. destruct (derived_destination _ H) as (stem & Hp & Hw & _ & Hne).
  rewrite (with_suffix_hol _ H) in Hw. injection Hw as Hw.
  unfold ics_beside. now rewrite Hw.
Qed.

Lemma main_first_error (source_path : string) (w : world) (st : state)
    (text title count : string) (good : list string) (bad : string)
    (rest : list string) (e : exn) :
  suffix source_path = ".hol" ->
  files st !! source_path = Some text ->
  match_header (fst (readline text)) = Some (title, count) ->
  readlines (snd (readline text)) = good ++ bad :: rest ->
  Forall (fun line => raises (line_to_event_tuple line) = false) good ->
  line_to_event_tuple bad = Raise e ->
  main source_path None w st = (Raise e, attempted source_path st).
Proof.
  intros Hs Hf Hm Hl Hgood Hbad. rewrite (main_steps _ _ _ Hs). cbv zeta.
  rewrite Hf, Hm, Hl, map_app. cbn [map]. rewrite Hbad.
  destruct (lines_records good Hgood) as (records & ->).
  now rewrite write_ics_file_first_error, print_print.
Qed.

End RunsFurther.

(** X5.  When the header is matched and a line behind it does not parse,
    the records before it all parsing, the script raises the exception of
    that line, whatever the lines after it are; it has printed its two
    lines and has left the files as they were. *)
Theorem main_raises_first_bad_line (source_path : string) (w : world)
    (st : state) (text title count : string) (good : list string)
    (bad : string) (rest : list string) (e : exn) :
  suffix source_path = ".hol" ->
  files st !! source_path = Some text ->
  match_header (fst (readline text)) = Some (title, count) ->
  readlines (snd (readline text)) = good ++ bad :: rest ->
  Forall (fun line => raises (line_to_event_tuple line) = false) good ->
  line_to_event_tuple bad = Raise e ->
  main source_path None w st = (Raise e, attempted source_path st).
Proof. exact (main_first_error source_path w st text title count good bad rest e). Qed.

Lemma main_raises_first_bad_line_witness :
  suffix "cal.hol" = ".hol"
  /\ files (one_file "cal.hol" example_two_bad_lines) !! "cal.hol"
     = Some example_two_bad_lines
  /\ match_header (fst (readline example_two_bad_lines)) = Some ("Test", "3")
  /\ readlines (snd (readline example_two_bad_lines))
     = ["A,2024/01/01" +:+ String LF ""]
       ++ ("B,2024/02/30" +:+ String LF "") :: ["No comma here"]
  /\ Forall (fun line => raises (line_to_event_tuple line) = false)
            ["A,2024/01/01" +:+ String LF ""]
  /\ line_to_event_tuple ("B,2024/02/30" +:+ String LF "")
     = Raise (StrptimeError OutOfRange)
  /\ main "cal.hol" None example_world
          (one_file "cal.hol" example_two_bad_lines)
     = (Raise (StrptimeError OutOfRange),
        attempted "cal.hol" (one_file "cal.hol" example_two_bad_lines)).
Proof.
  assert (G : Forall (fun line => raises (line_to_event_tuple line) = false)
                     ["A,2024/01/01" +:+ String LF ""])
    by (constructor; [reflexivity | constructor]).
  split; [reflexivity|]. split; [reflexivity|]. split; [reflexivity|].
  split; [reflexivity|]. split; [exact G|]. split; [reflexivity|].
  apply (main_raises_first_bad_line "cal.hol" example_world
           (one_file "cal.hol" example_two_bad_lines) example_two_bad_lines
           "Test" "3" ["A,2024/01/01" +:+ String LF ""]
           ("B,2024/02/30" +:+ String LF "") ["No comma here"]);
    solve [reflexivity | exact G].
Defined.

Section Documents.

(** The document is its lines joined by CRLF. *)
Lemma vcalendar_join (title : string) (records : list event) (w : world) :
  vcalendar title records w
  = join CRLF (head_lines title ++ records_lines w 0%nat records
               ++ ["END:VCALENDAR"]).
Proof.
  rewrite app_assoc, join_snoc, terminated_app, terminated_records_lines.
  unfold vcalendar, head_lines. cbn [terminated].
  rewrite !app_assoc_str. reflexivity.
Qed.

Lemma length_records_lines (w : world) (records : list event) (i : nat) :
  length (records_lines w i records) = (6 * length records)%nat.
Proof.
  revert i. induction records as [|[name start_date] records IH]; intros i;
    [reflexivity|].
  cbn [records_lines]. rewrite length_app, IH. cbn [event_lines length]. lia.
Qed.

Lemma records_lines_lf_free (w : world) (records : list event) (i : nat) :
  Forall (fun record => lf_free (fst record)) records ->
  Forall lf_free (records_lines w i records).
Proof.
  intros H. revert i. induction H as [|[name start_date] records Hn _ IH];
    intros i; [constructor|].
  cbn [records_lines]. apply Forall_app. split; [|apply IH].
  now apply event_lines_lf_free.
Qed.

(** The records of the lines of a file have no line feed in their titles. *)
Lemma file_records_lf_free (text : string) (records : list event) :
  map line_to_event_tuple (readlines text) = map Return records ->
  Forall (fun record => lf_free (fst record)) records.
Proof.
  intros H. apply List.Forall_forall. intros [name start_date] Hin.
  apply (records_titles_lf_free text name start_date).
  rewrite H. apply in_map_iff. now exists (name, start_date).
Qed.

Lemma match_header_title (header title count : string) :
  match_header header = Some (title, count) ->
  title <> "" /\ lf_free title
  /\ forallb_str isdigit count = true /\ count <> "".
Proof.
  destruct header as [|c s]; [discriminate|]. cbn [match_header].
  destruct (Ascii.eqb c "["); [|discriminate]. intros H.
  destruct (re_title_count_inv _ _ _ H) as (tail & _ & Hne & Hdot & Hc & _).
  destruct (re_close_count_inv _ _ Hc) as (_ & _ & _ & _ & Hd & Hcne & _).
  repeat split; try assumption. now apply isdot_count_LF.
Qed.

End Documents.

(** X6.  The document a converting run leaves has, between CRLFs, exactly
    these content lines: BEGIN:VCALENDAR, VERSION:2.0, the PRODID of the
    title, six lines for each line of the source behind its header, in
    their order, and END:VCALENDAR.  No title brings a line break into
    the document. *)
Theorem converted_document_lines (source_path : string)
    (destination_path : option string) (w : world) (st st' : state) :
  main source_path destination_path w st = (Return tt, st') ->
  exists text title count records doc,
    files st !! source_path = Some text
    /\ match_header (fst (readline text)) = Some (title, count)
    /\ map line_to_event_tuple (readlines (snd (readline text)))
       = map Return records
    /\ files st' !! ics_beside source_path = Some doc
    /\ split_crlf doc
       = head_lines title ++ records_lines w 0%nat records
         ++ ["END:VCALENDAR"]
    /\ length (split_crlf doc)
       = (4 + 6 * length (readlines (snd (readline text))))%nat.
Proof.
  intros H.
  destruct (main_success_inv _ _ _ _ _ _ H)
    as (_ & Hs & text & title & count & records & Hf & Hm & Hr & ->).
  exists text, title, count, records, (vcalendar title records w).
  split; [exact Hf|]. split; [exact Hm|]. split; [exact Hr|].
  split; [unfold converted; cbn [files]; apply lookup_insert_eq|].
  assert (Hlines : split_crlf (vcalendar title records w)
                   = head_lines title ++ records_lines w 0%nat records
                     ++ ["END:VCALENDAR"]).
  { rewrite vcalendar_join. apply split_crlf_join; [discriminate|].
    destruct (match_header_title _ _ _ Hm) as (_ & Ht & _).
    apply Forall_app. split.
    - unfold head_lines. repeat constructor. unfold lf_free in *.
      rewrite !count_char_app, Ht. reflexivity.
    - apply Forall_app. split; [|now repeat constructor].
      apply records_lines_lf_free. exact (file_records_lf_free _ _ Hr). }
  split; [exact Hlines|].
  rewrite Hlines, !length_app, length_records_lines.
  assert (L : length records = length (readlines (snd (readline text)))).
  { rewrite <- (length_map Return records), <- Hr. apply length_map. }
  rewrite L. cbn [head_lines length]. lia.
Qed.

Lemma converted_document_lines_witness :
  main "cal.hol" None example_world (one_file "cal.hol" example_hol)
  = (Return tt,
     converted "cal.hol"
       (vcalendar "Test" [("A", mkdatetime 2024 1 1 0 0 0);
                          ("B", mkdatetime 2024 12 31 0 0 0)] example_world)
       (one_file "cal.hol" example_hol))
  /\ exists text title count records doc,
       files (one_file "cal.hol" example_hol) !! "cal.hol" = Some text
       /\ match_header (fst (readline text)) = Some (title, count)
       /\ map line_to_event_tuple (readlines (snd (readline text)))
          = map Return records
       /\ files (converted "cal.hol"
                   (vcalendar "Test" [("A", mkdatetime 2024 1 1 0 0 0);
                                      ("B", mkdatetime 2024 12 31 0 0 0)]
                      example_world)
                   (one_file "cal.hol" example_hol))
            !! ics_beside "cal.hol" = Some doc
       /\ split_crlf doc
          = head_lines title ++ records_lines example_world 0%nat records
            ++ ["END:VCALENDAR"]
       /\ length (split_crlf doc)
          = (4 + 6 * length (readlines (snd (readline text))))%nat.
Proof.
  assert (H : main "cal.hol" None example_world
                (one_file "cal.hol" example_hol)
              = (Return tt,
                 converted "cal.hol"
                   (vcalendar "Test" [("A", mkdatetime 2024 1 1 0 0 0);
                                      ("B", mkdatetime 2024 12 31 0 0 0)]
                      example_world)
                   (one_file "cal.hol" example_hol))).
  { apply (main_success_intro "cal.hol" example_world _ example_hol "Test" "2");
      reflexivity. }
  split; [exact H|].
  exact (converted_document_lines "cal.hol" None example_world _ _ H).
Defined.

(** X7.  A source file that ends with its header, with or without the
    line feed of that line, is converted to the calendar without events:
    BEGIN:VCALENDAR, VERSION:2.0, the PRODID of the title and
    END:VCALENDAR. *)
Theorem header_only_file (source_path : string) (w : world) (st : state)
    (text title count : string) :
  suffix source_path = ".hol" ->
  files st !! source_path = Some text ->
  match_header (fst (readline text)) = Some (title, count) ->
  snd (readline text) = "" ->
  main source_path None w st
  = (Return tt,
     converted source_path
       ("BEGIN:VCALENDAR" +:+ CRLF +:+ "VERSION:2.0" +:+ CRLF
        +:+ "PRODID:-//" +:+ title +:+ "//EN" +:+ CRLF +:+ "END:VCALENDAR")
       st).
Proof.
  intros Hs Hf Hm Hrest.
  rewrite (main_success_intro _ w st text title count [] Hs Hf Hm).
  - reflexivity.
  - now rewrite Hrest.
Qed.

Lemma header_only_file_witness :
  suffix "empty.hol" = ".hol"
  /\ files (one_file "empty.hol" ("[None] 0" +:+ String LF "")) !! "empty.hol"
     = Some ("[None] 0" +:+ String LF "")
  /\ match_header (fst (readline ("[None] 0" +:+ String LF "")))
     = Some ("None", "0")
  /\ snd (readline ("[None] 0" +:+ String LF "")) = ""
  /\ main "empty.hol" None example_world
          (one_file "empty.hol" ("[None] 0" +:+ String LF ""))
     = (Return tt,
        converted "empty.hol"
          ("BEGIN:VCALENDAR" +:+ CRLF +:+ "VERSION:2.0" +:+ CRLF
           +:+ "PRODID:-//" +:+ "None" +:+ "//EN" +:+ CRLF +:+ "END:VCALENDAR")
          (one_file "empty.hol" ("[None] 0" +:+ String LF ""))).
Proof.
  split; [reflexivity|]. split; [reflexivity|]. split; [reflexivity|].
  split; [reflexivity|].
  apply (header_only_file "empty.hol" example_world _
           ("[None] 0" +:+ String LF "") "None" "0"); reflexivity.
Defined.

(* ===================================================================== *)
(** * Dates, read and written *)
(* ===================================================================== *)

Section Spellings.

Lemma re_md_spellings (y m d : N) (ms ds : string) :
  1 <= m <= 12 -> 1 <= d <= 31 ->
  In ms (month_spellings m) -> In ds (day_spellings d) ->
  re_slash (re_group re_m (fun m0 =>
    re_slash (re_group re_d (fun d0 r' => Some (y, m0, d0, r')))))
    (String "/" (ms +:+ String "/" ds))
  = Some (y, m, d, "").
Proof.
  intros Hm Hd.
  rewrite <- (N2Nat.id m) in *. rewrite <- (N2Nat.id d) in *.
  generalize dependent (N.to_nat d). generalize dependent (N.to_nat m).
  intros km Hm kd Hd Hms Hds.
  do 13 (destruct km as [|km];
         [try lia;
          do 32 (destruct kd as [|kd];
                 [first [lia
                        | vm_compute in Hms, Hds;
                          repeat (destruct Hms as [<-|Hms]; try contradiction);
                          repeat (destruct Hds as [<-|Hds]; try contradiction);
                          reflexivity]|]); lia|]).
  lia.
Qed.

(** A valid date in any of its spellings is read as that date. *)
Lemma strptime_ymd_spellings (y m d : N) (ms ds : string) :
  valid_date y m d = true ->
  In ms (month_spellings m) -> In ds (day_spellings d) ->
  strptime_ymd (digits4 y +:+ "/" +:+ ms +:+ "/" +:+ ds)
  = Return (mkdatetime y m d 0 0 0).
Proof.
  intros H Hms Hds. pose proof H as V. unfold valid_date in H.
  repeat (apply andb_true_iff in H as [H ?]).
  repeat match goal with H : (_ <=? _) = true |- _ => apply N.leb_le in H end.
  pose proof (days_in_month_le y m).
  unfold strptime_ymd, re_ymd.
  rewrite (re_Y_append (digits4 y) y "" _ (re_Y_digits4 y ltac:(lia))).
  cbn [String.append].
  rewrite (re_md_spellings y m d ms ds) by (assumption || lia).
  now rewrite V.
Qed.

End Spellings.

(** X8.  A valid date, with the year in four digits and month and day
    written in two digits or without the zero in front (the day also with
    a space for the zero), is read as that date, and the writer formats
    that date in one way: the year without zeros on its left, then the two
    digits of the month and the two of the day.  The spellings of one date
    all give the same DTSTART; from the year 1000 on it is the eight
    digits of year, month and day. *)
Theorem date_spellings_same_dtstart (y m d : N) (ms ds : string) :
  valid_date y m d = true ->
  In ms (month_spellings m) -> In ds (day_spellings d) ->
  strptime_ymd (digits4 y +:+ "/" +:+ ms +:+ "/" +:+ ds)
  = Return (mkdatetime y m d 0 0 0)
  /\ strftime_ymd (mkdatetime y m d 0 0 0)
     = dec y +:+ digits2 m +:+ digits2 d
  /\ (1000 <= y -> strftime_ymd (mkdatetime y m d 0 0 0) = yyyymmdd y m d).
Proof.
  intros V Hms Hds. split; [now apply strptime_ymd_spellings|].
  split; [now apply strftime_ymd_digits|].
  intros Hy. now apply strftime_ymd_yyyymmdd.
Qed.

Lemma date_spellings_same_dtstart_witness :
  valid_date 987 2 9 = true
  /\ In "2" (month_spellings 2) /\ In " 9" (day_spellings 9)
  /\ strptime_ymd (digits4 987 +:+ "/" +:+ "2" +:+ "/" +:+ " 9")
     = Return (mkdatetime 987 2 9 0 0 0)
  /\ strftime_ymd (mkdatetime 987 2 9 0 0 0)
     = dec 987 +:+ digits2 2 +:+ digits2 9.
Proof.
  assert (Hm : In "2" (month_spellings 2)) by (right; left; reflexivity).
  assert (Hd : In " 9" (day_spellings 9))
    by (right; right; left; reflexivity).
  split; [reflexivity|]. split; [exact Hm|]. split; [exact Hd|].
  destruct (date_spellings_same_dtstart 987 2 9 "2" " 9" eq_refl Hm Hd)
    as (P & F & _).
  exact (conj P F).
Defined.

(** X9.  Every record a line gives has a date of the calendar, at
    midnight: the year from 1 to 9999, the month from 1 to 12, the day
    from 1 to the length of that month in that year.  Its DTSTART is the
    year without zeros on its left, then the two digits of the month and
    the two of the day: eight digits from the year 1000 on. *)
Theorem record_date_is_valid (line title : string) (dt : datetime) :
  line_to_event_tuple line = Return (title, dt) ->
  valid_date (year dt) (month dt) (day dt) = true
  /\ hour dt = 0 /\ minute dt = 0 /\ second dt = 0
  /\ strftime_ymd dt = dec (year dt) +:+ digits2 (month dt) +:+ digits2 (day dt)
  /\ (1000 <= year dt ->
      strftime_ymd dt = yyyymmdd (year dt) (month dt) (day dt)).
Proof.
  unfold line_to_event_tuple.
  destruct (split_record line) as [[t d]|e]; [|discriminate]. cbn [bind].
  unfold strptime_ymd.
  destruct (re_ymd (strip d)) as [[[[y m] d0] [|c r]]|]; try discriminate.
  destruct (valid_date y m d0) eqn:V; [|discriminate].
  cbn [bind]. intros [= _ <-]. cbn [year month day hour minute second].
  split; [exact V|].
  split; [reflexivity|]. split; [reflexivity|]. split; [reflexivity|].
  split; [now apply (strftime_ymd_digits (mkdatetime y m d0 0 0 0))|].
  intros Hy. now apply (strftime_ymd_yyyymmdd (mkdatetime y m d0 0 0 0)).
Qed.

Lemma record_date_is_valid_witness :
  line_to_event_tuple "Leap Day,2024/02/29"
  = Return ("Leap Day", mkdatetime 2024 2 29 0 0 0)
  /\ valid_date 2024 2 29 = true
  /\ strftime_ymd (mkdatetime 2024 2 29 0 0 0) = yyyymmdd 2024 2 29.
Proof.
  split; [reflexivity|].
  destruct (record_date_is_valid "Leap Day,2024/02/29" "Leap Day"
              (mkdatetime 2024 2 29 0 0 0) eq_refl)
    as (V & _ & _ & _ & _ & F).
  split; [exact V|]. apply F. cbn [year]. lia.
Defined.



(* ===================================================================== *)
(** * Exceptions of a run, and a second run *)
(* ===================================================================== *)

(** X11.  When no [--dest] is given, the source path has the suffix
    [.hol] and no file can be read at that path, the run raises the error
    of [open] for the source path, which is no [ValueError]; it has
    printed the line "Attempting to convert" and nothing else, and it has
    changed no file. *)
Theorem main_source_not_opened (source_path : string) (w : world)
    (st : state) :
  suffix source_path = ".hol" ->
  files st !! source_path = None ->
  main source_path None w st
  = (Raise (OSError source_path),
     print (attempting source_path (ics_beside source_path)) st)
  /\ is_ValueError (OSError source_path) = false
  /\ files (snd (main source_path None w st)) = files st
  /\ stdout (snd (main source_path None w st))
     = stdout st ++ [attempting source_path (ics_beside source_path)].
Proof.
  intros Hs Hf. rewrite (main_steps _ _ _ Hs). cbv zeta. rewrite Hf.
  split; [reflexivity|]. split; [reflexivity|]. split; reflexivity.
Qed.

Lemma main_source_not_opened_witness :
  suffix "gone.hol" = ".hol"
  /\ files (mkstate ∅ []) !! "gone.hol" = None
  /\ main "gone.hol" None example_world (mkstate ∅ [])
     = (Raise (OSError "gone.hol"),
        mkstate ∅ ["Attempting to convert gone.hol into gone.ics"]).
Proof.
  split; [reflexivity|]. split; [reflexivity|].
  exact (proj1 (main_source_not_opened "gone.hol" example_world
                  (mkstate ∅ []) eq_refl eq_refl)).
Defined.

Section SecondRun.

Lemma records_lines_same (w1 w2 : world) (records : list event) (i : nat) :
  Forall2 same_field (records_lines w1 i records) (records_lines w2 i records).
Proof.
  revert i. induction records as [|[name start_date] records IH]; intros i;
    [constructor|].
  cbn [records_lines]. apply Forall2_app; [apply event_lines_same | apply IH].
Qed.

(** The documents of the same records in two worlds. *)
Lemma vcalendar_same_apart (title : string) (records : list event)
    (w1 w2 : world) :
  lf_free title -> Forall (fun record => lf_free (fst record)) records ->
  same_apart_from_uid_dtstamp (vcalendar title records w1)
                              (vcalendar title records w2).
Proof.
  intros Ht Hr. unfold same_apart_from_uid_dtstamp.
  assert (Hlf : forall w, Forall lf_free
            (head_lines title ++ records_lines w 0%nat records
             ++ ["END:VCALENDAR"])).
  { intros w. apply Forall_app. split.
    - unfold head_lines. repeat constructor. unfold lf_free in *.
      rewrite !count_char_app, Ht. reflexivity.
    - apply Forall_app. split; [|now repeat constructor].
      now apply records_lines_lf_free. }
  rewrite !vcalendar_join, !split_crlf_join by (discriminate || apply Hlf).
  apply Forall2_app; [apply Forall2_same_field_refl|].
  apply Forall2_app; [apply records_lines_same | apply Forall2_same_field_refl].
Qed.

(** The result of a run does not depend on the world. *)
Lemma main_result_any_world (source_path : string)
    (destination_path : option string) (w1 w2 : world) (st : state) :
  fst (main source_path destination_path w1 st)
  = fst (main source_path destination_path w2 st).
Proof.
  destruct (files st !! source_path) as [text|] eqn:Hfile.
  - destruct (match_header (fst (readline text))) as [[title count]|] eqn:Hm.
    + now destruct (main_related w1 w2 same_field (event_lines_same w1 w2)
                      same_field_refl source_path destination_path st st
                      text text title count count (fun _ => True)
                      Hfile Hfile (fun _ _ => eq_refl) eq_refl Hm Hm eq_refl)
        as (Hr & _).
    + now rewrite (main_no_header w1 w2 source_path destination_path st)
        by now rewrite Hfile.
  - now rewrite (main_no_header w1 w2 source_path destination_path st)
      by now rewrite Hfile.
Qed.

End SecondRun.

(** X12.  A second run of the script after a first one, with other
    identifiers and another clock: it ends with the same result, and it
    leaves the files as the first run left them, apart from the values of
    UID and DTSTAMP in the document, which is written again, the source
    being another file.  With the same identifiers and the same clock the
    files are the same. *)
Theorem main_again_same_files (source_path : string)
    (destination_path : option string) (w w2 : world) (st : state) :
  fst (main source_path destination_path w2
            (snd (main source_path destination_path w st)))
  = fst (main source_path destination_path w st)
  /\ (forall p,
        same_file
          (files (snd (main source_path destination_path w2
                         (snd (main source_path destination_path w st)))) !! p)
          (files (snd (main source_path destination_path w st)) !! p))
  /\ files (snd (main source_path destination_path w
                      (snd (main source_path destination_path w st))))
     = files (snd (main source_path destination_path w st)).
Proof.
  destruct (main source_path destination_path w st) as [[[]|e] st1] eqn:H;
    cbn [fst snd].
  - destruct (main_success_inv _ _ _ _ _ _ H)
      as (-> & Hs & text & title & count & records & Hf & Hm & Hr & ->).
    assert (Hf1 : files (converted source_path (vcalendar title records w) st)
                    !! source_path = Some text).
    { unfold converted. cbn [files]. rewrite lookup_insert_ne; [exact Hf|].
      now apply ics_beside_not_source. }
    rewrite !(fun w0 => main_success_intro _ w0 _ text title count records
                          Hs Hf1 Hm Hr).
    unfold converted. cbn [fst snd files].
    split; [reflexivity|]. split; [|apply insert_insert_eq].
    intros p. destruct (decide (ics_beside source_path = p)) as [<-|Hne].
    + rewrite !lookup_insert_eq. cbn [same_file].
      apply vcalendar_same_apart.
      * now destruct (match_header_title _ _ _ Hm) as (_ & Ht & _).
      * exact (file_records_lf_free _ _ Hr).
    + rewrite !lookup_insert_ne by exact Hne. apply same_file_refl.
  - pose proof (main_raise_files _ _ _ _ _ _ H) as Hfiles.
    assert (G : forall w0 : world,
              fst (main source_path destination_path w0 st1) = Raise e
              /\ files (snd (main source_path destination_path w0 st1))
                 = files st1).
    { intros w0.
      destruct (main_files_only source_path destination_path w0 st1 st Hfiles)
        as [Hr _].
      rewrite (main_result_any_world _ _ w0 w st), H in Hr. cbn [fst] in Hr.
      split; [exact Hr|].
      destruct (main source_path destination_path w0 st1) as [r st2] eqn:H2.
      cbn [fst snd] in *. subst r.
      exact (main_raise_files _ _ _ _ _ _ H2). }
    destruct (G w2) as [-> ->]. destruct (G w) as [_ ->].
    split; [reflexivity|]. split; [|reflexivity].
    intros p. apply same_file_refl.
Qed.

(* ===================================================================== *)
(** * The title of the header *)
(* ===================================================================== *)

(** X13.  The title the header pattern finds has one character at least
    and no line feed, and the count is one decimal digit or more.  A first
    line whose brackets hold nothing, with no other closing bracket
    behind them, has no title: the reader raises the [ValueError] of the
    header, whatever count the line has. *)
Theorem header_title_not_empty :
  (forall header title count : string,
      match_header header = Some (title, count) ->
      title <> "" /\ lf_free title
      /\ forallb_str isdigit count = true /\ count <> "")
  /\ (forall tail : string,
        count_char "]" tail = O -> match_header ("[]" +:+ tail) = None)
  /\ (forall (source_filename tail body : string) (st : state),
        count_char "]" tail = O -> count_char LF tail = O ->
        files st !! source_filename
        = Some ("[]" +:+ tail +:+ String LF body) ->
        read_hol_file source_filename st
        = (Raise (ValueError "Unable to find header in given hol file"), st)).
Proof.
  split; [exact match_header_title|].
  assert (Hno : forall tail : string,
             count_char "]" tail = O -> match_header ("[]" +:+ tail) = None).
  { intros tail H. cbn [String.append match_header].
    rewrite Ascii.eqb_refl. now apply re_title_count_closing_first. }
  split; [exact Hno|].
  intros source_filename tail body st Hb Hlf Hf.
  rewrite (read_hol_file_text _ _ _ Hf).
  replace ("[]" +:+ tail +:+ String LF body)
    with (("[]" +:+ tail) +:+ String LF body) by (norm_app; reflexivity).
  rewrite readline_app, readline_LF by (norm_count; exact Hlf).
  cbn [fst].
  replace (("[]" +:+ tail) +:+ String LF "")
    with ("[]" +:+ (tail +:+ String LF "")) by (norm_app; reflexivity).
  rewrite Hno; [reflexivity|].
  rewrite count_char_app, Hb. reflexivity.
Qed.

Lemma header_title_not_empty_witness :
  count_char "]" " 12" = O /\ count_char LF " 12" = O
  /\ files (one_file "cal.hol" ("[]" +:+ " 12" +:+ String LF "A,2024/01/01"))
       !! "cal.hol"
     = Some ("[]" +:+ " 12" +:+ String LF "A,2024/01/01")
  /\ read_hol_file "cal.hol"
       (one_file "cal.hol" ("[]" +:+ " 12" +:+ String LF "A,2024/01/01"))
     = (Raise (ValueError "Unable to find header in given hol file"),
        one_file "cal.hol" ("[]" +:+ " 12" +:+ String LF "A,2024/01/01")).
Proof.
  split; [reflexivity|]. split; [reflexivity|]. split; [reflexivity|].
  apply (proj2 (proj2 header_title_not_empty) "cal.hol" " 12" "A,2024/01/01"
           (one_file "cal.hol" ("[]" +:+ " 12" +:+ String LF "A,2024/01/01")));
    reflexivity.
Defined.

(* ===================================================================== *)
(** * The line feed at the end of the file *)
(* ===================================================================== *)

Section FinalLineFeed.

Lemma span_snoc_stop (p : ascii -> bool) (c : ascii) (s : string) :
  p c = false ->
  span p (s +:+ String c "")
  = (fst (span p s), snd (span p s) +:+ String c "").
Proof.
  intros Hc. induction s as [|x s IH].
  - cbn [String.append span]. now rewrite Hc.
  - change (String x s +:+ String c "") with (String x (s +:+ String c "")).
    cbn [span]. destruct (p x); [|reflexivity].
    rewrite IH. now destruct (span p s).
Qed.

Lemma re_close_count_snoc_LF (s : string) :
  re_close_count (s +:+ String LF "") = re_close_count s.
Proof.
  destruct s as [|c r]; [reflexivity|].
  change (String c r +:+ String LF "") with (String c (r +:+ String LF "")).
  cbn [re_close_count]. destruct (Ascii.eqb c "]"); [|reflexivity].
  pose proof (span_decompose isspace r) as D.
  pose proof (span_run isspace r) as Hrun.
  pose proof (span_rest_not_headed isspace r) as Hrest.
  destruct (span isspace r) as [ws r1]. cbn [fst snd] in *.
  rewrite D, app_assoc_str, (span_app _ _ _ Hrun).
  destruct r1 as [|x r1].
  - cbn [String.append]. reflexivity.
  - change (String x r1 +:+ String LF "")
      with (String x (r1 +:+ String LF "")).
    cbn [not_headed] in Hrest. apply negb_true_iff in Hrest.
    rewrite (span_stop _ _ _ Hrest). cbn [fst snd].
    change (String x (r1 +:+ String LF ""))
      with (String x r1 +:+ String LF "").
    rewrite (span_snoc_stop isdigit LF _ isdigit_LF).
    now destruct (span isdigit (String x r1)) as [[|d ds] rest].
Qed.

Lemma re_title_count_snoc_LF (s : string) :
  re_title_count (s +:+ String LF "") = re_title_count s.
Proof.
  induction s as [|c s IH]; [reflexivity|].
  change (String c s +:+ String LF "") with (String c (s +:+ String LF "")).
  cbn [re_title_count]. now rewrite IH, re_close_count_snoc_LF.
Qed.

(** A line feed at the end of the first line is outside the pattern. *)
Lemma match_header_snoc_LF (header : string) :
  match_header (header +:+ String LF "") = match_header header.
Proof.
  destruct header as [|c s]; [reflexivity|].
  change (String c s +:+ String LF "") with (String c (s +:+ String LF "")).
  cbn [match_header]. now rewrite re_title_count_snoc_LF.
Qed.

Lemma readline_one_line (t : string) :
  count_char LF t = O -> readline t = (t, "").
Proof.
  induction t as [|c t IH]; [reflexivity|]. cbn [count_char readline].
  destruct (Ascii.eqb c LF); [discriminate|]. intros H. now rewrite (IH H).
Qed.

(** What is added behind the first line is left to the lines that follow. *)
Lemma readline_app_rest (t x : string) :
  count_char LF t <> O ->
  readline (t +:+ x) = (fst (readline t), snd (readline t) +:+ x).
Proof.
  induction t as [|c t IH]; [contradiction|].
  change (String c t +:+ x) with (String c (t +:+ x)).
  cbn [count_char readline]. destruct (Ascii.eqb c LF); [reflexivity|].
  intros H. rewrite (IH H). now destruct (readline t).
Qed.

(** A last line without line feed, and the same line with it. *)
Lemma readlines_snoc_LF (r : string) (c : ascii) :
  Ascii.eqb c LF = false ->
  exists ls l,
    readlines (r +:+ String c "") = ls ++ [l]
    /\ readlines (r +:+ String c (String LF "")) = ls ++ [l +:+ String LF ""].
Proof.
  intros Hc. induction r as [|x r (ls & l & H1 & H2)].
  - exists [], (String c ""). cbn [String.append readlines]. rewrite Hc.
    cbn [readlines]. replace (Ascii.eqb LF LF) with true by reflexivity.
    now split.
  - change (String x r +:+ String c "") with (String x (r +:+ String c "")).
    change (String x r +:+ String c (String LF ""))
      with (String x (r +:+ String c (String LF ""))).
    cbn [readlines]. rewrite H1, H2. destruct (Ascii.eqb x LF).
    + exists (String x "" :: ls), l. now split.
    + destruct ls as [|a ls].
      * exists [], (String x l). now split.
      * exists (String x a :: ls), l. now split.
Qed.

Lemma records_snoc_LF (r : string) (c : ascii) :
  Ascii.eqb c LF = false ->
  map line_to_event_tuple (readlines (r +:+ String c (String LF "")))
  = map line_to_event_tuple (readlines (r +:+ String c "")).
Proof.
  intros Hc. destruct (readlines_snoc_LF r c Hc) as (ls & l & -> & ->).
  rewrite !map_app. cbn [map]. now rewrite line_to_event_tuple_line_feed.
Qed.

(** The writer on two states: the same result, the same document. *)
Lemma write_ics_file_two_states (events : iterable event)
    (destination_filename title : string) (w : world) (st1 st2 : state) :
  fst (write_ics_file events destination_filename title w st1)
  = fst (write_ics_file events destination_filename title w st2)
  /\ (stdout st1 = stdout st2 ->
      stdout (snd (write_ics_file events destination_filename title w st1))
      = stdout (snd (write_ics_file events destination_filename title w st2)))
  /\ forall p, files st1 !! p = files st2 !! p ->
       files (snd (write_ics_file events destination_filename title w st1)) !! p
       = files (snd (write_ics_file events destination_filename title w st2)) !! p.
Proof.
  unfold write_ics_file.
  destruct (event_loop w 0%nat events _) as [ls|e];
    cbn [fst snd write_text files stdout]; [|now repeat split].
  repeat split; [easy|]. intros p Hp.
  destruct (decide (destination_filename = p)) as [->|Hne].
  - now rewrite !lookup_insert_eq.
  - now rewrite !lookup_insert_ne.
Qed.

Lemma main_final_line_feed (source_path : string)
    (destination_path : option string) (w : world) (st : state)
    (text : string) (c : ascii) :
  Ascii.eqb c LF = false ->
  fst (main source_path destination_path w
         (write_text source_path (text +:+ String c "") st))
  = fst (main source_path destination_path w
           (write_text source_path (text +:+ String c (String LF "")) st))
  /\ stdout (snd (main source_path destination_path w
                    (write_text source_path (text +:+ String c "") st)))
     = stdout (snd (main source_path destination_path w
                      (write_text source_path
                         (text +:+ String c (String LF "")) st)))
  /\ forall p, p <> source_path ->
       files (snd (main source_path destination_path w
                     (write_text source_path (text +:+ String c "") st))) !! p
       = files (snd (main source_path destination_path w
                       (write_text source_path
                          (text +:+ String c (String LF "")) st))) !! p.
Proof.
  intros Hc.
  assert (Hother : forall (t1 t2 : string) p, p <> source_path ->
            files (write_text source_path t1 st) !! p
            = files (write_text source_path t2 st) !! p).
  { intros t1 t2 p Hp. cbn [write_text files].
    now rewrite !lookup_insert_ne by (intros E; apply Hp; now rewrite E). }
  destruct destination_path as [given|].
  { rewrite !main_destination_given. cbn [fst snd]. repeat split.
    intros p Hp. now apply Hother. }
  destruct (String.eqb_spec (suffix source_path) ".hol") as [Hs|Hs].
  2:{ rewrite !(main_source_extension _ _ _ _ Hs). cbn [fst snd]. repeat split.
      intros p Hp. now apply Hother. }
  rewrite !(main_steps _ _ _ Hs). cbv zeta.
  cbn [write_text files]. rewrite !lookup_insert_eq.
  assert (Hhead : match_header (fst (readline (text +:+ String c (String LF ""))))
                  = match_header (fst (readline (text +:+ String c "")))
                  /\ map line_to_event_tuple
                       (readlines (snd (readline (text +:+ String c (String LF "")))))
                     = map line_to_event_tuple
                         (readlines (snd (readline (text +:+ String c ""))))).
  { destruct (count_char LF text) as [|n] eqn:E.
    - assert (E1 : count_char LF (text +:+ String c "") = O).
      { rewrite count_char_app, E. cbn [count_char]. now rewrite Hc. }
      replace (text +:+ String c (String LF ""))
        with ((text +:+ String c "") +:+ String LF "")
        by (norm_app; reflexivity).
      rewrite (readline_app _ _ E1), readline_LF, (readline_one_line _ E1).
      cbn [fst snd]. split; [apply match_header_snoc_LF | reflexivity].
    - rewrite !readline_app_rest by lia. cbn [fst snd].
      split; [reflexivity|]. now apply records_snoc_LF. }
  destruct Hhead as [-> ->].
  destruct (match_header (fst (readline (text +:+ String c ""))))
    as [[title count]|].
  - match goal with
    | |- context [write_ics_file ?ev ?dst ?t w ?s1] =>
        match goal with
        | |- context [write_ics_file ev dst t w ?s2] =>
            lazymatch s1 with
            | s2 => fail
            | _ => destruct (write_ics_file_two_states ev dst t w s1 s2)
                     as (Hr & Ho & Hf)
            end
        end
    end.
    split; [exact Hr|]. split; [now apply Ho|].
    intros p Hp. apply Hf. cbn [print files]. now apply Hother.
  - cbn [fst snd print files stdout]. repeat split.
    intros p Hp. now apply Hother.
Qed.

End FinalLineFeed.

(** X14.  Whether the source file ends with a line feed or not makes no
    difference: the run on a file that ends with another character and
    the run on the same file with a line feed added end with the same
    result and the same output and leave the same files, the source
    apart. *)
Theorem final_line_feed_makes_no_difference (source_path : string)
    (destination_path : option string) (w : world) (st : state)
    (text : string) (c : ascii) :
  Ascii.eqb c LF = false ->
  fst (main source_path destination_path w
         (write_text source_path (text +:+ String c "") st))
  = fst (main source_path destination_path w
           (write_text source_path (text +:+ String c (String LF "")) st))
  /\ stdout (snd (main source_path destination_path w
                    (write_text source_path (text +:+ String c "") st)))
     = stdout (snd (main source_path destination_path w
                      (write_text source_path
                         (text +:+ String c (String LF "")) st)))
  /\ forall p, p <> source_path ->
       files (snd (main source_path destination_path w
                     (write_text source_path (text +:+ String c "") st))) !! p
       = files (snd (main source_path destination_path w
                       (write_text source_path
                          (text +:+ String c (String LF "")) st))) !! p.
Proof.
  exact (main_final_line_feed source_path destination_path w st text c).
Qed.

Lemma final_line_feed_makes_no_difference_witness :
  Ascii.eqb "1" LF = false
  /\ fst (main "cal.hol" None example_world
            (write_text "cal.hol"
               (("[Test] 1" +:+ String LF "A,2024/01/0") +:+ String "1" "")
               (mkstate ∅ [])))
     = fst (main "cal.hol" None example_world
              (write_text "cal.hol"
                 (("[Test] 1" +:+ String LF "A,2024/01/0")
                  +:+ String "1" (String LF ""))
                 (mkstate ∅ []))).
Proof.
  split; [reflexivity|].
  exact (proj1 (final_line_feed_makes_no_difference "cal.hol" None
                  example_world (mkstate ∅ [])
                  ("[Test] 1" +:+ String LF "A,2024/01/0") "1" eq_refl)).
Defined.

(* ===================================================================== *)
(** * Dates that are no dates *)
(* ===================================================================== *)

(** Runs the expression a goal looks at, and closes the goal by
    arithmetic. *)
Ltac run_match :=
  match goal with
  | |- match ?t with _ => _ end =>
      let v := eval vm_compute in t in change t with v
  end; cbv beta iota; lia.

Section NoDates.

(** Month and day in two digits each: they are read back when the month
    is one of the twelve and the day is not beyond 31, and otherwise the
    expression does not match or does not reach the end of the text. *)
Lemma re_md_two_digits (y m d : N) :
  m < 100 -> d < 100 ->
  match re_slash (re_group re_m (fun m0 =>
          re_slash (re_group re_d (fun d0 r' => Some (y, m0, d0, r')))))
          (String "/" (digits2 m +:+ String "/" (digits2 d))) with
  | Some (y0, m0, d0, EmptyString) =>
      y0 = y /\ m0 = m /\ d0 = d /\ 1 <= m <= 12 /\ 1 <= d <= 31
  | _ => ~ (1 <= m <= 12 /\ 1 <= d <= 31)
  end.
Proof.
  intros Hm Hd.
  rewrite <- (N2Nat.id m) in *. rewrite <- (N2Nat.id d) in *.
  generalize dependent (N.to_nat d). generalize dependent (N.to_nat m).
  intros km Hm kd Hd.
  assert (Hmonth : (km = 0 \/ 13 <= km < 100 \/ 1 <= km <= 12)%nat) by lia.
  destruct Hmonth as [->|[Hbad|Hgood]].
  - run_match.
  - do 13 (destruct km as [|km]; [lia|]).
    do 87 (destruct km as [|km]; [run_match|]). lia.
  - do 13 (destruct km as [|km];
           [try lia; do 100 (destruct kd as [|kd]; [run_match|]); lia|]).
    lia.
Qed.

Lemma valid_date_bounds (y m d : N) :
  valid_date y m d = true -> 1 <= m <= 12 /\ 1 <= d <= 31.
Proof.
  unfold valid_date. intros H.
  repeat (apply andb_true_iff in H as [H ?]).
  repeat match goal with H : (_ <=? _) = true |- _ => apply N.leb_le in H end.
  pose proof (days_in_month_le y m). lia.
Qed.

End NoDates.

(** X15.  A text of the form YYYY/MM/DD, in digits, is a date for the
    reader exactly when it is a date of the calendar: it is read as that
    year, month and day when the month is one of the twelve, the day is
    one of that month in that year and the year is not 0000; the year
    0000, the month 00 or 13, the day 00 or 32, the 30th of February and
    the like all raise. *)
Theorem strptime_ymd_calendar_dates_only (y m d : N) :
  y < 10000 -> m < 100 -> d < 100 ->
  match strptime_ymd (digits4 y +:+ "/" +:+ digits2 m +:+ "/" +:+ digits2 d)
  with
  | Return dt => valid_date y m d = true /\ dt = mkdatetime y m d 0 0 0
  | Raise e => valid_date y m d = false /\ is_ValueError e = true
  end.
Proof.
  intros Hy Hm Hd. unfold strptime_ymd, re_ymd.
  rewrite (re_Y_append (digits4 y) y "" _ (re_Y_digits4 y Hy)).
  cbn [String.append].
  pose proof (re_md_two_digits y m d Hm Hd) as H.
  destruct (re_slash _ _) as [[[[y0 m0] d0] [|c r]]|].
  - destruct H as (-> & -> & -> & _).
    destruct (valid_date y m d); now split.
  - split; [|reflexivity].
    destruct (valid_date y m d) eqn:V; [|reflexivity].
    destruct (H (valid_date_bounds _ _ _ V)).
  - split; [|reflexivity].
    destruct (valid_date y m d) eqn:V; [|reflexivity].
    destruct (H (valid_date_bounds _ _ _ V)).
Qed.

Lemma strptime_ymd_calendar_dates_only_witness :
  strptime_ymd (digits4 2023 +:+ "/" +:+ digits2 2 +:+ "/" +:+ digits2 29)
  = Raise (StrptimeError OutOfRange)
  /\ valid_date 2023 2 29 = false.
Proof.
  pose proof (strptime_ymd_calendar_dates_only 2023 2 29
                ltac:(lia) ltac:(lia) ltac:(lia)) as H.
  split; [reflexivity|].
  change (strptime_ymd (digits4 2023 +:+ "/" +:+ digits2 2 +:+ "/"
                        +:+ digits2 29))
    with (@Raise datetime (StrptimeError OutOfRange)) in H.
  exact (proj1 H).
Defined.
